(** * SmartAccountProvider: the user-operation construction pipeline

    A shallow embedding of [SmartAccountProvider] (aa-core provider, shipped in
    [site/smart-accounts/signers/capsule.md]): the four middleware stages, the
    fee bid, request validation, signing and submission, and the receipt
    polling loop.

    Asynchronous code is modelled sequentially: every call on the bound
    account, on the bundler client or on the timer appends one event to a
    trace, and the answer of a collaborator is a function of the trace so far.
    A computation is a function from the trace to an outcome and the extended
    trace; a failure keeps the trace, so that "nothing was called before the
    failure" is a statement about the final trace. *)

From Stdlib Require Import ZArith List String HexString Bool Arith Lia.
Import ListNotations.

Local Open Scope string_scope.
Local Open Scope list_scope.

(** ** Values *)

(** viem's [Hex], [Address] and [Hash] are all [`0x${string}`]. *)
Definition Hex := string.
Definition Address := string.
Definition Hash := string.

(** What a promise of a collaborator settles to: a value, or a rejection with
    the collaborator's own reason.  A plain (non-promise) value is [Resolves]. *)
Inductive Settled (A : Type) : Type :=
| Resolves (a : A)
| Rejects (reason : string).
Arguments Resolves {A} a.
Arguments Rejects {A} reason.

(** The errors the provider throws itself, by the names of the specification's
    taxonomy; [message] gives the text of the [Error] the source constructs.
    [ExternalError] is a rejection that came from a collaborator, [TypeError]
    the engine's error on destructuring or reading a property of [undefined]. *)
Inductive Error : Type :=
| AccountNotConnectedError
| UnsupportedSignerMismatchError
| InvalidRecipientError
| ConfirmationTimeoutError
| InvalidFeeDataError
| IncompleteRequestError (uo : string)
| ExternalError (reason : string)
| TypeError.

Definition message (e : Error) : string :=
  match e with
  | AccountNotConnectedError => "account not connected!"
  | UnsupportedSignerMismatchError =>
      "cannot sign for address that is not the current account"
  | InvalidRecipientError => "transaction is missing to address"
  | ConfirmationTimeoutError => "Failed to find transaction for User Operation"
  | InvalidFeeDataError => "feeData is missing maxFeePerGas or maxPriorityFeePerGas"
  | IncompleteRequestError uo =>
      ("Request is missing parameters. All properties on UserOperationStruct must be set. uo: "
        ++ uo)%string
  | ExternalError reason => reason
  | TypeError => "TypeError"
  end.

Inductive result (A : Type) : Type :=
| OK (a : A)
| Err (e : Error).
Arguments OK {A} a.
Arguments Err {A} e.

(** ** The user operation

    One record for the three shapes the source uses.  [F] is what a field
    holds, [Num] how a number is written:
    - [UserOperationStruct]: a field is unset, or a value or promise thereof;
    - [ResolvedUserOperation]: after [resolveProperties], unset or a value;
    - [UserOperationRequest]: after [deepHexlify], every number a hex string. *)
Record UserOperation (F : Type -> Type) (Num : Type) : Type := mkUserOperation {
  sender : F Address;
  nonce : F Num;
  initCode : F Hex;
  callData : F Hex;
  callGasLimit : F Num;
  verificationGasLimit : F Num;
  preVerificationGas : F Num;
  maxFeePerGas : F Num;
  maxPriorityFeePerGas : F Num;
  paymasterAndData : F Hex;
  signature : F Hex
}.
Arguments mkUserOperation {F Num}.
Arguments sender {F Num} u.
Arguments nonce {F Num} u.
Arguments initCode {F Num} u.
Arguments callData {F Num} u.
Arguments callGasLimit {F Num} u.
Arguments verificationGasLimit {F Num} u.
Arguments preVerificationGas {F Num} u.
Arguments maxFeePerGas {F Num} u.
Arguments maxPriorityFeePerGas {F Num} u.
Arguments paymasterAndData {F Num} u.
Arguments signature {F Num} u.

Definition PromiseOrValue (T : Type) : Type := option (Settled T).

Definition UserOperationStruct := UserOperation PromiseOrValue Z.
Definition ResolvedUserOperation := UserOperation option Z.
Definition UserOperationRequest := UserOperation option Hex.

(** Assignments [struct.f = v]. *)
Section Assign.
Context {F : Type -> Type} {Num : Type}.

Definition set_callGasLimit (v : F Num) (u : UserOperation F Num) :=
  mkUserOperation (sender u) (nonce u) (initCode u) (callData u)
    v (verificationGasLimit u) (preVerificationGas u)
    (maxFeePerGas u) (maxPriorityFeePerGas u) (paymasterAndData u) (signature u).

Definition set_verificationGasLimit (v : F Num) (u : UserOperation F Num) :=
  mkUserOperation (sender u) (nonce u) (initCode u) (callData u)
    (callGasLimit u) v (preVerificationGas u)
    (maxFeePerGas u) (maxPriorityFeePerGas u) (paymasterAndData u) (signature u).

Definition set_preVerificationGas (v : F Num) (u : UserOperation F Num) :=
  mkUserOperation (sender u) (nonce u) (initCode u) (callData u)
    (callGasLimit u) (verificationGasLimit u) v
    (maxFeePerGas u) (maxPriorityFeePerGas u) (paymasterAndData u) (signature u).

Definition set_maxFeePerGas (v : F Num) (u : UserOperation F Num) :=
  mkUserOperation (sender u) (nonce u) (initCode u) (callData u)
    (callGasLimit u) (verificationGasLimit u) (preVerificationGas u)
    v (maxPriorityFeePerGas u) (paymasterAndData u) (signature u).

Definition set_maxPriorityFeePerGas (v : F Num) (u : UserOperation F Num) :=
  mkUserOperation (sender u) (nonce u) (initCode u) (callData u)
    (callGasLimit u) (verificationGasLimit u) (preVerificationGas u)
    (maxFeePerGas u) v (paymasterAndData u) (signature u).

Definition set_paymasterAndData (v : F Hex) (u : UserOperation F Num) :=
  mkUserOperation (sender u) (nonce u) (initCode u) (callData u)
    (callGasLimit u) (verificationGasLimit u) (preVerificationGas u)
    (maxFeePerGas u) (maxPriorityFeePerGas u) v (signature u).

Definition set_signature (v : F Hex) (u : UserOperation F Num) :=
  mkUserOperation (sender u) (nonce u) (initCode u) (callData u)
    (callGasLimit u) (verificationGasLimit u) (preVerificationGas u)
    (maxFeePerGas u) (maxPriorityFeePerGas u) (paymasterAndData u) v.
End Assign.

(** A field of a struct is defined when it is not [undefined]. *)
Definition defined {T : Type} (v : option T) : bool :=
  match v with Some _ => true | None => false end.

(** ** Request shapes of the RPC surface *)

Record RpcTransactionRequest : Type := mkTx {
  tx_to : option Address;
  tx_data : option Hex;
  tx_value : option Hex
}.

(** The [any] of [params?: any[]] and of the value [request] returns. *)
Inductive JsValue : Type :=
| JsUndefined
| JsString (s : string)
| JsTx (tx : RpcTransactionRequest).

Record RequestArgs : Type := mkArgs {
  method : string;
  params : option (list JsValue)
}.

Module GasEstimates.
Record t : Type := mk {
  callGasLimit : Z;
  verificationGasLimit : Z;
  preVerificationGas : Z
}.
End GasEstimates.

(** [getFeeData]'s answer; a field is [None] when it is [undefined] or [null],
    and an integer (a bigint) otherwise. *)
Module FeeData.
Record t : Type := mk {
  maxFeePerGas : option Z;
  maxPriorityFeePerGas : option Z
}.
End FeeData.

Record TransactionReceipt : Type := mkTransactionReceipt {
  transactionHash : Hash
}.

Record UserOperationReceipt : Type := mkUserOperationReceipt {
  receipt : TransactionReceipt
}.

Module Transaction.
Record t : Type := mk { hash : Hash }.
End Transaction.

Record SendUserOperationResult : Type := mkSendResult {
  result_hash : Hash;
  result_request : UserOperationRequest
}.

(** ** Events and the trace *)

Inductive AccountCall : Type :=
| GetAddress
| GetNonce
| GetInitCode
| EncodeExecute (target : string) (value : Z) (data : string)
| GetDummySignature
| SignMessage (msg : JsValue).

Inductive RpcCall : Type :=
| EstimateUserOperationGas (request : UserOperationRequest) (entryPoint : Address)
| GetMaxPriorityFeePerGas
| GetFeeData
| SendUserOperation (request : UserOperationRequest) (entryPoint : Address)
| GetUserOperationReceipt (hash : Hash)
| GetTransaction (hash : Hash)
| Request (args : RequestArgs).

Inductive Event : Type :=
| EvAccount (c : AccountCall)
| EvRpc (c : RpcCall)
| EvTimeout (ms : nat).

(** Events in the order they happened, oldest first. *)
Definition Trace := list Event.

Definition isLookup (e : Event) : bool :=
  match e with EvRpc (GetUserOperationReceipt _) => true | _ => false end.

Definition isTimeout (e : Event) : bool :=
  match e with EvTimeout _ => true | _ => false end.

(** Receipt lookups made. *)
Definition lookups (t : Trace) : nat := List.length (filter isLookup t).

(** Timer delays taken. *)
Definition delays (t : Trace) : nat := List.length (filter isTimeout t).

(** Time spent in timers, in milliseconds: a lower bound on the wall-clock
    time of the trace, since [setTimeout] waits at least its delay and a call
    takes no negative time. *)
Fixpoint elapsed (t : Trace) : nat :=
  match t with
  | [] => 0
  | EvTimeout ms :: t' => ms + elapsed t'
  | _ :: t' => elapsed t'
  end.

(** ** The collaborators *)

(** [BaseSmartContractAccount], as far as the provider calls it. *)
Module Account.
Record t : Type := mk {
  getAddress : Trace -> Settled Address;
  getNonce : Trace -> Settled Z;
  getInitCode : Trace -> Settled Hex;
  encodeExecute : Trace -> string -> Z -> string -> Settled Hex;
  getDummySignature : Trace -> Settled Hex;
  signMessage : Trace -> JsValue -> Settled Hex
}.
End Account.

(** [PublicErc4337Client], as far as the provider calls it. *)
Module Rpc.
Record t : Type := mk {
  estimateUserOperationGas :
    Trace -> UserOperationRequest -> Address -> Settled GasEstimates.t;
  getMaxPriorityFeePerGas : Trace -> Settled Z;
  getFeeData : Trace -> Settled FeeData.t;
  sendUserOperation : Trace -> UserOperationRequest -> Address -> Settled Hash;
  getUserOperationReceipt : Trace -> Hash -> Settled (option UserOperationReceipt);
  getTransaction : Trace -> Hash -> Settled Transaction.t;
  request : Trace -> RequestArgs -> Settled JsValue
}.
End Rpc.

(** ** Computations *)

Definition M (A : Type) : Type := Trace -> result A * Trace.

Definition ret {A} (a : A) : M A := fun t => (OK a, t).

Definition throw {A} (e : Error) : M A := fun t => (Err e, t).

Definition bind {A B} (m : M A) (f : A -> M B) : M B :=
  fun t =>
    match m t with
    | (OK a, t') => f a t'
    | (Err e, t') => (Err e, t')
    end.

(** [p.catch(h)] *)
Definition catch {A} (m : M A) (h : Error -> M A) : M A :=
  fun t =>
    match m t with
    | (OK a, t') => (OK a, t')
    | (Err e, t') => h e t'
    end.

Declare Scope prov_scope.
Delimit Scope prov_scope with prov.
Notation "x <- c ;; k" := (bind c (fun x => k))
  (at level 61, c at next level, right associativity) : prov_scope.
Notation "c ;;; k" := (bind c (fun _ => k))
  (at level 61, right associativity) : prov_scope.
Local Open Scope prov_scope.

(** Starting a call: the event is recorded, the promise is what the
    collaborator answers to the history before the call. *)
Definition start {A} (ev : Event) (answer : Trace -> Settled A) : M (Settled A) :=
  fun t => (OK (answer t), t ++ [ev]).

(** [await p] *)
Definition await {A} (p : Settled A) : M A :=
  match p with
  | Resolves a => ret a
  | Rejects reason => throw (ExternalError reason)
  end.

(** [await collaborator.f(...)] *)
Definition call {A} (ev : Event) (answer : Trace -> Settled A) : M A :=
  p <- start ev answer ;; await p.

(** [await new Promise((resolve) => setTimeout(resolve, ms))] *)
Definition sleep (ms : nat) : M unit :=
  fun t => (OK tt, t ++ [EvTimeout ms]).

(** ** The provider *)

Definition AccountMiddlewareFn : Type :=
  UserOperationStruct -> M UserOperationStruct.

(** [a ?? d] *)
Definition nullish {A} (a : option A) (d : A) : A :=
  match a with Some v => v | None => d end.

Record SmartAccountProviderOpts : Type := mkOpts {
  opt_txMaxRetries : option nat;
  opt_txRetryIntervalMs : option nat;
  opt_minPriorityFeePerBid : option Z
}.

(** The instance.  The four middleware properties hold either the class's own
    arrow function ([None]) or the function a [with...] call put in its place
    ([Some f]); the class's own functions read [this], so they are resolved
    against the instance when a submission runs ([stage_...] below). *)
Record SmartAccountProvider : Type := mkProvider {
  rpcClient : Rpc.t;
  entryPointAddress : Address;
  chain_id : Z;
  account : option Account.t;
  txMaxRetries : nat;
  txRetryIntervalMs : nat;
  minPriorityFeePerBid : Z;
  own_dummyPaymasterDataMiddleware : option AccountMiddlewareFn;
  own_paymasterMiddleware : option AccountMiddlewareFn;
  own_gasEstimator : option AccountMiddlewareFn;
  own_feeDataGetter : option AccountMiddlewareFn
}.

(** [constructor], for an [rpcProvider] that is already a client. *)
Definition newSmartAccountProvider (rpcProvider : Rpc.t)
    (entryPointAddress : Address) (chain : Z) (account : option Account.t)
    (opts : option SmartAccountProviderOpts) : SmartAccountProvider :=
  mkProvider rpcProvider entryPointAddress chain account
    (nullish (match opts with Some o => opt_txMaxRetries o | None => None end) 5)
    (nullish (match opts with Some o => opt_txRetryIntervalMs o | None => None end) 2000)
    (nullish (match opts with Some o => opt_minPriorityFeePerBid o | None => None end)
       1000000000%Z)
    None None None None.

(** [noOpMiddleware] *)
Definition noOpMiddleware : AccountMiddlewareFn := fun struct => ret struct.

(** Truthiness of an optional bigint: [undefined], [null] and [0n] are falsy. *)
Definition falsy (v : option Z) : bool :=
  match v with
  | None => true
  | Some z => (z =? 0)%Z
  end.

(** Truthiness of an optional string: [undefined], [null] and the empty
    string are falsy.  [truthy s] is the string when it is truthy. *)
Definition truthy (s : option string) : option string :=
  match s with
  | Some v => if String.eqb v "" then None else Some v
  | None => None
  end.

(** [BigInt(v)]: the identity on an integer, a [TypeError] on [undefined]. *)
Definition BigInt (v : option Z) : M Z :=
  match v with
  | Some z => ret z
  | None => throw TypeError
  end.

(** Modelled from the spec: [resolveProperties] of [../utils.js] is not part of
    the sources.  It awaits every property of the struct ("every field ... must
    be concretely resolved (no pending asynchronous value) before encoding");
    an unset property stays unset, a rejected one rejects the whole. *)
Definition resolveProperty {T} (f : PromiseOrValue T) : M (option T) :=
  match f with
  | None => ret None
  | Some p => v <- await p ;; ret (Some v)
  end.

Definition resolveProperties (u : UserOperationStruct) : M ResolvedUserOperation :=
  f1 <- resolveProperty (sender u) ;;
  f2 <- resolveProperty (nonce u) ;;
  f3 <- resolveProperty (initCode u) ;;
  f4 <- resolveProperty (callData u) ;;
  f5 <- resolveProperty (callGasLimit u) ;;
  f6 <- resolveProperty (verificationGasLimit u) ;;
  f7 <- resolveProperty (preVerificationGas u) ;;
  f8 <- resolveProperty (maxFeePerGas u) ;;
  f9 <- resolveProperty (maxPriorityFeePerGas u) ;;
  f10 <- resolveProperty (paymasterAndData u) ;;
  f11 <- resolveProperty (signature u) ;;
  ret (mkUserOperation (F := option) f1 f2 f3 f4 f5 f6 f7 f8 f9 f10 f11).

(** Modelled from the spec: [isValidRequest] of [../types.js] is not part of
    the sources.  "any field still undefined/unset causes failure": a request
    is valid when every field is present. *)
Definition isValidRequest (request : UserOperationRequest) : bool :=
  defined (sender request) && defined (nonce request)
  && defined (initCode request) && defined (callData request)
  && defined (callGasLimit request) && defined (verificationGasLimit request)
  && defined (preVerificationGas request) && defined (maxFeePerGas request)
  && defined (maxPriorityFeePerGas request)
  && defined (paymasterAndData request) && defined (signature request).

(** Every field of the struct is set (to a value or a promise). *)
Definition structComplete (u : UserOperationStruct) : bool :=
  defined (sender u) && defined (nonce u)
  && defined (initCode u) && defined (callData u)
  && defined (callGasLimit u) && defined (verificationGasLimit u)
  && defined (preVerificationGas u) && defined (maxFeePerGas u)
  && defined (maxPriorityFeePerGas u)
  && defined (paymasterAndData u) && defined (signature u).

(** Modelled from the spec: [asyncPipe] of [../utils.js] is not part of the
    sources.  "Four async transform stages, applied strictly in this order,
    each receiving and returning a UserOperationDraft". *)
Fixpoint asyncPipe (fns : list AccountMiddlewareFn) (s : UserOperationStruct)
  : M UserOperationStruct :=
  match fns with
  | [] => ret s
  | fn :: rest => r <- fn s ;; asyncPipe rest r
  end.

Section Provider.

(** viem's [toHex] and [fromHex(_, "bigint")], the engine's
    [JSON.stringify(_, null, 2)], and [getUserOperationHash] of [../utils.js]
    (the entry point's hash of a request, not part of the sources). *)
Variable toHex : Z -> Hex.
Variable fromHex : Hex -> Z.
Variable JSON_stringify : UserOperationRequest -> string.
Variable getUserOperationHash : UserOperationRequest -> Address -> Z -> Hex.

(** Modelled from the spec: [deepHexlify] of [../utils.js] is not part of the
    sources.  "every numeric field is encoded to its canonical hex form"; byte
    strings are hex already and unset fields stay unset. *)
Definition deepHexlify (u : ResolvedUserOperation) : UserOperationRequest :=
  mkUserOperation (F := option)
    (sender u) (option_map toHex (nonce u)) (initCode u) (callData u)
    (option_map toHex (callGasLimit u))
    (option_map toHex (verificationGasLimit u))
    (option_map toHex (preVerificationGas u))
    (option_map toHex (maxFeePerGas u))
    (option_map toHex (maxPriorityFeePerGas u))
    (paymasterAndData u) (signature u).

(** *** The default middleware stages *)

Definition dummyPaymasterDataMiddleware : AccountMiddlewareFn :=
  fun struct => ret (set_paymasterAndData (Some (Resolves "0x")) struct).

Definition paymasterMiddleware : AccountMiddlewareFn :=
  fun struct => ret (set_paymasterAndData (Some (Resolves "0x")) struct).

Definition gasEstimator (this : SmartAccountProvider) : AccountMiddlewareFn :=
  fun struct =>
    resolved <- resolveProperties struct ;;
    let request := deepHexlify resolved in
    estimates <-
      call (EvRpc (EstimateUserOperationGas request (entryPointAddress this)))
        (fun t => Rpc.estimateUserOperationGas (rpcClient this) t request
                    (entryPointAddress this)) ;;
    let struct :=
      set_callGasLimit
        (Some (Resolves (GasEstimates.callGasLimit estimates))) struct in
    let struct :=
      set_verificationGasLimit
        (Some (Resolves (GasEstimates.verificationGasLimit estimates))) struct in
    let struct :=
      set_preVerificationGas
        (Some (Resolves (GasEstimates.preVerificationGas estimates))) struct in
    ret struct.

(** The priority-fee bid: 33% over the suggestion, bigint division (which
    truncates toward zero), raised to the configured minimum. *)
Definition maxPriorityFeePerGasBid (minPriorityFeePerBid : Z)
    (maxPriorityFeePerGas : Z) : Z :=
  let bid := Z.quot (maxPriorityFeePerGas * 4) 3 in
  if (bid <? minPriorityFeePerBid)%Z then minPriorityFeePerBid else bid.

Definition feeDataGetter (this : SmartAccountProvider) : AccountMiddlewareFn :=
  fun struct =>
    maxPriorityFeePerGas <-
      call (EvRpc GetMaxPriorityFeePerGas)
        (Rpc.getMaxPriorityFeePerGas (rpcClient this)) ;;
    feeData <- call (EvRpc GetFeeData) (Rpc.getFeeData (rpcClient this)) ;;
    if falsy (FeeData.maxFeePerGas feeData)
       || falsy (FeeData.maxPriorityFeePerGas feeData)
    then throw InvalidFeeDataError
    else
      let bid :=
        maxPriorityFeePerGasBid (minPriorityFeePerBid this) maxPriorityFeePerGas in
      feeMax <- BigInt (FeeData.maxFeePerGas feeData) ;;
      feePriority <- BigInt (FeeData.maxPriorityFeePerGas feeData) ;;
      let maxFeePerGasBid := (feeMax - feePriority + bid)%Z in
      let struct := set_maxFeePerGas (Some (Resolves maxFeePerGasBid)) struct in
      let struct := set_maxPriorityFeePerGas (Some (Resolves bid)) struct in
      ret struct.

(** The function a middleware property currently holds. *)
Definition stage_dummyPaymasterDataMiddleware (this : SmartAccountProvider) :=
  nullish (own_dummyPaymasterDataMiddleware this) dummyPaymasterDataMiddleware.

Definition stage_gasEstimator (this : SmartAccountProvider) :=
  nullish (own_gasEstimator this) (gasEstimator this).

Definition stage_feeDataGetter (this : SmartAccountProvider) :=
  nullish (own_feeDataGetter this) (feeDataGetter this).

Definition stage_paymasterMiddleware (this : SmartAccountProvider) :=
  nullish (own_paymasterMiddleware this) paymasterMiddleware.

(** The pipeline [sendUserOperation] builds. *)
Definition pipeline (this : SmartAccountProvider) : list AccountMiddlewareFn :=
  [ stage_dummyPaymasterDataMiddleware this;
    stage_gasEstimator this;
    stage_feeDataGetter this;
    stage_paymasterMiddleware this ].

(** *** Rebinding stages and attaching an account *)

Record PaymasterOverrides : Type := mkPaymasterOverrides {
  dummyPaymasterMiddleware : option AccountMiddlewareFn;
  getPaymasterAndDataMiddleware : option AccountMiddlewareFn
}.

Definition withPaymasterMiddleware (this : SmartAccountProvider)
    (overrides : PaymasterOverrides) : SmartAccountProvider :=
  mkProvider (rpcClient this) (entryPointAddress this) (chain_id this)
    (account this) (txMaxRetries this) (txRetryIntervalMs this)
    (minPriorityFeePerBid this)
    (match dummyPaymasterMiddleware overrides with
     | Some f => Some f
     | None => own_dummyPaymasterDataMiddleware this
     end)
    (match getPaymasterAndDataMiddleware overrides with
     | Some f => Some f
     | None => own_paymasterMiddleware this
     end)
    (own_gasEstimator this) (own_feeDataGetter this).

Definition withGasEstimator (this : SmartAccountProvider)
    (override : AccountMiddlewareFn) : SmartAccountProvider :=
  mkProvider (rpcClient this) (entryPointAddress this) (chain_id this)
    (account this) (txMaxRetries this) (txRetryIntervalMs this)
    (minPriorityFeePerBid this)
    (own_dummyPaymasterDataMiddleware this) (own_paymasterMiddleware this)
    (Some override) (own_feeDataGetter this).

Definition withFeeDataGetter (this : SmartAccountProvider)
    (override : AccountMiddlewareFn) : SmartAccountProvider :=
  mkProvider (rpcClient this) (entryPointAddress this) (chain_id this)
    (account this) (txMaxRetries this) (txRetryIntervalMs this)
    (minPriorityFeePerBid this)
    (own_dummyPaymasterDataMiddleware this) (own_paymasterMiddleware this)
    (own_gasEstimator this) (Some override).

Definition connect (this : SmartAccountProvider)
    (fn : Rpc.t -> Account.t) : SmartAccountProvider :=
  mkProvider (rpcClient this) (entryPointAddress this) (chain_id this)
    (Some (fn (rpcClient this))) (txMaxRetries this) (txRetryIntervalMs this)
    (minPriorityFeePerBid this)
    (own_dummyPaymasterDataMiddleware this) (own_paymasterMiddleware this)
    (own_gasEstimator this) (own_feeDataGetter this).

(** *** The operations *)

(** [getAddress]: throws when no account is bound, else hands out the
    account's promise. *)
Definition getAddress (this : SmartAccountProvider) : M (Settled Address) :=
  match account this with
  | None => throw AccountNotConnectedError
  | Some acct => start (EvAccount GetAddress) (Account.getAddress acct)
  end.

(** The body of the [for] loop of [waitForUserOperationTransaction], with
    [remaining = txMaxRetries - i] iterations to go. *)
Fixpoint pollReceipt (this : SmartAccountProvider) (hash : Hash)
    (remaining : nat) : M Hash :=
  match remaining with
  | O => throw ConfirmationTimeoutError
  | S remaining' =>
      sleep (txRetryIntervalMs this) ;;;
      found <-
        catch
          (call (EvRpc (GetUserOperationReceipt hash))
             (fun t => Rpc.getUserOperationReceipt (rpcClient this) t hash))
          (fun _ => ret None) ;;
      match found with
      | Some r =>
          x <- call (EvRpc (GetTransaction (transactionHash (receipt r))))
                 (fun t => Rpc.getTransaction (rpcClient this) t
                             (transactionHash (receipt r))) ;;
          ret (Transaction.hash x)
      | None => pollReceipt this hash remaining'
      end
  end.

Definition waitForUserOperationTransaction (this : SmartAccountProvider)
    (hash : Hash) : M Hash :=
  pollReceipt this hash (txMaxRetries this).

Definition sendUserOperation (this : SmartAccountProvider)
    (target : string) (data : string) (value : option Z)
  : M SendUserOperationResult :=
  match account this with
  | None => throw AccountNotConnectedError
  | Some acct =>
      initCode <- call (EvAccount GetInitCode) (Account.getInitCode acct) ;;
      sender <- getAddress this ;;
      nonce <- start (EvAccount GetNonce) (Account.getNonce acct) ;;
      callData <-
        start (EvAccount (EncodeExecute target (nullish value 0%Z) data))
          (fun t => Account.encodeExecute acct t target (nullish value 0%Z) data) ;;
      signature <-
        start (EvAccount GetDummySignature) (Account.getDummySignature acct) ;;
      uoStruct <-
        asyncPipe (pipeline this)
          (mkUserOperation (F := PromiseOrValue)
             (Some sender) (Some nonce) (Some (Resolves initCode))
             (Some callData) None None None None None None (Some signature)) ;;
      resolved <- resolveProperties uoStruct ;;
      let request := deepHexlify resolved in
      if negb (isValidRequest request)
      then throw (IncompleteRequestError (JSON_stringify request))
      else
        let uoHash :=
          getUserOperationHash request (entryPointAddress this) (chain_id this) in
        signed <-
          call (EvAccount (SignMessage (JsString uoHash)))
            (fun t => Account.signMessage acct t (JsString uoHash)) ;;
        let request := set_signature (Some signed) request in
        hash <-
          call (EvRpc (SendUserOperation request (entryPointAddress this)))
            (fun t => Rpc.sendUserOperation (rpcClient this) t request
                        (entryPointAddress this)) ;;
        ret (mkSendResult hash request)
  end.

(** [sendTransaction].  [!request.to] and [request.value ? ... : 0n] test
    truthiness, [request.data ?? "0x"] tests presence. *)
Definition sendTransaction (this : SmartAccountProvider)
    (request : RpcTransactionRequest) : M Hash :=
  match truthy (tx_to request) with
  | None => throw InvalidRecipientError
  | Some to =>
      r <- sendUserOperation this to
             (nullish (tx_data request) "0x")
             (Some (match truthy (tx_value request) with
                    | Some v => fromHex v
                    | None => 0%Z
                    end)) ;;
      waitForUserOperationTransaction this (result_hash r)
  end.

(** [a !== b] for a parameter and the account's address. *)
Definition differs (a : JsValue) (b : Address) : bool :=
  match a with
  | JsString s => negb (String.eqb s b)
  | _ => true
  end.

(** [request].  Reading [.to] off a string parameter gives [undefined], off
    [undefined] a [TypeError]; so does destructuring absent [params]. *)
Definition request (this : SmartAccountProvider) (args : RequestArgs) : M JsValue :=
  if String.eqb (method args) "eth_sendTransaction" then
    match params args with
    | None => throw TypeError
    | Some ps =>
        match nth 0 ps JsUndefined with
        | JsTx tx => h <- sendTransaction this tx ;; ret (JsString h)
        | JsString _ => throw InvalidRecipientError
        | JsUndefined => throw TypeError
        end
    end
  else if String.eqb (method args) "eth_sign"
          || String.eqb (method args) "personal_sign" then
    match account this with
    | None => throw AccountNotConnectedError
    | Some acct =>
        match params args with
        | None => throw TypeError
        | Some ps =>
            let data := nth 0 ps JsUndefined in
            let address := nth 1 ps JsUndefined in
            p <- getAddress this ;;
            own <- await p ;;
            if differs address own
            then throw UnsupportedSignerMismatchError
            else
              s <- call (EvAccount (SignMessage data))
                     (fun t => Account.signMessage acct t data) ;;
              ret (JsString s)
        end
    end
  else
    call (EvRpc (Request args)) (fun t => Rpc.request (rpcClient this) t args).

End Provider.

(** ** Stub collaborators

    A bundler client that suggests [suggested], quotes [feeData], finds no
    receipt on its first [k] lookups and the receipt of [txHash] from then on;
    and an account at address [addr] that answers every call. *)

Definition stubEstimates : GasEstimates.t := GasEstimates.mk 50000 100000 21000.

Definition stubRpc (suggested : Z) (feeData : FeeData.t) (k : nat)
    (txHash : Hash) : Rpc.t :=
  Rpc.mk
    (fun _ _ _ => Resolves stubEstimates)
    (fun _ => Resolves suggested)
    (fun _ => Resolves feeData)
    (fun _ _ _ => Resolves "0xa1")
    (fun t _ =>
       if (lookups t <? k)%nat then Resolves None
       else Resolves (Some (mkUserOperationReceipt (mkTransactionReceipt txHash))))
    (fun _ h => Resolves (Transaction.mk h))
    (fun _ args => Resolves (JsString (method args))).

Definition stubAccount (addr : Address) : Account.t :=
  Account.mk
    (fun _ => Resolves addr)
    (fun _ => Resolves 7%Z)
    (fun _ => Resolves "0x")
    (fun _ _ _ data => Resolves data)
    (fun _ => Resolves "0xff")
    (fun _ _ => Resolves "0x5e").

Definition stubFeeData : FeeData.t :=
  FeeData.mk (Some 5000000000%Z) (Some 2000000000%Z).

(** A provider with the constructor's defaults over the stubs. *)
Definition stubProvider (account : option Account.t) (feeData : FeeData.t)
    (k : nat) : SmartAccountProvider :=
  newSmartAccountProvider (stubRpc 1000000000 feeData k "0xbb") "0xe9" 11155111
    account None.

(** What [sendUserOperation] hands to the pipeline, over the stub account. *)
Definition stubDraft : UserOperationStruct :=
  mkUserOperation (F := PromiseOrValue)
    (Some (Resolves "0xacc")) (Some (Resolves 7%Z)) (Some (Resolves "0x"))
    (Some (Resolves "0xca11")) None None None None None None
    (Some (Resolves "0xff")).

(** A stand-in for [JSON.stringify] and for the entry point's hash. *)
Definition stubStringify (u : UserOperationRequest) : string :=
  ("{" ++ nullish (sender u) "" ++ "}")%string.

Definition stubHash (u : UserOperationRequest) (entryPoint : Address) (chain : Z)
  : Hex :=
  (nullish (callData u) "0x" ++ nullish (nonce u) "")%string.

(** ** Statements about the fee-data stage *)

(** The stage, run on [struct] from trace [t], returns a draft whose
    [maxPriorityFeePerGas] is [bid] and whose [maxFeePerGas] is [cap]. *)
Definition feeStageSets (this : SmartAccountProvider)
    (struct : UserOperationStruct) (t : Trace) (bid cap : Z) : Prop :=
  exists struct' : UserOperationStruct,
    fst (feeDataGetter this struct t) = OK struct'
    /\ maxPriorityFeePerGas struct' = Some (Resolves bid)
    /\ maxFeePerGas struct' = Some (Resolves cap).

(** The bundler client suggests [s] and then quotes [feeData], when asked from
    trace [t] on. *)
Definition feeQueriesAnswer (this : SmartAccountProvider) (t : Trace)
    (s : Z) (feeData : FeeData.t) : Prop :=
  Rpc.getMaxPriorityFeePerGas (rpcClient this) t = Resolves s
  /\ Rpc.getFeeData (rpcClient this) (t ++ [EvRpc GetMaxPriorityFeePerGas])
     = Resolves feeData.

(** ** Statements about the confirmation poller *)

(** A lookup that yields no receipt: "not found", or a rejection (which the
    loop's [.catch(() => null)] turns into "not found"). *)
Definition noReceipt (a : Settled (option UserOperationReceipt)) : bool :=
  match a with
  | Resolves (Some _) => false
  | Resolves None => true
  | Rejects _ => true
  end.

(** The events of [n] rounds of the loop: a delay, then a lookup, [n] times. *)
Fixpoint pollRounds (ms : nat) (hash : Hash) (n : nat) : Trace :=
  match n with
  | O => []
  | S n' =>
      EvTimeout ms :: EvRpc (GetUserOperationReceipt hash) :: pollRounds ms hash n'
  end.

(** ** Statements about the middleware stages *)

(** The two structs agree on every field but [paymasterAndData]. *)
Definition agreeButPaymaster (a b : UserOperationStruct) : Prop :=
  sender b = sender a /\ nonce b = nonce a /\ initCode b = initCode a
  /\ callData b = callData a /\ callGasLimit b = callGasLimit a
  /\ verificationGasLimit b = verificationGasLimit a
  /\ preVerificationGas b = preVerificationGas a
  /\ maxFeePerGas b = maxFeePerGas a
  /\ maxPriorityFeePerGas b = maxPriorityFeePerGas a
  /\ signature b = signature a.

(** The two structs agree on every field but the three gas limits. *)
Definition agreeButGas (a b : UserOperationStruct) : Prop :=
  sender b = sender a /\ nonce b = nonce a /\ initCode b = initCode a
  /\ callData b = callData a
  /\ maxFeePerGas b = maxFeePerGas a
  /\ maxPriorityFeePerGas b = maxPriorityFeePerGas a
  /\ paymasterAndData b = paymasterAndData a
  /\ signature b = signature a.

(** The two structs agree on every field but the two fee bids. *)
Definition agreeButFees (a b : UserOperationStruct) : Prop :=
  sender b = sender a /\ nonce b = nonce a /\ initCode b = initCode a
  /\ callData b = callData a /\ callGasLimit b = callGasLimit a
  /\ verificationGasLimit b = verificationGasLimit a
  /\ preVerificationGas b = preVerificationGas a
  /\ paymasterAndData b = paymasterAndData a
  /\ signature b = signature a.

(** What the request assembler sets: [sender], [nonce], [initCode],
    [callData] and the dummy [signature]. *)
Definition assembled (u : UserOperationStruct) : bool :=
  defined (sender u) && defined (nonce u) && defined (initCode u)
  && defined (callData u) && defined (signature u).

(** No field of the struct holds a rejected promise. *)
Definition fulfilled {T} (f : PromiseOrValue T) : bool :=
  match f with
  | Some (Rejects _) => false
  | _ => true
  end.

Definition allFulfilled (u : UserOperationStruct) : bool :=
  fulfilled (sender u) && fulfilled (nonce u) && fulfilled (initCode u)
  && fulfilled (callData u) && fulfilled (callGasLimit u)
  && fulfilled (verificationGasLimit u) && fulfilled (preVerificationGas u)
  && fulfilled (maxFeePerGas u) && fulfilled (maxPriorityFeePerGas u)
  && fulfilled (paymasterAndData u) && fulfilled (signature u).

(** The bundler client answers the three queries of the pipeline, whatever
    happened before, with fee data that passes the fee-data stage's guard. *)
Definition pipelineQueriesSucceed (rpc : Rpc.t) : Prop :=
  (forall t request entryPoint,
      exists estimates,
        Rpc.estimateUserOperationGas rpc t request entryPoint = Resolves estimates)
  /\ (forall t, exists s, Rpc.getMaxPriorityFeePerGas rpc t = Resolves s)
  /\ (forall t, exists fM fP,
         Rpc.getFeeData rpc t = Resolves (FeeData.mk (Some fM) (Some fP))
         /\ fM <> 0%Z /\ fP <> 0%Z).

(** The instance still has the class's own four stages. *)
Definition defaultStages (this : SmartAccountProvider) : Prop :=
  own_dummyPaymasterDataMiddleware this = None
  /\ own_gasEstimator this = None
  /\ own_feeDataGetter this = None
  /\ own_paymasterMiddleware this = None.

(** The value a settled field resolves to. *)
Definition valueOf {T} (f : PromiseOrValue T) : option T :=
  match f with
  | Some (Resolves v) => Some v
  | _ => None
  end.

Definition resolvedOf (u : UserOperationStruct) : ResolvedUserOperation :=
  mkUserOperation (F := option)
    (valueOf (sender u)) (valueOf (nonce u)) (valueOf (initCode u))
    (valueOf (callData u)) (valueOf (callGasLimit u))
    (valueOf (verificationGasLimit u)) (valueOf (preVerificationGas u))
    (valueOf (maxFeePerGas u)) (valueOf (maxPriorityFeePerGas u))
    (valueOf (paymasterAndData u)) (valueOf (signature u)).

(** ** Statements about submission *)

(** The account calls [sendUserOperation] makes to assemble the draft. *)
Definition assemblyEvents (target : string) (value : Z) (data : string) : Trace :=
  [ EvAccount GetInitCode; EvAccount GetAddress; EvAccount GetNonce;
    EvAccount (EncodeExecute target value data); EvAccount GetDummySignature ].

(** The draft those calls produce when started from trace [t]: each field
    holds what the account answered to the history before its call. *)
Definition initialDraft (acct : Account.t) (t : Trace) (target : string)
    (value : Z) (data : string) (initCode : Hex) : UserOperationStruct :=
  mkUserOperation (F := PromiseOrValue)
    (Some (Account.getAddress acct (t ++ [EvAccount GetInitCode])))
    (Some (Account.getNonce acct
             (t ++ [EvAccount GetInitCode; EvAccount GetAddress])))
    (Some (Resolves initCode))
    (Some (Account.encodeExecute acct
             (t ++ [EvAccount GetInitCode; EvAccount GetAddress;
                    EvAccount GetNonce])
             target value data))
    None None None None None None
    (Some (Account.getDummySignature acct
             (t ++ [EvAccount GetInitCode; EvAccount GetAddress;
                    EvAccount GetNonce;
                    EvAccount (EncodeExecute target value data)]))).

(** The methods [request] handles itself. *)
Definition handledMethod (m : string) : bool :=
  String.eqb m "eth_sendTransaction" || String.eqb m "eth_sign"
  || String.eqb m "personal_sign".

Definition signingMethod (m : string) : bool :=
  String.eqb m "eth_sign" || String.eqb m "personal_sign".

(** A failed or fulfilled answer as the outcome of awaiting it. *)
Definition outcome {A} (p : Settled A) : result A :=
  match p with
  | Resolves a => OK a
  | Rejects reason => Err (ExternalError reason)
  end.

(** ** Further statements about submission *)

(** What [sendUserOperation] does with the struct the pipeline returned:
    resolve it, encode it, validate it, have it signed, submit it. *)
Definition validateSignSubmit (toHex : Z -> Hex)
    (JSON_stringify : UserOperationRequest -> string)
    (getUserOperationHash : UserOperationRequest -> Address -> Z -> Hex)
    (this : SmartAccountProvider) (acct : Account.t)
    (uoStruct : UserOperationStruct) : M SendUserOperationResult :=
  resolved <- resolveProperties uoStruct ;;
  let request := deepHexlify toHex resolved in
  if negb (isValidRequest request)
  then throw (IncompleteRequestError (JSON_stringify request))
  else
    let uoHash :=
      getUserOperationHash request (entryPointAddress this) (chain_id this) in
    signed <-
      call (EvAccount (SignMessage (JsString uoHash)))
        (fun t => Account.signMessage acct t (JsString uoHash)) ;;
    let request := set_signature (Some signed) request in
    hash <-
      call (EvRpc (SendUserOperation request (entryPointAddress this)))
        (fun t => Rpc.sendUserOperation (rpcClient this) t request
                    (entryPointAddress this)) ;;
    ret (mkSendResult hash request).

(** A failure that is a collaborator's rejection or the fee-data guard. *)
Definition rejectionOrFeeData (e : Error) : bool :=
  match e with
  | ExternalError _ => true
  | InvalidFeeDataError => true
  | _ => false
  end.

(** No call on the bundler client is in the trace. *)
Definition isRpcEvent (e : Event) : bool :=
  match e with EvRpc _ => true | _ => false end.

Definition noRpcEvent (t : Trace) : bool :=
  forallb (fun e => negb (isRpcEvent e)) t.

(** An account that gives the same answers whatever happened before. *)
Definition accountAlwaysAnswers (acct : Account.t) (addr : Address) (n : Z)
    (initCode callData dummy signed : Hex)
    (target : string) (value : Z) (data : string) : Prop :=
  (forall t, Account.getAddress acct t = Resolves addr)
  /\ (forall t, Account.getNonce acct t = Resolves n)
  /\ (forall t, Account.getInitCode acct t = Resolves initCode)
  /\ (forall t, Account.encodeExecute acct t target value data = Resolves callData)
  /\ (forall t, Account.getDummySignature acct t = Resolves dummy)
  /\ (forall t msg, Account.signMessage acct t msg = Resolves signed).

(** A bundler client that gives the same answers whatever happened before. *)
Definition bundlerAlwaysAnswers (rpc : Rpc.t) (estimates : GasEstimates.t)
    (s fM fP : Z) (opHash : Hash) : Prop :=
  (forall t request entryPoint,
      Rpc.estimateUserOperationGas rpc t request entryPoint = Resolves estimates)
  /\ (forall t, Rpc.getMaxPriorityFeePerGas rpc t = Resolves s)
  /\ (forall t, Rpc.getFeeData rpc t
                = Resolves (FeeData.mk (Some fM) (Some fP)))
  /\ (forall t request entryPoint,
         Rpc.sendUserOperation rpc t request entryPoint = Resolves opHash).

(** The request as the gas estimator sends it: no gas limits, no fees yet. *)
Definition estimateRequest (toHex : Z -> Hex) (addr : Address) (n : Z)
    (initCode callData dummy : Hex) : UserOperationRequest :=
  mkUserOperation (F := option)
    (Some addr) (Some (toHex n)) (Some initCode) (Some callData)
    None None None None None (Some "0x") (Some dummy).

(** The request with every field filled in, under signature [sig]. *)
Definition filledRequest (toHex : Z -> Hex) (addr : Address) (n : Z)
    (initCode callData : Hex) (estimates : GasEstimates.t) (bid cap : Z)
    (sig : Hex) : UserOperationRequest :=
  mkUserOperation (F := option)
    (Some addr) (Some (toHex n)) (Some initCode) (Some callData)
    (Some (toHex (GasEstimates.callGasLimit estimates)))
    (Some (toHex (GasEstimates.verificationGasLimit estimates)))
    (Some (toHex (GasEstimates.preVerificationGas estimates)))
    (Some (toHex cap)) (Some (toHex bid)) (Some "0x") (Some sig).

(** What the four default stages make of a struct. *)
Definition defaultOutput (estimates : GasEstimates.t) (bid cap : Z)
    (struct : UserOperationStruct) : UserOperationStruct :=
  set_paymasterAndData (Some (Resolves "0x"))
    (set_maxPriorityFeePerGas (Some (Resolves bid))
       (set_maxFeePerGas (Some (Resolves cap))
          (set_preVerificationGas
             (Some (Resolves (GasEstimates.preVerificationGas estimates)))
             (set_verificationGasLimit
                (Some (Resolves (GasEstimates.verificationGasLimit estimates)))
                (set_callGasLimit
                   (Some (Resolves (GasEstimates.callGasLimit estimates)))
                   (set_paymasterAndData (Some (Resolves "0x")) struct)))))).

(** ** The onboarding controller's polling

    [pollForLambdaForComplete] of [OnboardingController.ts] and the two step
    handlers that use it.  The wizard keeps its own log of the calls it makes
    on its client and on the timer. *)
Module Onboarding.

Inductive OnboardingStepIdentifier : Type :=
| INITIAL_STEP
| GET_ENTRYPOINT
| CREATE_SCWALLET
| FILL_SCWALLET
| MINT_NFT
| CHECK_OP_COMPLETE
| STORE_SCWALLET
| DONE.

Inductive Call : Type :=
| GetBalance (address : Address)
| GetUserOperationReceipt (hash : Hash)
| Wait (ms : nat).

(** Calls in the order they happened, oldest first. *)
Definition Log := list Call.

(** The [PublicErc4337Client] of the context, as far as these handlers call
    it. *)
Record Client : Type := mkClient {
  getBalance : Log -> Address -> Settled Z;
  getUserOperationReceipt : Log -> Hash -> Settled (option UserOperationReceipt)
}.

(** An [Error] the controller throws itself, a rejection of the client, or
    the engine's [TypeError] on calling a method of an absent client. *)
Inductive Failure : Type :=
| Thrown (message : string)
| Rejected (reason : string)
| NoClient.

Inductive Outcome (A : Type) : Type :=
| Done (a : A)
| Failed (f : Failure).
Arguments Done {A} a.
Arguments Failed {A} f.

Definition Task (A : Type) : Type := Log -> Outcome A * Log.

Definition ret {A} (a : A) : Task A := fun l => (Done a, l).

Definition throw {A} (f : Failure) : Task A := fun l => (Failed f, l).

Definition bind {A B} (m : Task A) (k : A -> Task B) : Task B :=
  fun l =>
    match m l with
    | (Done a, l') => k a l'
    | (Failed f, l') => (Failed f, l')
    end.

(** [await client.f(...)] *)
Definition call {A} (c : Call) (answer : Log -> Settled A) : Task A :=
  fun l =>
    (match answer l with
     | Resolves a => Done a
     | Rejects reason => Failed (Rejected reason)
     end, l ++ [c]).

(** [await new Promise((resolve) => setTimeout(resolve, ms))] *)
Definition wait (ms : nat) : Task unit := fun l => (Done tt, l ++ [Wait ms]).

(** The [do ... while] loop of [pollForLambdaForComplete], with
    [remaining = txnMaxDurationSeconds - txnRetryCount]: the test
    [txnRetryCount++ < txnMaxDurationSeconds] is evaluated only after a failed
    attempt and its wait. *)
Fixpoint pollLoop (lambda : Task bool) (remaining : nat) {struct remaining}
  : Task bool :=
  bind lambda (fun reciept =>
    if reciept then ret reciept
    else
      bind (wait 1000) (fun _ =>
        match remaining with
        | O =>
            throw (Thrown "Timedout waiting for contrat deployment and NFT mint.")
        | S remaining' => pollLoop lambda remaining'
        end)).

Definition pollForLambdaForComplete (lambda : Task bool)
    (txnMaxDurationSeconds : option nat) : Task bool :=
  pollLoop lambda (nullish txnMaxDurationSeconds 20).

(** The fields of [Partial<OnboardingContext>] these handlers read. *)
Record OnboardingContext : Type := mkContext {
  client : option Client;
  smartAccountAddress : option Address;
  mintDeployOpHash : option Hash
}.

(** The [addedContext] of a step that adds nothing: [{}]. *)
Definition noAddedContext : OnboardingContext := mkContext None None None.

Record StepResult : Type := mkStepResult {
  nextStep : OnboardingStepIdentifier;
  addedContext : OnboardingContext
}.

(** The lambda of the [FILL_SCWALLET] handler;
    [MIN_ONBOARDING_WALLET_BALANCE] comes from [OnboardingDataModels].  The
    guard [!context.smartAccountAddress] tests truthiness. *)
Definition balanceReached (MIN_ONBOARDING_WALLET_BALANCE : Z)
    (context : OnboardingContext) : Task bool :=
  match truthy (smartAccountAddress context) with
  | None => throw (Thrown "An account address to add funds was not found")
  | Some address =>
      match client context with
      | None => throw NoClient
      | Some c =>
          bind (call (GetBalance address) (fun l => getBalance c l address))
            (fun val => ret (MIN_ONBOARDING_WALLET_BALANCE <=? val)%Z)
      end
  end.

(** [onboardingStepHandlers[FILL_SCWALLET]] *)
Definition handle_FILL_SCWALLET (MIN_ONBOARDING_WALLET_BALANCE : Z)
    (context : OnboardingContext) : Task StepResult :=
  bind (pollForLambdaForComplete
          (balanceReached MIN_ONBOARDING_WALLET_BALANCE context)
          (Some (60 * 5)))
    (fun _ => ret (mkStepResult MINT_NFT noAddedContext)).

(** The lambda of the [CHECK_OP_COMPLETE] handler.  The guard
    [!context.mintDeployOpHash] tests truthiness. *)
Definition receiptFound (context : OnboardingContext) : Task bool :=
  match truthy (mintDeployOpHash context) with
  | None => throw (Thrown "No mint deploy operation Hash was found")
  | Some hash =>
      match client context with
      | None => throw NoClient
      | Some c =>
          bind (call (GetUserOperationReceipt hash)
                  (fun l => getUserOperationReceipt c l hash))
            (fun receipt =>
               ret (match receipt with Some _ => true | None => false end))
      end
  end.

(** [onboardingStepHandlers[CHECK_OP_COMPLETE]] *)
Definition handle_CHECK_OP_COMPLETE (context : OnboardingContext)
  : Task StepResult :=
  bind (pollForLambdaForComplete (receiptFound context) None)
    (fun _ => ret (mkStepResult STORE_SCWALLET noAddedContext)).

(** [onboardingStepHandlers[DONE]] *)
Definition handle_DONE (context : OnboardingContext) : Task StepResult :=
  ret (mkStepResult DONE noAddedContext).

(** [k] failed attempts: the probe, then the one-second wait, [k] times. *)
Fixpoint missedRounds (probe : Call) (k : nat) : Log :=
  match k with
  | O => []
  | S k' => probe :: Wait 1000 :: missedRounds probe k'
  end.

(** A client whose balance is [balance] from its [k]-th query on and zero
    before, and whose receipt shows from its [k]-th lookup on. *)
Definition stubClient (k : nat) (balance : Z) : Client :=
  mkClient
    (fun l _ => if (List.length l <? 2 * k)%nat then Resolves 0%Z else Resolves balance)
    (fun l _ =>
       if (List.length l <? 2 * k)%nat then Resolves None
       else Resolves (Some (mkUserOperationReceipt (mkTransactionReceipt "0xbb")))).

End Onboarding.

(** * Properties *)

Local Open Scope Z_scope.

(** ** Running computations *)

Lemma app_snoc2 {A} (l : list A) (a b : A) :
  ((l ++ [a]) ++ [b] = l ++ [a; b])%list.
Proof. now rewrite <- app_assoc. Qed.

Lemma call_resolves {A} (ev : Event) (answer : Trace -> Settled A) t a :
  answer t = Resolves a -> call ev answer t = (OK a, (t ++ [ev])%list).
Proof. intros H. unfold call, bind, start, await. now rewrite H. Qed.

Lemma call_rejects {A} (ev : Event) (answer : Trace -> Settled A) t reason :
  answer t = Rejects reason ->
  call ev answer t = (Err (ExternalError reason), (t ++ [ev])%list).
Proof. intros H. unfold call, bind, start, await. now rewrite H. Qed.

Lemma bind_ok {A B} (m : M A) (f : A -> M B) t a t' :
  m t = (OK a, t') -> bind m f t = f a t'.
Proof. intros H. unfold bind. now rewrite H. Qed.

Lemma bind_err {A B} (m : M A) (f : A -> M B) t e t' :
  m t = (Err e, t') -> bind m f t = (Err e, t').
Proof. intros H. unfold bind. now rewrite H. Qed.

(** ** Truthiness of strings *)

Lemma truthy_some (s : option string) (v : string) :
  s = Some v -> v <> ""%string -> truthy s = Some v.
Proof.
  intros -> Hv. unfold truthy.
  destruct (String.eqb_spec v ""); [contradiction | reflexivity].
Qed.

Lemma truthy_none (s : option string) :
  s = None \/ s = Some ""%string -> truthy s = None.
Proof. intros [-> | ->]; reflexivity. Qed.

Lemma truthy_match {A} (s : option string) (f : string -> A) (d : A) :
  match truthy s with Some v => f v | None => d end
  = match s with
    | Some v => if String.eqb v "" then d else f v
    | None => d
    end.
Proof. destruct s as [v|]; [|reflexivity]. simpl. now destruct (String.eqb v ""). Qed.

(** ** The fee bid *)

Lemma maxPriorityFeePerGasBid_max (minBid s : Z) :
  0 <= s -> maxPriorityFeePerGasBid minBid s = Z.max (s * 4 / 3) minBid.
Proof.
  intros Hs. unfold maxPriorityFeePerGasBid.
  rewrite Z.quot_div_nonneg by lia.
  destruct (Z.ltb_spec (s * 4 / 3) minBid); lia.
Qed.

(** What the stage does once both queries have answered. *)
Lemma feeDataGetter_answered (this : SmartAccountProvider)
    (struct : UserOperationStruct) (t : Trace) (s : Z) (feeData : FeeData.t) :
  Rpc.getMaxPriorityFeePerGas (rpcClient this) t = Resolves s ->
  Rpc.getFeeData (rpcClient this) (t ++ [EvRpc GetMaxPriorityFeePerGas])%list
    = Resolves feeData ->
  feeDataGetter this struct t =
    (match FeeData.maxFeePerGas feeData, FeeData.maxPriorityFeePerGas feeData with
     | Some fM, Some fP =>
         if (fM =? 0) || (fP =? 0) then Err InvalidFeeDataError
         else
           let bid := maxPriorityFeePerGasBid (minPriorityFeePerBid this) s in
           OK (set_maxPriorityFeePerGas (Some (Resolves bid))
                 (set_maxFeePerGas (Some (Resolves (fM - fP + bid))) struct))
     | _, _ => Err InvalidFeeDataError
     end,
     (t ++ [EvRpc GetMaxPriorityFeePerGas; EvRpc GetFeeData])%list).
Proof.
  intros Hs Hf. unfold feeDataGetter.
  rewrite (bind_ok _ _ _ _ _ (call_resolves _ _ _ _ Hs)).
  rewrite (bind_ok _ _ _ _ _ (call_resolves _ _ _ _ Hf)).
  rewrite app_snoc2.
  destruct feeData as [[fM|] [fP|]]; simpl; try reflexivity.
  - destruct (fM =? 0), (fP =? 0); reflexivity.
  - destruct (fM =? 0); reflexivity.
Qed.

(** X21.  For every suggested priority fee [s >= 0] and every queried fee
    data whose [maxFeePerGas] and [maxPriorityFeePerGas] are both present and
    pass the stage's guard (neither is [0n]), the fee-data stage sets the draft's
    [maxPriorityFeePerGas] to [max (floor (s * 4 / 3)) minPriorityFeePerBid]
    and its [maxFeePerGas] to
    [(feeData.maxFeePerGas - feeData.maxPriorityFeePerGas) +] that bid; if
    either value is absent the stage fails with [InvalidFeeDataError].  With
    the default minimum of 1_000_000_000, [s = 1_000_000_000] and fee data
    [{5_000_000_000, 2_000_000_000}] the bids are 1_333_333_333 and
    4_333_333_333. *)
Theorem feeDataGetter_bid :
  (forall this struct t s fM fP,
      0 <= s -> fM <> 0 -> fP <> 0 ->
      feeQueriesAnswer this t s (FeeData.mk (Some fM) (Some fP)) ->
      let bid := Z.max (s * 4 / 3) (minPriorityFeePerBid this) in
      feeStageSets this struct t bid (fM - fP + bid))
  /\ (forall this struct t s feeData,
         feeQueriesAnswer this t s feeData ->
         FeeData.maxFeePerGas feeData = None
         \/ FeeData.maxPriorityFeePerGas feeData = None ->
         fst (feeDataGetter this struct t) = Err InvalidFeeDataError)
  /\ (forall rpc entryPoint chain acct,
         minPriorityFeePerBid
           (newSmartAccountProvider rpc entryPoint chain acct None)
         = 1000000000)
  /\ (feeQueriesAnswer (stubProvider None stubFeeData 0) [] 1000000000
        (FeeData.mk (Some 5000000000) (Some 2000000000))
      /\ feeStageSets (stubProvider None stubFeeData 0) stubDraft []
           1333333333 4333333333).
Proof.
  split; [|split; [|split]].
  - intros this struct t s fM fP Hs HM HP [Hq Hf] bid.
    unfold feeStageSets.
    rewrite (feeDataGetter_answered this struct t s _ Hq Hf). simpl.
    apply Z.eqb_neq in HM, HP. rewrite HM, HP. simpl.
    rewrite maxPriorityFeePerGasBid_max by assumption.
    eexists. split; [reflexivity|]. split; reflexivity.
  - intros this struct t s feeData [Hq Hf] Habsent.
    rewrite (feeDataGetter_answered this struct t s _ Hq Hf). simpl.
    destruct feeData as [[fM|] [fP|]]; simpl in *;
      destruct Habsent; try discriminate; reflexivity.
  - reflexivity.
  - split; [split; reflexivity|].
    eexists. split; [vm_compute; reflexivity|]. split; reflexivity.
Qed.

Lemma feeDataGetter_bid_witness :
  0 <= 1000000000 /\ 5000000000 <> 0 /\ 2000000000 <> 0
  /\ feeQueriesAnswer (stubProvider None stubFeeData 0) [] 1000000000 stubFeeData
  /\ feeStageSets (stubProvider None stubFeeData 0) stubDraft []
       (Z.max (1000000000 * 4 / 3) 1000000000)
       (5000000000 - 2000000000 + Z.max (1000000000 * 4 / 3) 1000000000).
Proof.
  assert (Hq : feeQueriesAnswer (stubProvider None stubFeeData 0) []
                 1000000000 stubFeeData) by (split; reflexivity).
  repeat split; try lia; try apply Hq.
  apply (proj1 feeDataGetter_bid (stubProvider None stubFeeData 0) stubDraft []
           1000000000 5000000000 2000000000); try lia.
  exact Hq.
Defined.

(** C1.  The code departs from the claim where a quoted fee is [0n].  With
    the default minimum bid, a suggested priority fee of 1_000_000_000 and
    queried fee data [{maxFeePerGas: 5_000_000_000n, maxPriorityFeePerGas: 0n}],
    both values are present, so the stage should set [maxPriorityFeePerGas] to
    [max (1_000_000_000 * 4 / 3) 1_000_000_000 = 1_333_333_333] and
    [maxFeePerGas] to [(5_000_000_000 - 0) + 1_333_333_333 = 6_333_333_333].
    Instead it makes its two queries and fails with [InvalidFeeDataError]:
    the guard [!feeData.maxPriorityFeePerGas] is true of [0n]. *)
Theorem feeDataGetter_zero_fee_rejected :
  let feeData := FeeData.mk (Some 5000000000) (Some 0) in
  let this := stubProvider None feeData 0 in
  feeQueriesAnswer this [] 1000000000 feeData
  /\ Z.max (1000000000 * 4 / 3) (minPriorityFeePerBid this) = 1333333333
  /\ 5000000000 - 0 + 1333333333 = 6333333333
  /\ feeDataGetter this stubDraft []
     = (Err InvalidFeeDataError, [EvRpc GetMaxPriorityFeePerGas; EvRpc GetFeeData])
  /\ ~ feeStageSets this stubDraft [] 1333333333 6333333333.
Proof.
  cbv zeta. split; [split; reflexivity|]. split; [reflexivity|].
  split; [reflexivity|]. split; [reflexivity|].
  intros [struct' [H _]]. vm_compute in H. discriminate H.
Qed.

(** X22.  For every suggested priority fee [s >= 0] and every fee data with
    both values present, the priority-fee bid the stage computes is at least
    [max (s * 4 / 3) minPriorityFeePerBid] (integer arithmetic), and whenever
    the stage returns a draft, the [maxFeePerGas] and [maxPriorityFeePerGas]
    written into it differ by exactly
    [feeData.maxFeePerGas - feeData.maxPriorityFeePerGas].  The stage returns
    a draft whenever neither value is zero. *)
Theorem fee_bid_invariant (this : SmartAccountProvider)
    (struct : UserOperationStruct) (t : Trace) (s fM fP : Z) :
  0 <= s ->
  feeQueriesAnswer this t s (FeeData.mk (Some fM) (Some fP)) ->
  let bid := maxPriorityFeePerGasBid (minPriorityFeePerBid this) s in
  Z.max (s * 4 / 3) (minPriorityFeePerBid this) <= bid
  /\ (forall struct',
         fst (feeDataGetter this struct t) = OK struct' ->
         exists cap,
           maxPriorityFeePerGas struct' = Some (Resolves bid)
           /\ maxFeePerGas struct' = Some (Resolves cap)
           /\ cap - bid = fM - fP)
  /\ (fM <> 0 -> fP <> 0 ->
      exists struct', fst (feeDataGetter this struct t) = OK struct').
Proof.
  intros Hs [Hq Hf] bid.
  rewrite (feeDataGetter_answered this struct t s _ Hq Hf). simpl.
  split; [|split].
  - subst bid. rewrite maxPriorityFeePerGasBid_max by assumption. lia.
  - intros struct' H.
    destruct ((fM =? 0) || (fP =? 0)); [discriminate H|].
    injection H as <-. exists (fM - fP + bid).
    split; [reflexivity|]. split; [reflexivity|]. lia.
  - intros HM HP. apply Z.eqb_neq in HM, HP. rewrite HM, HP. simpl.
    eexists. reflexivity.
Qed.

Lemma fee_bid_invariant_witness :
  let this := stubProvider None stubFeeData 0 in
  let bid := maxPriorityFeePerGasBid (minPriorityFeePerBid this) 1000000000 in
  0 <= 1000000000
  /\ feeQueriesAnswer this [] 1000000000 stubFeeData
  /\ Z.max (1000000000 * 4 / 3) (minPriorityFeePerBid this) <= bid
  /\ exists struct' cap,
       fst (feeDataGetter this stubDraft []) = OK struct'
       /\ maxPriorityFeePerGas struct' = Some (Resolves bid)
       /\ maxFeePerGas struct' = Some (Resolves cap)
       /\ cap - bid = 5000000000 - 2000000000.
Proof.
  cbv zeta.
  assert (Hs : 0 <= 1000000000) by lia.
  assert (Hq : feeQueriesAnswer (stubProvider None stubFeeData 0) []
                 1000000000 stubFeeData) by (split; reflexivity).
  destruct (fee_bid_invariant (stubProvider None stubFeeData 0) stubDraft []
              1000000000 5000000000 2000000000 Hs Hq) as [Hge [Hdiff Hruns]].
  split; [exact Hs|]. split; [exact Hq|]. split; [exact Hge|].
  destruct Hruns as [struct' Hrun]; [lia | lia |].
  destruct (Hdiff struct' Hrun) as [cap Hcap].
  exists struct', cap. split; [exact Hrun | exact Hcap].
Defined.

(** C4.  The code departs from the claim where a quoted fee is [0n], by the
    defect of C1.  With the default minimum bid, a suggested priority fee of
    1_000_000_000 and queried fee data
    [{maxFeePerGas: 5_000_000_000n, maxPriorityFeePerGas: 0n}], both values
    are present and the bid the stage's formula gives is 1_333_333_333, which
    is [max (1_000_000_000 * 4 / 3) minPriorityFeePerBid]; but no bids are
    written into the draft: the stage fails with [InvalidFeeDataError], so no
    draft comes back whose [maxFeePerGas] and [maxPriorityFeePerGas] differ by
    [5_000_000_000 - 0]. *)
Theorem fee_bid_invariant_zero_fee :
  let feeData := FeeData.mk (Some 5000000000) (Some 0) in
  let this := stubProvider None feeData 0 in
  feeQueriesAnswer this [] 1000000000 feeData
  /\ maxPriorityFeePerGasBid (minPriorityFeePerBid this) 1000000000
     = 1333333333
  /\ Z.max (1000000000 * 4 / 3) (minPriorityFeePerBid this) <= 1333333333
  /\ fst (feeDataGetter this stubDraft []) = Err InvalidFeeDataError
  /\ ~ (exists struct' bid cap,
          fst (feeDataGetter this stubDraft []) = OK struct'
          /\ maxPriorityFeePerGas struct' = Some (Resolves bid)
          /\ maxFeePerGas struct' = Some (Resolves cap)
          /\ cap - bid = 5000000000 - 0).
Proof.
  cbv zeta. split; [split; reflexivity|]. split; [reflexivity|].
  split; [vm_compute; discriminate|]. split; [reflexivity|].
  intros [struct' [bid [cap [H _]]]]. vm_compute in H. discriminate H.
Qed.

(** ** The confirmation poller *)

Local Close Scope Z_scope.

Lemma lookups_app (t u : Trace) : lookups (t ++ u) = lookups t + lookups u.
Proof. unfold lookups. now rewrite filter_app, length_app. Qed.

Lemma delays_app (t u : Trace) : delays (t ++ u) = delays t + delays u.
Proof. unfold delays. now rewrite filter_app, length_app. Qed.

Lemma elapsed_app (t u : Trace) : elapsed (t ++ u) = elapsed t + elapsed u.
Proof.
  induction t as [|e t IH]; simpl; [reflexivity|].
  destruct e; rewrite IH; lia.
Qed.

Lemma lookups_pollRounds ms hash n : lookups (pollRounds ms hash n) = n.
Proof.
  induction n as [|n IH]; [reflexivity|].
  change (lookups (pollRounds ms hash (S n)))
    with (S (lookups (pollRounds ms hash n))).
  now rewrite IH.
Qed.

Lemma delays_pollRounds ms hash n : delays (pollRounds ms hash n) = n.
Proof.
  induction n as [|n IH]; [reflexivity|].
  change (delays (pollRounds ms hash (S n)))
    with (S (delays (pollRounds ms hash n))).
  now rewrite IH.
Qed.

Lemma elapsed_pollRounds ms hash n : elapsed (pollRounds ms hash n) = n * ms.
Proof. induction n as [|n IH]; simpl; [reflexivity|]. now rewrite IH. Qed.

Lemma pollRounds_snoc ms hash n :
  pollRounds ms hash n ++ [EvTimeout ms; EvRpc (GetUserOperationReceipt hash)]
  = pollRounds ms hash (S n).
Proof. induction n as [|n IH]; simpl; [reflexivity|]. now rewrite IH. Qed.

Lemma noReceipt_false_inv (a : Settled (option UserOperationReceipt)) :
  noReceipt a = false -> exists r, a = Resolves (Some r).
Proof. destruct a as [[r|]|reason]; simpl; intros H; try discriminate; eauto. Qed.

(** One round that finds nothing: the loop goes on, two events later. *)
Lemma pollReceipt_miss (this : SmartAccountProvider) (hash : Hash) (n : nat)
    (t : Trace) :
  noReceipt (Rpc.getUserOperationReceipt (rpcClient this)
               (t ++ [EvTimeout (txRetryIntervalMs this)]) hash) = true ->
  pollReceipt this hash (S n) t
  = pollReceipt this hash n
      (t ++ pollRounds (txRetryIntervalMs this) hash 1).
Proof.
  intros H. simpl. unfold bind at 1. unfold sleep.
  unfold bind at 1. unfold catch, call, bind, start.
  destruct (Rpc.getUserOperationReceipt _ _ _) as [[r|]|reason];
    simpl in *; try discriminate; now rewrite app_snoc2.
Qed.

(** One round that finds a receipt: the transaction is fetched and the loop
    ends with its hash, or with the client's rejection. *)
Lemma pollReceipt_hit (this : SmartAccountProvider) (hash : Hash) (n : nat)
    (t : Trace) (r : UserOperationReceipt) :
  Rpc.getUserOperationReceipt (rpcClient this)
    (t ++ [EvTimeout (txRetryIntervalMs this)]) hash = Resolves (Some r) ->
  let t' := t ++ pollRounds (txRetryIntervalMs this) hash 1 in
  pollReceipt this hash (S n) t
  = (match Rpc.getTransaction (rpcClient this) t' (transactionHash (receipt r)) with
     | Resolves x => OK (Transaction.hash x)
     | Rejects reason => Err (ExternalError reason)
     end,
     t' ++ [EvRpc (GetTransaction (transactionHash (receipt r)))]).
Proof.
  intros H. simpl. unfold bind at 1. unfold sleep.
  unfold bind at 1. unfold catch, call, bind, start.
  rewrite H. simpl. rewrite app_snoc2.
  destruct (Rpc.getTransaction _ _ _); reflexivity.
Qed.

(** [j] rounds in a row that find nothing. *)
Lemma pollReceipt_misses (this : SmartAccountProvider) (hash : Hash) (j : nat) :
  forall (n : nat) (t : Trace),
    (forall u, lookups u < lookups t + j ->
               noReceipt (Rpc.getUserOperationReceipt (rpcClient this) u hash)
               = true) ->
    pollReceipt this hash (j + n) t
    = pollReceipt this hash n
        (t ++ pollRounds (txRetryIntervalMs this) hash j).
Proof.
  induction j as [|j IH]; intros n t Hmiss.
  - simpl. now rewrite app_nil_r.
  - change (S j + n) with (S (j + n)).
    rewrite pollReceipt_miss.
    + rewrite IH.
      * rewrite <- app_assoc. reflexivity.
      * intros u Hu. apply Hmiss. rewrite lookups_app in Hu.
        rewrite (lookups_pollRounds _ _ 1) in Hu. lia.
    + apply Hmiss. rewrite lookups_app. change (lookups [EvTimeout (txRetryIntervalMs this)]) with 0. lia.
Qed.

(** The poller when the receipt shows on lookup [k + 1] and the transaction
    is found. *)
Lemma pollReceipt_found (this : SmartAccountProvider) (hash : Hash)
    (t0 : Trace) (k : nat) (r : UserOperationReceipt) (x : Transaction.t) :
  (k < txMaxRetries this)%nat ->
  (forall u, (lookups u < lookups t0 + k)%nat ->
             noReceipt (Rpc.getUserOperationReceipt (rpcClient this) u hash)
             = true) ->
  (forall u, lookups u = (lookups t0 + k)%nat ->
             Rpc.getUserOperationReceipt (rpcClient this) u hash
             = Resolves (Some r)) ->
  (forall u, Rpc.getTransaction (rpcClient this) u (transactionHash (receipt r))
             = Resolves x) ->
  waitForUserOperationTransaction this hash t0
  = (OK (Transaction.hash x),
     t0 ++ pollRounds (txRetryIntervalMs this) hash (k + 1)
        ++ [EvRpc (GetTransaction (transactionHash (receipt r)))]).
Proof.
  intros Hk Hmiss Hhit Htx. unfold waitForUserOperationTransaction.
  replace (txMaxRetries this)
    with (k + S (txMaxRetries this - S k))%nat by lia.
  rewrite (pollReceipt_misses this hash k _ t0 Hmiss).
  rewrite pollReceipt_hit with (r := r).
  - cbv zeta. rewrite Htx. f_equal.
    rewrite <- !app_assoc. f_equal. rewrite app_assoc. f_equal.
    replace (k + 1)%nat with (S k) by lia. apply pollRounds_snoc.
  - apply Hhit. rewrite !lookups_app, lookups_pollRounds.
    change (lookups [EvTimeout (txRetryIntervalMs this)]) with 0%nat. lia.
Qed.


(** C2.  With retry limit [txMaxRetries] (5 unless configured) and interval
    [txRetryIntervalMs] (2000 unless configured): when the receipt lookup
    yields no receipt (not found, or a rejection, which is swallowed) on the
    first [k < txMaxRetries] attempts and a receipt on attempt [k + 1], the
    poller makes exactly [k + 1] lookups, one per interval, and returns the
    hash of the transaction fetched by the receipt's [transactionHash]; when
    no attempt within the budget yields a receipt it makes exactly
    [txMaxRetries] lookups and fails with [ConfirmationTimeoutError]. *)
Theorem poller_attempts (this : SmartAccountProvider) (hash : Hash) (t0 : Trace) :
  let ms := txRetryIntervalMs this in
  let answer u := Rpc.getUserOperationReceipt (rpcClient this) u hash in
  (forall (k : nat) (r : UserOperationReceipt) (x : Transaction.t),
      k < txMaxRetries this ->
      (forall u, lookups u < lookups t0 + k -> noReceipt (answer u) = true) ->
      (forall u, lookups u = lookups t0 + k -> answer u = Resolves (Some r)) ->
      (forall u, Rpc.getTransaction (rpcClient this) u (transactionHash (receipt r))
                 = Resolves x) ->
      fst (waitForUserOperationTransaction this hash t0) = OK (Transaction.hash x)
      /\ snd (waitForUserOperationTransaction this hash t0)
         = t0 ++ pollRounds ms hash (k + 1)
              ++ [EvRpc (GetTransaction (transactionHash (receipt r)))]
      /\ lookups (snd (waitForUserOperationTransaction this hash t0))
         = lookups t0 + (k + 1))
  /\ ((forall u, lookups u < lookups t0 + txMaxRetries this ->
                 noReceipt (answer u) = true) ->
      fst (waitForUserOperationTransaction this hash t0)
      = Err ConfirmationTimeoutError
      /\ snd (waitForUserOperationTransaction this hash t0)
         = t0 ++ pollRounds ms hash (txMaxRetries this)
      /\ lookups (snd (waitForUserOperationTransaction this hash t0))
         = lookups t0 + txMaxRetries this)
  /\ (forall rpc entryPoint chain acct,
         let fresh := newSmartAccountProvider rpc entryPoint chain acct None in
         txMaxRetries fresh = 5 /\ txRetryIntervalMs fresh = 2000).
Proof.
  intros ms answer. unfold waitForUserOperationTransaction.
  split; [|split].
  - intros k r x Hk Hmiss Hhit Htx.
    replace (txMaxRetries this) with (k + S (txMaxRetries this - S k)) by lia.
    rewrite (pollReceipt_misses this hash k _ t0 Hmiss).
    rewrite pollReceipt_hit with (r := r).
    + cbv zeta. rewrite Htx. cbn [fst snd].
      assert (Hshape :
        ((t0 ++ pollRounds (txRetryIntervalMs this) hash k)
           ++ pollRounds (txRetryIntervalMs this) hash 1)
        = t0 ++ pollRounds ms hash (k + 1)).
      { rewrite <- app_assoc. f_equal. replace (k + 1) with (S k) by lia.
        apply pollRounds_snoc. }
      rewrite Hshape. split; [reflexivity|]. split.
      * now rewrite <- app_assoc.
      * rewrite !lookups_app, lookups_pollRounds.
        change (lookups [EvRpc (GetTransaction (transactionHash (receipt r)))])
          with 0. lia.
    + apply Hhit. rewrite !lookups_app, lookups_pollRounds.
      change (lookups [EvTimeout (txRetryIntervalMs this)]) with 0. lia.
  - intros Hmiss.
    pose proof (pollReceipt_misses this hash (txMaxRetries this) 0 t0 Hmiss)
      as Hrun.
    rewrite Nat.add_0_r in Hrun. rewrite Hrun.
    cbn [pollReceipt throw fst snd].
    split; [reflexivity|]. split; [reflexivity|].
    now rewrite lookups_app, lookups_pollRounds.
  - intros. split; reflexivity.
Qed.

Lemma poller_attempts_witness :
  let this := stubProvider None stubFeeData 2 in
  let r := mkUserOperationReceipt (mkTransactionReceipt "0xbb") in
  let answer u := Rpc.getUserOperationReceipt (rpcClient this) u "0xa1" in
  2 < txMaxRetries this
  /\ (forall u, lookups u < lookups [] + 2 -> noReceipt (answer u) = true)
  /\ (forall u, lookups u = lookups [] + 2 -> answer u = Resolves (Some r))
  /\ fst (waitForUserOperationTransaction this "0xa1" []) = OK "0xbb"
  /\ lookups (snd (waitForUserOperationTransaction this "0xa1" [])) = 3.
Proof.
  cbv zeta.
  assert (Hlt : 2 < txMaxRetries (stubProvider None stubFeeData 2))
    by (cbn; lia).
  assert (Hmiss : forall u, lookups u < lookups [] + 2 ->
            noReceipt (Rpc.getUserOperationReceipt
                         (rpcClient (stubProvider None stubFeeData 2)) u "0xa1")
            = true).
  { intros u Hu. cbn [stubProvider newSmartAccountProvider rpcClient stubRpc
                       Rpc.getUserOperationReceipt].
    destruct (Nat.ltb_spec (lookups u) 2) as [_|Hge]; [reflexivity|].
    cbn in Hu. lia. }
  assert (Hhit : forall u, lookups u = lookups [] + 2 ->
            Rpc.getUserOperationReceipt
              (rpcClient (stubProvider None stubFeeData 2)) u "0xa1"
            = Resolves (Some (mkUserOperationReceipt (mkTransactionReceipt "0xbb")))).
  { intros u Hu. cbn [stubProvider newSmartAccountProvider rpcClient stubRpc
                       Rpc.getUserOperationReceipt].
    destruct (Nat.ltb_spec (lookups u) 2) as [Hlow|_]; [|reflexivity].
    cbn in Hu. lia. }
  destruct (poller_attempts (stubProvider None stubFeeData 2) "0xa1" [])
    as [Hfound _].
  destruct (Hfound 2 _ (Transaction.mk "0xbb") Hlt Hmiss Hhit
              (fun _ => eq_refl)) as [Hres [_ Hcount]].
  split; [exact Hlt|]. split; [exact Hmiss|]. split; [exact Hhit|].
  split; [exact Hres | exact Hcount].
Defined.

(** The poller's run from any trace: some number [n] of delay-then-lookup
    rounds, after which it either gave up (all [remaining] rounds used, nothing
    else called) or fetched a transaction (at least one round taken). *)
Lemma pollReceipt_rounds (this : SmartAccountProvider) (hash : Hash) :
  forall (remaining : nat) (t : Trace),
    let ms := txRetryIntervalMs this in
    let run := pollReceipt this hash remaining t in
    exists n,
      n <= remaining
      /\ ((fst run = Err ConfirmationTimeoutError
           /\ n = remaining
           /\ snd run = t ++ pollRounds ms hash n)
          \/ (fst run <> Err ConfirmationTimeoutError
              /\ 1 <= n
              /\ exists txHash,
                   snd run = t ++ pollRounds ms hash n
                               ++ [EvRpc (GetTransaction txHash)])).
Proof.
  induction remaining as [|remaining IH]; intros t ms run.
  - exists 0. split; [lia|]. left. subst run. simpl.
    split; [reflexivity|]. split; [reflexivity|]. now rewrite app_nil_r.
  - destruct (noReceipt (Rpc.getUserOperationReceipt (rpcClient this)
                           (t ++ [EvTimeout (txRetryIntervalMs this)]) hash))
      eqn:Hanswer.
    + subst run. rewrite (pollReceipt_miss this hash remaining t Hanswer).
      destruct (IH (t ++ pollRounds (txRetryIntervalMs this) hash 1))
        as [n [Hn Hcases]].
      exists (S n). split; [lia|].
      destruct Hcases as [[Hres [Heq Htrace]] | [Hres [Hone [txHash Htrace]]]].
      * left. split; [exact Hres|]. split; [lia|].
        rewrite Htrace. now rewrite <- app_assoc.
      * right. split; [exact Hres|]. split; [lia|]. exists txHash.
        rewrite Htrace. now rewrite <- app_assoc.
    + apply noReceipt_false_inv in Hanswer as [r Hanswer].
      exists 1. split; [lia|]. right. subst run.
      rewrite (pollReceipt_hit this hash remaining t r Hanswer). cbv zeta.
      cbn [fst snd]. split.
      * destruct (Rpc.getTransaction _ _ _); discriminate.
      * split; [lia|]. exists (transactionHash (receipt r)).
        now rewrite <- app_assoc.
Qed.

Lemma app_eq_split {A} (t pre : list A) :
  forall (rest : list A) (e : A) (post : list A),
    t ++ rest = pre ++ e :: post ->
    List.length t <= List.length pre ->
    exists pre', pre = t ++ pre' /\ rest = pre' ++ e :: post.
Proof.
  revert pre. induction t as [|a t IH]; intros pre rest e post Heq Hlen.
  - exists pre. split; [reflexivity | exact Heq].
  - destruct pre as [|b pre]; [simpl in Hlen; lia|].
    simpl in Heq. injection Heq as -> Heq.
    destruct (IH pre rest e post Heq) as [pre' [-> ->]];
      [simpl in Hlen; lia|].
    exists pre'. split; reflexivity.
Qed.

(** In a run of rounds followed by something that is no lookup, whatever
    precedes a lookup starts with a delay. *)
Lemma pollRounds_lookup_after_delay ms hash n (tail pre post : Trace) h :
  forallb (fun e => negb (isLookup e)) tail = true ->
  pollRounds ms hash n ++ tail = pre ++ EvRpc (GetUserOperationReceipt h) :: post ->
  exists pre', pre = EvTimeout ms :: pre'.
Proof.
  intros Htail Heq. destruct n as [|n].
  - simpl in Heq. exfalso.
    assert (Hin : In (EvRpc (GetUserOperationReceipt h)) tail)
      by (rewrite Heq; apply in_elt).
    rewrite forallb_forall in Htail. specialize (Htail _ Hin). discriminate.
  - destruct pre as [|e pre]; simpl in Heq.
    + discriminate.
    + injection Heq as <- _. now exists pre.
Qed.

(** C10.  In every iteration of the poller the [txRetryIntervalMs] delay comes
    before that iteration's receipt lookup: the poller's events are [n] rounds
    of delay-then-lookup, followed only by the transaction fetch.  No lookup
    happens before one full interval has elapsed, a run that finds a receipt
    (even at once) ends no earlier than one interval after it started, and a
    run that times out has taken exactly [txMaxRetries] delays and
    [txMaxRetries] lookups. *)
Theorem poller_delay_precedes_lookup (this : SmartAccountProvider)
    (hash : Hash) (t : Trace) :
  let ms := txRetryIntervalMs this in
  let run := waitForUserOperationTransaction this hash t in
  exists n tail,
    n <= txMaxRetries this
    /\ snd run = t ++ pollRounds ms hash n ++ tail
    /\ (forall pre post h,
           snd run = pre ++ EvRpc (GetUserOperationReceipt h) :: post ->
           List.length t <= List.length pre ->
           elapsed t + ms <= elapsed pre)
    /\ ((fst run = Err ConfirmationTimeoutError
         /\ tail = []
         /\ delays (snd run) = delays t + txMaxRetries this
         /\ lookups (snd run) = lookups t + txMaxRetries this)
        \/ (fst run <> Err ConfirmationTimeoutError
            /\ (exists txHash, tail = [EvRpc (GetTransaction txHash)])
            /\ 1 <= n
            /\ elapsed t + ms <= elapsed (snd run))).
Proof.
  intros ms run. subst run. unfold waitForUserOperationTransaction.
  destruct (pollReceipt_rounds this hash (txMaxRetries this) t)
    as [n [Hn Hcases]]. cbv zeta in Hcases. fold ms in Hcases.
  assert (Hfirst : forall tail,
    forallb (fun e => negb (isLookup e)) tail = true ->
    snd (pollReceipt this hash (txMaxRetries this) t)
      = t ++ pollRounds ms hash n ++ tail ->
    forall pre post h,
      snd (pollReceipt this hash (txMaxRetries this) t)
        = pre ++ EvRpc (GetUserOperationReceipt h) :: post ->
      List.length t <= List.length pre ->
      elapsed t + ms <= elapsed pre).
  { intros tail Htail Htrace pre post h Hsplit Hlen.
    rewrite Htrace in Hsplit.
    destruct (app_eq_split _ _ _ _ _ Hsplit Hlen) as [pre' [-> Hrest]].
    destruct (pollRounds_lookup_after_delay _ _ _ _ _ _ _ Htail Hrest)
      as [pre'' ->].
    rewrite elapsed_app. simpl. lia. }
  destruct Hcases as [[Hres [-> Htrace]] | [Hres [Hone [txHash Htrace]]]].
  - exists (txMaxRetries this), []. split; [lia|].
    rewrite app_nil_r. split; [exact Htrace|]. split.
    + apply (Hfirst []); [reflexivity | now rewrite app_nil_r].
    + left. split; [exact Hres|]. split; [reflexivity|].
      rewrite Htrace. split.
      * now rewrite delays_app, delays_pollRounds.
      * now rewrite lookups_app, lookups_pollRounds.
  - exists n, [EvRpc (GetTransaction txHash)]. split; [exact Hn|].
    split; [exact Htrace|]. split.
    + apply (Hfirst [EvRpc (GetTransaction txHash)]); [reflexivity | exact Htrace].
    + right. split; [exact Hres|]. split; [now exists txHash|].
      split; [exact Hone|].
      rewrite Htrace, !elapsed_app, elapsed_pollRounds. nia.
Qed.

Lemma poller_delay_precedes_lookup_witness :
  let this := stubProvider None stubFeeData 0 in
  fst (waitForUserOperationTransaction this "0xa1" []) = OK "0xbb"
  /\ snd (waitForUserOperationTransaction this "0xa1" [])
     = [EvTimeout 2000; EvRpc (GetUserOperationReceipt "0xa1");
        EvRpc (GetTransaction "0xbb")]
  /\ 2000 <= elapsed (snd (waitForUserOperationTransaction this "0xa1" [])).
Proof.
  cbv zeta.
  destruct (poller_delay_precedes_lookup (stubProvider None stubFeeData 0)
              "0xa1" []) as [n [tail [_ [_ [_ Hcases]]]]].
  assert (Hrun : fst (waitForUserOperationTransaction
                        (stubProvider None stubFeeData 0) "0xa1" []) = OK "0xbb")
    by reflexivity.
  split; [exact Hrun|]. split; [reflexivity|].
  destruct Hcases as [[Hres _] | [_ [_ [_ Hlate]]]].
  - rewrite Hrun in Hres. discriminate Hres.
  - exact Hlate.
Defined.

(** ** The middleware stages *)

Lemma bind_ok_inv {A B} (m : M A) (f : A -> M B) t b :
  fst (bind m f t) = OK b ->
  exists a t', m t = (OK a, t') /\ fst (f a t') = OK b.
Proof.
  unfold bind. destruct (m t) as [[a|e] t']; simpl; intros H.
  - now exists a, t'.
  - discriminate H.
Qed.

Lemma bind_resolveProperty_trace {T B} (f : PromiseOrValue T)
    (k : option T -> M B) t :
  (forall v, snd (k v t) = t) -> snd (bind (resolveProperty f) k t) = t.
Proof.
  intros Hk. unfold bind. destruct f as [[v|reason]|]; simpl; auto.
Qed.

Lemma bind_resolveProperty_fulfilled {T B} (f : PromiseOrValue T)
    (k : option T -> M B) t :
  fulfilled f = true -> bind (resolveProperty f) k t = k (valueOf f) t.
Proof. destruct f as [[v|reason]|]; simpl; intros H; try discriminate; reflexivity. Qed.

Lemma bind_resolveProperty_ok_inv {T B} (f : PromiseOrValue T)
    (k : option T -> M B) t b :
  fst (bind (resolveProperty f) k t) = OK b ->
  fulfilled f = true /\ fst (k (valueOf f) t) = OK b.
Proof.
  destruct f as [[v|reason]|]; cbn; intros H; try discriminate; now split.
Qed.

Lemma resolveProperties_trace (u : UserOperationStruct) t :
  snd (resolveProperties u t) = t.
Proof.
  unfold resolveProperties.
  repeat (apply bind_resolveProperty_trace; intros ?). reflexivity.
Qed.

(** One field of [resolveProperties], read off a successful run. *)
Ltac resolved_field H :=
  let Hfield := fresh "Hfield" in
  apply bind_resolveProperty_ok_inv in H as [Hfield H].

Lemma resolveProperties_fulfilled (u : UserOperationStruct) t :
  allFulfilled u = true -> resolveProperties u t = (OK (resolvedOf u), t).
Proof.
  unfold allFulfilled. rewrite !andb_true_iff.
  intros [[[[[[[[[[H1 H2] H3] H4] H5] H6] H7] H8] H9] H10] H11].
  unfold resolveProperties.
  now rewrite !bind_resolveProperty_fulfilled by assumption.
Qed.

Lemma resolveProperties_ok_inv (u : UserOperationStruct) t r :
  fst (resolveProperties u t) = OK r ->
  allFulfilled u = true /\ r = resolvedOf u.
Proof.
  unfold resolveProperties. intros H.
  do 11 resolved_field H.
  cbn in H. injection H as <-. split; [|reflexivity].
  unfold allFulfilled.
  repeat match goal with
         | Hfield : fulfilled _ = true |- _ => rewrite Hfield; clear Hfield
         end.
  reflexivity.
Qed.

Lemma defined_valueOf {T} (f : PromiseOrValue T) :
  fulfilled f = true -> defined (valueOf f) = defined f.
Proof. destruct f as [[v|reason]|]; simpl; intros H; try discriminate; reflexivity. Qed.

Lemma defined_option_map {A B} (g : A -> B) (v : option A) :
  defined (option_map g v) = defined v.
Proof. now destruct v. Qed.

Section ProviderProperties.

#[local] Set Default Proof Using "Type".

Variable toHex : Z -> Hex.
Variable fromHex : Hex -> Z.
Variable JSON_stringify : UserOperationRequest -> string.
Variable getUserOperationHash : UserOperationRequest -> Address -> Z -> Hex.

(** The validator accepts the encoded request exactly when every field of the
    struct was set. *)
Lemma isValidRequest_structComplete (u : UserOperationStruct) :
  allFulfilled u = true ->
  isValidRequest (deepHexlify toHex (resolvedOf u)) = structComplete u.
Proof.
  unfold allFulfilled. rewrite !andb_true_iff.
  intros [[[[[[[[[[H1 H2] H3] H4] H5] H6] H7] H8] H9] H10] H11].
  unfold isValidRequest, structComplete, deepHexlify, resolvedOf. cbn.
  rewrite !defined_option_map.
  now rewrite !defined_valueOf by assumption.
Qed.

(** What the gas-estimator stage does on a struct without rejected promises. *)
Lemma gasEstimator_fulfilled (this : SmartAccountProvider)
    (struct : UserOperationStruct) (t : Trace) :
  allFulfilled struct = true ->
  let request := deepHexlify toHex (resolvedOf struct) in
  let ev := EvRpc (EstimateUserOperationGas request (entryPointAddress this)) in
  gasEstimator toHex this struct t
  = (match Rpc.estimateUserOperationGas (rpcClient this) t request
             (entryPointAddress this) with
     | Resolves estimates =>
         OK (set_preVerificationGas
               (Some (Resolves (GasEstimates.preVerificationGas estimates)))
               (set_verificationGasLimit
                  (Some (Resolves (GasEstimates.verificationGasLimit estimates)))
                  (set_callGasLimit
                     (Some (Resolves (GasEstimates.callGasLimit estimates)))
                     struct)))
     | Rejects reason => Err (ExternalError reason)
     end, t ++ [ev]).
Proof.
  intros Hful request ev. unfold gasEstimator.
  rewrite (bind_ok _ _ _ _ _ (resolveProperties_fulfilled struct t Hful)).
  fold request. fold ev. unfold call, bind, start, await.
  destruct (Rpc.estimateUserOperationGas _ _ _ _); reflexivity.
Qed.

Lemma gasEstimator_ok_inv (this : SmartAccountProvider)
    (struct struct' : UserOperationStruct) (t : Trace) :
  fst (gasEstimator toHex this struct t) = OK struct' ->
  exists estimates,
    struct' =
      set_preVerificationGas
        (Some (Resolves (GasEstimates.preVerificationGas estimates)))
        (set_verificationGasLimit
           (Some (Resolves (GasEstimates.verificationGasLimit estimates)))
           (set_callGasLimit
              (Some (Resolves (GasEstimates.callGasLimit estimates)))
              struct)).
Proof.
  intros H.
  assert (Hful : allFulfilled struct = true).
  { unfold gasEstimator in H. apply bind_ok_inv in H as [r [t' [Hr _]]].
    apply (resolveProperties_ok_inv struct t r). now rewrite Hr. }
  rewrite (gasEstimator_fulfilled this struct t Hful) in H. cbv zeta in H.
  cbn [fst] in H.
  destruct (Rpc.estimateUserOperationGas _ _ _ _) as [estimates|reason];
    [|discriminate H].
  injection H as <-. now exists estimates.
Qed.

Lemma feeDataGetter_ok_inv (this : SmartAccountProvider)
    (struct struct' : UserOperationStruct) (t : Trace) :
  fst (feeDataGetter this struct t) = OK struct' ->
  exists bid cap,
    struct' =
      set_maxPriorityFeePerGas (Some (Resolves bid))
        (set_maxFeePerGas (Some (Resolves cap)) struct).
Proof.
  intros H. unfold feeDataGetter in H.
  apply bind_ok_inv in H as [s [t1 [Hs H]]].
  apply bind_ok_inv in H as [feeData [t2 [Hf H]]].
  destruct (falsy (FeeData.maxFeePerGas feeData)
            || falsy (FeeData.maxPriorityFeePerGas feeData)); [discriminate H|].
  destruct feeData as [[fM|] [fP|]]; cbn in H; try discriminate H.
  injection H as <-. eauto.
Qed.

(** C9.  Each default stage changes only its own fields of the draft it is
    given: the dummy-paymaster and paymaster stages set [paymasterAndData] to
    the empty byte string ["0x"]; the gas estimator sets [callGasLimit],
    [verificationGasLimit] and [preVerificationGas]; the fee-data stage sets
    [maxFeePerGas] and [maxPriorityFeePerGas]; all other fields are returned
    as they came. *)
Theorem default_stages_frame (this : SmartAccountProvider)
    (struct : UserOperationStruct) (t : Trace) :
  (exists struct',
      dummyPaymasterDataMiddleware struct t = (OK struct', t)
      /\ paymasterAndData struct' = Some (Resolves "0x")
      /\ agreeButPaymaster struct struct')
  /\ (exists struct',
         paymasterMiddleware struct t = (OK struct', t)
         /\ paymasterAndData struct' = Some (Resolves "0x")
         /\ agreeButPaymaster struct struct')
  /\ (forall struct',
         fst (gasEstimator toHex this struct t) = OK struct' ->
         agreeButGas struct struct'
         /\ exists estimates,
              callGasLimit struct'
              = Some (Resolves (GasEstimates.callGasLimit estimates))
              /\ verificationGasLimit struct'
                 = Some (Resolves (GasEstimates.verificationGasLimit estimates))
              /\ preVerificationGas struct'
                 = Some (Resolves (GasEstimates.preVerificationGas estimates)))
  /\ (forall struct',
         fst (feeDataGetter this struct t) = OK struct' ->
         agreeButFees struct struct'
         /\ exists bid cap,
              maxPriorityFeePerGas struct' = Some (Resolves bid)
              /\ maxFeePerGas struct' = Some (Resolves cap)).
Proof.
  split; [|split; [|split]].
  - eexists. split; [reflexivity|]. split; [reflexivity|].
    unfold agreeButPaymaster. cbn. repeat split.
  - eexists. split; [reflexivity|]. split; [reflexivity|].
    unfold agreeButPaymaster. cbn. repeat split.
  - intros struct' H. apply gasEstimator_ok_inv in H as [estimates ->].
    split; [unfold agreeButGas; cbn; repeat split|].
    exists estimates. cbn. repeat split.
  - intros struct' H. apply feeDataGetter_ok_inv in H as [bid [cap ->]].
    split; [unfold agreeButFees; cbn; repeat split|].
    exists bid, cap. cbn. repeat split.
Qed.

(** The pipeline of an instance with the class's own stages. *)
Lemma asyncPipe_default (this : SmartAccountProvider)
    (struct : UserOperationStruct) :
  defaultStages this ->
  asyncPipe (pipeline toHex this) struct
  = bind (dummyPaymasterDataMiddleware struct) (fun s1 =>
    bind (gasEstimator toHex this s1) (fun s2 =>
    bind (feeDataGetter this s2) (fun s3 =>
    bind (paymasterMiddleware s3) (fun s4 => ret s4)))).
Proof.
  intros [H1 [H2 [H3 H4]]].
  unfold pipeline, stage_dummyPaymasterDataMiddleware, stage_gasEstimator,
    stage_feeDataGetter, stage_paymasterMiddleware.
  rewrite H1, H2, H3, H4. reflexivity.
Qed.

(** C3.  A draft on which the assembler has set [sender], [nonce],
    [initCode], [callData] and the dummy [signature], passed through the four
    default stages in the order dummy-paymaster, gas-estimator, fee-data,
    paymaster, comes out with every field defined, so the validator never
    sees a missing field; and the pipeline does come out when no account
    promise is rejected and the bundler client answers its queries. *)
Theorem pipeline_output_complete (this : SmartAccountProvider)
    (struct : UserOperationStruct) (t : Trace) :
  defaultStages this ->
  assembled struct = true ->
  (forall struct',
      fst (asyncPipe (pipeline toHex this) struct t) = OK struct' ->
      structComplete struct' = true)
  /\ (allFulfilled struct = true ->
      pipelineQueriesSucceed (rpcClient this) ->
      exists struct',
        fst (asyncPipe (pipeline toHex this) struct t) = OK struct'
        /\ structComplete struct' = true).
Proof.
  intros Hdefault Hassembled.
  rewrite (asyncPipe_default this struct Hdefault).
  unfold assembled in Hassembled. rewrite !andb_true_iff in Hassembled.
  destruct Hassembled as [[[[Hsender Hnonce] HinitCode] HcallData] Hsignature].
  assert (Hsafe : forall struct',
    fst (bind (dummyPaymasterDataMiddleware struct) (fun s1 =>
         bind (gasEstimator toHex this s1) (fun s2 =>
         bind (feeDataGetter this s2) (fun s3 =>
         bind (paymasterMiddleware s3) (fun s4 => ret s4)))) t) = OK struct' ->
    structComplete struct' = true).
  { intros struct' H.
    apply bind_ok_inv in H as [s1 [t1 [H1 H]]].
    apply bind_ok_inv in H as [s2 [t2 [H2 H]]].
    apply bind_ok_inv in H as [s3 [t3 [H3 H]]].
    apply bind_ok_inv in H as [s4 [t4 [H4 H]]].
    cbn in H. injection H as <-.
    unfold dummyPaymasterDataMiddleware, ret in H1. injection H1 as <- <-.
    assert (H2' : fst (gasEstimator toHex this
                         (set_paymasterAndData (Some (Resolves "0x")) struct) t)
                  = OK s2) by now rewrite H2.
    apply gasEstimator_ok_inv in H2' as [estimates ->].
    assert (H3' : fst (feeDataGetter this
                         (set_preVerificationGas
                            (Some (Resolves (GasEstimates.preVerificationGas estimates)))
                            (set_verificationGasLimit
                               (Some (Resolves (GasEstimates.verificationGasLimit estimates)))
                               (set_callGasLimit
                                  (Some (Resolves (GasEstimates.callGasLimit estimates)))
                                  (set_paymasterAndData (Some (Resolves "0x")) struct))))
                         t2) = OK s3) by now rewrite H3.
    apply feeDataGetter_ok_inv in H3' as [bid [cap ->]].
    unfold paymasterMiddleware, ret in H4. injection H4 as <- _.
    unfold structComplete. cbn.
    now rewrite Hsender, Hnonce, HinitCode, HcallData, Hsignature. }
  split; [exact Hsafe|].
  intros Hful [Hestimate [Hsuggest Hfees]].
  assert (Hrun : exists struct',
    fst (bind (dummyPaymasterDataMiddleware struct) (fun s1 =>
         bind (gasEstimator toHex this s1) (fun s2 =>
         bind (feeDataGetter this s2) (fun s3 =>
         bind (paymasterMiddleware s3) (fun s4 => ret s4)))) t) = OK struct').
  { unfold dummyPaymasterDataMiddleware at 1. unfold bind at 1. unfold ret at 1.
    set (s1 := set_paymasterAndData (Some (Resolves "0x")) struct).
    assert (Hful1 : allFulfilled s1 = true).
    { unfold allFulfilled in *. subst s1. cbn.
      rewrite !andb_true_iff in *. tauto. }
    unfold bind at 1. rewrite (gasEstimator_fulfilled this s1 t Hful1).
    cbv zeta.
    destruct (Hestimate t (deepHexlify toHex (resolvedOf s1))
                (entryPointAddress this)) as [estimates ->].
    match goal with
    | |- context [bind (feeDataGetter this ?s2) _ ?u] =>
        destruct (Hsuggest u) as [s Hs];
        destruct (Hfees (u ++ [EvRpc GetMaxPriorityFeePerGas]))
          as [fM [fP [Hf [HM HP]]]];
        unfold bind at 1;
        rewrite (feeDataGetter_answered this _ u s _ Hs Hf)
    end.
    cbn [FeeData.maxFeePerGas FeeData.maxPriorityFeePerGas].
    apply Z.eqb_neq in HM, HP. rewrite HM, HP. cbn.
    eexists. reflexivity. }
  destruct Hrun as [struct' Hrun]. exists struct'.
  split; [exact Hrun | exact (Hsafe struct' Hrun)].
Qed.

(** ** Submission *)

Lemma bind_start {A B} (ev : Event) (answer : Trace -> Settled A)
    (k : Settled A -> M B) t :
  bind (start ev answer) k t = k (answer t) (t ++ [ev]).
Proof. reflexivity. Qed.

Lemma call_outcome {A} (ev : Event) (answer : Trace -> Settled A) t :
  call ev answer t = (outcome (answer t), t ++ [ev]).
Proof. unfold call, bind, start, await. now destruct (answer t). Qed.

(** C5.  After the pipeline has completed, [sendUserOperation] encodes every
    numeric field of the draft to hex and checks that no field is missing.  If
    a field is still unset it fails with [IncompleteRequestError] carrying the
    serialized partial request, and nothing is signed or submitted: the trace
    stays as the pipeline left it.  Only a fully populated request is signed
    and then submitted. *)
Theorem validation_gate (this : SmartAccountProvider) (acct : Account.t)
    (target data : string) (value : option Z) (t : Trace) (initCode : Hex)
    (uoStruct : UserOperationStruct) (t1 : Trace) :
  account this = Some acct ->
  Account.getInitCode acct t = Resolves initCode ->
  asyncPipe (pipeline toHex this)
    (initialDraft acct t target (nullish value 0%Z) data initCode)
    (t ++ assemblyEvents target (nullish value 0%Z) data)
  = (OK uoStruct, t1) ->
  allFulfilled uoStruct = true ->
  let request := deepHexlify toHex (resolvedOf uoStruct) in
  let run :=
    sendUserOperation toHex JSON_stringify getUserOperationHash
      this target data value t in
  (structComplete uoStruct = false ->
   run = (Err (IncompleteRequestError (JSON_stringify request)), t1))
  /\ (structComplete uoStruct = true ->
      let uoHash :=
        getUserOperationHash request (entryPointAddress this) (chain_id this) in
      let sign := EvAccount (SignMessage (JsString uoHash)) in
      match Account.signMessage acct t1 (JsString uoHash) with
      | Rejects reason => run = (Err (ExternalError reason), t1 ++ [sign])
      | Resolves signed =>
          let request' := set_signature (Some signed) request in
          let submit :=
            EvRpc (SendUserOperation request' (entryPointAddress this)) in
          run
          = (match Rpc.sendUserOperation (rpcClient this) (t1 ++ [sign])
                     request' (entryPointAddress this) with
             | Resolves hash => OK (mkSendResult hash request')
             | Rejects reason => Err (ExternalError reason)
             end, t1 ++ [sign; submit])
      end).
Proof.
  intros Hacct Hinit Hpipe Hful request run.
  assert (Hrun : run =
    bind (resolveProperties uoStruct) (fun resolved =>
      let request := deepHexlify toHex resolved in
      if negb (isValidRequest request)
      then throw (IncompleteRequestError (JSON_stringify request))
      else
        let uoHash :=
          getUserOperationHash request (entryPointAddress this) (chain_id this) in
        bind (call (EvAccount (SignMessage (JsString uoHash)))
                (fun t => Account.signMessage acct t (JsString uoHash)))
          (fun signed =>
             let request := set_signature (Some signed) request in
             bind (call (EvRpc (SendUserOperation request (entryPointAddress this)))
                     (fun t => Rpc.sendUserOperation (rpcClient this) t request
                                 (entryPointAddress this)))
               (fun hash => ret (mkSendResult hash request)))) t1).
  { subst run. unfold sendUserOperation. rewrite Hacct.
    rewrite (bind_ok _ _ _ _ _ (call_resolves _ _ _ _ Hinit)).
    unfold getAddress. rewrite Hacct.
    rewrite !bind_start. rewrite <- !app_assoc.
    rewrite (bind_ok _ _ _ _ _ Hpipe). reflexivity. }
  rewrite Hrun.
  rewrite (bind_ok _ _ _ _ _ (resolveProperties_fulfilled uoStruct t1 Hful)).
  cbv zeta. subst request.
  rewrite (isValidRequest_structComplete uoStruct Hful).
  split; intros Hcomplete; rewrite Hcomplete; cbn [negb].
  - reflexivity.
  - destruct (Account.signMessage acct t1 _) as [signed|reason] eqn:Hsign.
    + rewrite (bind_ok _ _ _ _ _ (call_resolves _ _ _ _ Hsign)).
      unfold bind. rewrite call_outcome, app_snoc2.
      destruct (Rpc.sendUserOperation _ _ _ _); reflexivity.
    + now rewrite (bind_err _ _ _ _ _ (call_rejects _ _ _ _ Hsign)).
Qed.

(** ** The RPC surface *)

Lemma signingMethod_not_send (m : string) :
  signingMethod m = true -> String.eqb m "eth_sendTransaction" = false.
Proof.
  unfold signingMethod. intros H. apply orb_true_iff in H.
  destruct H as [H|H]; apply String.eqb_eq in H; subst m; reflexivity.
Qed.

Lemma handledMethod_false (m : string) :
  handledMethod m = false ->
  String.eqb m "eth_sendTransaction" = false /\ signingMethod m = false.
Proof.
  unfold handledMethod, signingMethod. intros H.
  destruct (String.eqb m "eth_sendTransaction"); [discriminate H|].
  split; [reflexivity | exact H].
Qed.

Lemma differs_spec (a : JsValue) (own : Address) :
  differs a own = false <-> a = JsString own.
Proof.
  destruct a as [|s|tx]; simpl; split; intros H; try discriminate.
  - apply negb_false_iff, String.eqb_eq in H. now subst.
  - injection H as ->. now rewrite String.eqb_refl.
Qed.

(** Every method [request] does not handle itself goes to the bundler client
    as it came. *)
Lemma request_forwards (this : SmartAccountProvider) (args : RequestArgs)
    (t : Trace) :
  handledMethod (method args) = false ->
  request toHex fromHex JSON_stringify getUserOperationHash this args t
  = (outcome (Rpc.request (rpcClient this) t args), t ++ [EvRpc (Request args)]).
Proof.
  intros H. apply handledMethod_false in H as [Hsend Hsign].
  unfold request. rewrite Hsend. unfold signingMethod in Hsign. rewrite Hsign.
  exact (call_outcome _ (fun u => Rpc.request (rpcClient this) u args) t).
Qed.

(** C6.  With no account bound, [sendUserOperation] fails with
    [AccountNotConnectedError] before any call is made, on the bundler client
    or otherwise, and so does every operation that needs the signer:
    [getAddress], [sendTransaction] of a request with a target (a [to] that
    is not the empty string, which [sendTransaction] takes for a missing
    target), and the signing methods of [request]; the other RPC methods
    still pass through to the bundler client, and once an account is attached
    with [connect] the address is the account's. *)
Theorem unbound_account_fails (this : SmartAccountProvider) :
  account this = None ->
  (forall target data value t,
      sendUserOperation toHex JSON_stringify getUserOperationHash
        this target data value t
      = (Err AccountNotConnectedError, t))
  /\ (forall t, getAddress this t = (Err AccountNotConnectedError, t))
  /\ (forall tx to t,
         tx_to tx = Some to -> to <> ""%string ->
         sendTransaction toHex fromHex JSON_stringify getUserOperationHash
           this tx t
         = (Err AccountNotConnectedError, t))
  /\ (forall args t,
         signingMethod (method args) = true ->
         request toHex fromHex JSON_stringify getUserOperationHash this args t
         = (Err AccountNotConnectedError, t))
  /\ (forall args t,
         handledMethod (method args) = false ->
         request toHex fromHex JSON_stringify getUserOperationHash this args t
         = (outcome (Rpc.request (rpcClient this) t args),
            t ++ [EvRpc (Request args)]))
  /\ (forall fn t,
         getAddress (connect this fn) t
         = (OK (Account.getAddress (fn (rpcClient this)) t),
            t ++ [EvAccount GetAddress])).
Proof.
  intros Hnone.
  assert (Hsend : forall target data value t,
            sendUserOperation toHex JSON_stringify getUserOperationHash
              this target data value t
            = (Err AccountNotConnectedError, t)).
  { intros. unfold sendUserOperation. now rewrite Hnone. }
  split; [exact Hsend|]. split; [|split; [|split; [|split]]].
  - intros t. unfold getAddress. now rewrite Hnone.
  - intros tx to t Hto Hne. unfold sendTransaction.
    rewrite (truthy_some _ _ Hto Hne).
    now rewrite (bind_err _ _ _ _ _ (Hsend _ _ _ _)).
  - intros args t Hsign. unfold request.
    rewrite (signingMethod_not_send _ Hsign).
    unfold signingMethod in Hsign. rewrite Hsign. now rewrite Hnone.
  - intros args t. apply request_forwards.
  - intros fn t. reflexivity.
Qed.


(** C8.  For [eth_sign] and [personal_sign]: with no account bound the call
    fails with [AccountNotConnectedError]; with an account bound, an address
    that differs from the account's fails with
    [UnsupportedSignerMismatchError], and the account's own address gets the
    account's signature over the supplied data.  Every method other than
    [eth_sendTransaction], [eth_sign] and [personal_sign] is forwarded
    unmodified to the bundler client. *)
Theorem request_signing (this : SmartAccountProvider) (args : RequestArgs)
    (t : Trace) :
  let run :=
    request toHex fromHex JSON_stringify getUserOperationHash this args t in
  (signingMethod (method args) = true ->
   (account this = None -> run = (Err AccountNotConnectedError, t))
   /\ (forall acct ps own,
          account this = Some acct ->
          params args = Some ps ->
          Account.getAddress acct t = Resolves own ->
          let data := nth 0 ps JsUndefined in
          let address := nth 1 ps JsUndefined in
          (address <> JsString own ->
           run = (Err UnsupportedSignerMismatchError, t ++ [EvAccount GetAddress]))
          /\ (address = JsString own ->
              run
              = (match Account.signMessage acct (t ++ [EvAccount GetAddress]) data with
                 | Resolves s => OK (JsString s)
                 | Rejects reason => Err (ExternalError reason)
                 end,
                 t ++ [EvAccount GetAddress; EvAccount (SignMessage data)]))))
  /\ (handledMethod (method args) = false ->
      run = (outcome (Rpc.request (rpcClient this) t args),
             t ++ [EvRpc (Request args)])).
Proof.
  intros run. subst run. split; [|apply request_forwards].
  intros Hsign. unfold request.
  rewrite (signingMethod_not_send _ Hsign).
  unfold signingMethod in Hsign. rewrite Hsign. split.
  - intros Hnone. now rewrite Hnone.
  - intros acct ps own Hacct Hparams Hown. cbv zeta.
    rewrite Hacct, Hparams.
    set (data := nth 0 ps JsUndefined). set (address := nth 1 ps JsUndefined).
    unfold getAddress. rewrite Hacct.
    rewrite bind_start, Hown. cbn [await].
    change (bind (ret own) ?k ?u) with (k own u). cbv beta.
    split; intros Haddress.
    + destruct (differs address own) eqn:Hdiff; [reflexivity|].
      apply differs_spec in Hdiff. contradiction.
    + apply differs_spec in Haddress. rewrite Haddress.
      unfold bind. rewrite call_outcome, app_snoc2.
      destruct (Account.signMessage _ _ _); reflexivity.
Qed.

End ProviderProperties.

(** ** The theorems at the stub collaborators *)

Lemma stubRpc_answers (feeData : FeeData.t) (k : nat) (txHash : Hash) fM fP :
  feeData = FeeData.mk (Some fM) (Some fP) -> fM <> 0%Z -> fP <> 0%Z ->
  pipelineQueriesSucceed (stubRpc 1000000000 feeData k txHash).
Proof.
  intros -> HM HP. split; [|split].
  - intros. now exists stubEstimates.
  - intros. now exists 1000000000%Z.
  - intros. now exists fM, fP.
Qed.

Lemma default_stages_frame_witness :
  let this := stubProvider None stubFeeData 0 in
  (exists struct',
      fst (gasEstimator HexString.of_Z this stubDraft []) = OK struct'
      /\ agreeButGas stubDraft struct')
  /\ (exists struct',
         fst (feeDataGetter this stubDraft []) = OK struct'
         /\ agreeButFees stubDraft struct').
Proof.
  cbv zeta.
  destruct (default_stages_frame HexString.of_Z
              (stubProvider None stubFeeData 0) stubDraft [])
    as [_ [_ [Hgas Hfees]]].
  split.
  - eexists. split; [reflexivity|]. apply Hgas. reflexivity.
  - eexists. split; [reflexivity|]. apply Hfees. reflexivity.
Defined.

Lemma pipeline_output_complete_witness :
  let this := stubProvider None stubFeeData 0 in
  defaultStages this
  /\ assembled stubDraft = true
  /\ allFulfilled stubDraft = true
  /\ pipelineQueriesSucceed (rpcClient this)
  /\ exists struct',
       fst (asyncPipe (pipeline HexString.of_Z this) stubDraft []) = OK struct'
       /\ structComplete struct' = true.
Proof.
  cbv zeta.
  assert (Hdefault : defaultStages (stubProvider None stubFeeData 0))
    by (repeat split).
  assert (Hqueries : pipelineQueriesSucceed
                       (rpcClient (stubProvider None stubFeeData 0))).
  { apply (stubRpc_answers stubFeeData 0 "0xbb" 5000000000 2000000000);
      [reflexivity | discriminate | discriminate]. }
  split; [exact Hdefault|]. split; [reflexivity|]. split; [reflexivity|].
  split; [exact Hqueries|].
  exact (proj2 (pipeline_output_complete HexString.of_Z
                  (stubProvider None stubFeeData 0) stubDraft []
                  Hdefault eq_refl) eq_refl Hqueries).
Defined.

(** A provider whose gas estimator was replaced by the no-op leaves the three
    gas limits unset, and the request is turned away unsigned. *)
Lemma validation_gate_witness :
  let acct := stubAccount "0xacc" in
  let this :=
    withGasEstimator (stubProvider (Some acct) stubFeeData 0) noOpMiddleware in
  exists uoStruct t1,
    account this = Some acct
    /\ Account.getInitCode acct [] = Resolves "0x"
    /\ asyncPipe (pipeline HexString.of_Z this)
         (initialDraft acct [] "0x70" 0 "0x" "0x")
         ([] ++ assemblyEvents "0x70" 0 "0x")
       = (OK uoStruct, t1)
    /\ allFulfilled uoStruct = true
    /\ structComplete uoStruct = false
    /\ sendUserOperation HexString.of_Z stubStringify stubHash this
         "0x70" "0x" None []
       = (Err (IncompleteRequestError
                 (stubStringify (deepHexlify HexString.of_Z (resolvedOf uoStruct)))),
          t1).
Proof.
  cbv zeta.
  set (acct := stubAccount "0xacc").
  set (this := withGasEstimator (stubProvider (Some acct) stubFeeData 0)
                 noOpMiddleware).
  destruct (asyncPipe (pipeline HexString.of_Z this)
              (initialDraft acct [] "0x70" 0 "0x" "0x")
              ([] ++ assemblyEvents "0x70" 0 "0x"))
    as [[uoStruct|e] t1] eqn:Hpipe; [|vm_compute in Hpipe; discriminate Hpipe].
  exists uoStruct, t1.
  assert (Hshape : uoStruct
    = set_paymasterAndData (Some (Resolves "0x"))
        (set_maxPriorityFeePerGas (Some (Resolves 1333333333%Z))
           (set_maxFeePerGas (Some (Resolves 4333333333%Z))
              (set_paymasterAndData (Some (Resolves "0x"))
                 (initialDraft acct [] "0x70" 0 "0x" "0x"))))).
  { vm_compute in Hpipe. injection Hpipe as <- _. reflexivity. }
  assert (Hful : allFulfilled uoStruct = true) by (rewrite Hshape; reflexivity).
  assert (Hgap : structComplete uoStruct = false) by (rewrite Hshape; reflexivity).
  split; [reflexivity|]. split; [reflexivity|]. split; [reflexivity|].
  split; [exact Hful|]. split; [exact Hgap|].
  exact (proj1 (validation_gate HexString.of_Z stubStringify stubHash this acct
                  "0x70" "0x" None [] "0x" uoStruct t1
                  eq_refl eq_refl Hpipe Hful) Hgap).
Defined.

Lemma unbound_account_fails_witness :
  let this := stubProvider None stubFeeData 0 in
  account this = None
  /\ sendUserOperation HexString.of_Z stubStringify stubHash this
       "0x70" "0x" None []
     = (Err AccountNotConnectedError, [])
  /\ sendTransaction HexString.of_Z HexString.to_Z stubStringify stubHash this
       (mkTx (Some "0x70") None None) []
     = (Err AccountNotConnectedError, [])
  /\ request HexString.of_Z HexString.to_Z stubStringify stubHash this
       (mkArgs "eth_chainId" None) []
     = (OK (JsString "eth_chainId"),
        [EvRpc (Request (mkArgs "eth_chainId" None))]).
Proof.
  cbv zeta.
  destruct (unbound_account_fails HexString.of_Z HexString.to_Z stubStringify
              stubHash (stubProvider None stubFeeData 0) eq_refl)
    as [Hsend [_ [Htx [_ [Hforward _]]]]].
  split; [reflexivity|]. split; [apply Hsend|]. split.
  - apply (Htx (mkTx (Some "0x70") None None) "0x70" [] eq_refl). discriminate.
  - exact (Hforward (mkArgs "eth_chainId" None) [] eq_refl).
Defined.


Lemma request_signing_witness :
  let acct := stubAccount "0xacc" in
  let this := stubProvider (Some acct) stubFeeData 0 in
  let run address :=
    request HexString.of_Z HexString.to_Z stubStringify stubHash this
      (mkArgs "personal_sign" (Some [JsString "0x68"; JsString address])) [] in
  signingMethod "personal_sign" = true
  /\ Account.getAddress acct [] = Resolves "0xacc"
  /\ run "0xbad" = (Err UnsupportedSignerMismatchError, [EvAccount GetAddress])
  /\ run "0xacc"
     = (OK (JsString "0x5e"),
        [EvAccount GetAddress; EvAccount (SignMessage (JsString "0x68"))]).
Proof.
  cbv zeta.
  set (acct := stubAccount "0xacc").
  set (this := stubProvider (Some acct) stubFeeData 0).
  split; [reflexivity|]. split; [reflexivity|]. split.
  - destruct (request_signing HexString.of_Z HexString.to_Z stubStringify
                stubHash this
                (mkArgs "personal_sign" (Some [JsString "0x68"; JsString "0xbad"]))
                []) as [Hsign _].
    destruct (Hsign eq_refl) as [_ Hbound].
    destruct (Hbound acct [JsString "0x68"; JsString "0xbad"] "0xacc"
                eq_refl eq_refl eq_refl) as [Hmismatch _].
    apply Hmismatch. discriminate.
  - destruct (request_signing HexString.of_Z HexString.to_Z stubStringify
                stubHash this
                (mkArgs "personal_sign" (Some [JsString "0x68"; JsString "0xacc"]))
                []) as [Hsign _].
    destruct (Hsign eq_refl) as [_ Hbound].
    destruct (Hbound acct [JsString "0x68"; JsString "0xacc"] "0xacc"
                eq_refl eq_refl eq_refl) as [_ Hmatch].
    exact (Hmatch eq_refl).
Defined.

(** * Further properties of the provider *)

(** ** The fee-data stage *)

Local Open Scope Z_scope.

(** X1.  Once both fee queries have answered, the fee-data stage fails
    exactly when [maxFeePerGas] or [maxPriorityFeePerGas] is absent or zero,
    always with [InvalidFeeDataError], and it has then made both queries and
    nothing else. *)
Theorem feeDataGetter_guard (this : SmartAccountProvider)
    (struct : UserOperationStruct) (t : Trace) (s : Z) (feeData : FeeData.t) :
  feeQueriesAnswer this t s feeData ->
  let absentOrZero v := v = None \/ v = Some 0 in
  (absentOrZero (FeeData.maxFeePerGas feeData)
   \/ absentOrZero (FeeData.maxPriorityFeePerGas feeData) ->
   feeDataGetter this struct t
   = (Err InvalidFeeDataError,
      (t ++ [EvRpc GetMaxPriorityFeePerGas; EvRpc GetFeeData])%list))
  /\ (~ (absentOrZero (FeeData.maxFeePerGas feeData)
         \/ absentOrZero (FeeData.maxPriorityFeePerGas feeData)) ->
      exists struct', fst (feeDataGetter this struct t) = OK struct').
Proof.
  intros [Hq Hf] absentOrZero.
  rewrite (feeDataGetter_answered this struct t s _ Hq Hf).
  destruct feeData as [[fM|] [fP|]]; cbn [FeeData.maxFeePerGas
    FeeData.maxPriorityFeePerGas fst]; subst absentOrZero; cbv beta.
  - destruct (Z.eqb_spec fM 0) as [->|HM]; [|destruct (Z.eqb_spec fP 0) as [->|HP]];
      cbn [orb]; split; intros H; try reflexivity.
    + exfalso. apply H. left. now right.
    + exfalso. apply H. right. now right.
    + destruct H as [[H|H]|[H|H]]; try discriminate H; injection H; contradiction.
    + eexists. reflexivity.
  - split; intros H; [reflexivity|]. exfalso. apply H. right. now left.
  - split; intros H; [reflexivity|]. exfalso. apply H. left. now left.
  - split; intros H; [reflexivity|]. exfalso. apply H. left. now left.
Qed.

Lemma feeDataGetter_guard_witness :
  let feeData := FeeData.mk (Some 0) (Some 2000000000) in
  let this := stubProvider None feeData 0 in
  feeQueriesAnswer this [] 1000000000 feeData
  /\ feeDataGetter this stubDraft []
     = (Err InvalidFeeDataError, [EvRpc GetMaxPriorityFeePerGas; EvRpc GetFeeData]).
Proof.
  cbv zeta.
  assert (Hq : feeQueriesAnswer
                 (stubProvider None (FeeData.mk (Some 0) (Some 2000000000)) 0)
                 [] 1000000000 (FeeData.mk (Some 0) (Some 2000000000)))
    by (split; reflexivity).
  split; [exact Hq|].
  apply (proj1 (feeDataGetter_guard _ stubDraft [] 1000000000 _ Hq)).
  left. now right.
Defined.

(** X2.  The priority-fee bid is never below the configured minimum,
    whatever the network suggests (a negative suggestion included), and it
    never decreases when the suggestion increases. *)
Theorem maxPriorityFeePerGasBid_bounds (minBid s s' : Z) :
  minBid <= maxPriorityFeePerGasBid minBid s
  /\ (s <= s' ->
      maxPriorityFeePerGasBid minBid s <= maxPriorityFeePerGasBid minBid s').
Proof.
  unfold maxPriorityFeePerGasBid. split.
  - destruct (Z.ltb_spec (Z.quot (s * 4) 3) minBid); lia.
  - intros Hle.
    assert (Hq : Z.quot (s * 4) 3 <= Z.quot (s' * 4) 3)
      by (apply Z.quot_le_mono; lia).
    destruct (Z.ltb_spec (Z.quot (s * 4) 3) minBid),
             (Z.ltb_spec (Z.quot (s' * 4) 3) minBid); lia.
Qed.

(** X3.  The fee-data stage asks for the suggested priority fee first and
    for the fee data second, and a rejection of either is the stage's
    failure: when the first query is rejected the second is never made. *)
Theorem feeDataGetter_rejections (this : SmartAccountProvider)
    (struct : UserOperationStruct) (t : Trace) :
  (forall reason,
      Rpc.getMaxPriorityFeePerGas (rpcClient this) t = Rejects reason ->
      feeDataGetter this struct t
      = (Err (ExternalError reason), (t ++ [EvRpc GetMaxPriorityFeePerGas])%list))
  /\ (forall s reason,
         Rpc.getMaxPriorityFeePerGas (rpcClient this) t = Resolves s ->
         Rpc.getFeeData (rpcClient this)
           (t ++ [EvRpc GetMaxPriorityFeePerGas])%list = Rejects reason ->
         feeDataGetter this struct t
         = (Err (ExternalError reason),
            (t ++ [EvRpc GetMaxPriorityFeePerGas; EvRpc GetFeeData])%list)).
Proof.
  split.
  - intros reason Hq. unfold feeDataGetter.
    now rewrite (bind_err _ _ _ _ _ (call_rejects _ _ _ _ Hq)).
  - intros s reason Hq Hf. unfold feeDataGetter.
    rewrite (bind_ok _ _ _ _ _ (call_resolves _ _ _ _ Hq)).
    rewrite (bind_err _ _ _ _ _ (call_rejects _ _ _ _ Hf)).
    now rewrite app_snoc2.
Qed.

Lemma feeDataGetter_rejections_witness :
  let rpc :=
    Rpc.mk (fun _ _ _ => Resolves stubEstimates)
      (fun _ => Rejects "fee history unavailable")
      (fun _ => Resolves stubFeeData) (fun _ _ _ => Resolves "0xa1")
      (fun _ _ => Resolves None) (fun _ h => Resolves (Transaction.mk h))
      (fun _ _ => Resolves JsUndefined) in
  let this := newSmartAccountProvider rpc "0xe9" 1 None None in
  Rpc.getMaxPriorityFeePerGas (rpcClient this) []
  = Rejects "fee history unavailable"
  /\ feeDataGetter this stubDraft []
     = (Err (ExternalError "fee history unavailable"),
        [EvRpc GetMaxPriorityFeePerGas]).
Proof.
  cbv zeta. split; [reflexivity|].
  apply (proj1 (feeDataGetter_rejections _ stubDraft [])). reflexivity.
Defined.

(** ** The confirmation poller *)

Local Close Scope Z_scope.

(** X4.  A rejected transaction fetch is not retried: when the receipt shows
    on lookup [k + 1] but [getTransaction] is rejected, the poller fails with
    the client's reason after exactly [k + 1] lookups, with no further delay
    or lookup. *)
Theorem poller_fetch_rejection (this : SmartAccountProvider) (hash : Hash)
    (t0 : Trace) (k : nat) (r : UserOperationReceipt) (reason : string) :
  let ms := txRetryIntervalMs this in
  let answer u := Rpc.getUserOperationReceipt (rpcClient this) u hash in
  k < txMaxRetries this ->
  (forall u, lookups u < lookups t0 + k -> noReceipt (answer u) = true) ->
  (forall u, lookups u = lookups t0 + k -> answer u = Resolves (Some r)) ->
  (forall u, Rpc.getTransaction (rpcClient this) u (transactionHash (receipt r))
             = Rejects reason) ->
  waitForUserOperationTransaction this hash t0
  = (Err (ExternalError reason),
     t0 ++ pollRounds ms hash (k + 1)
        ++ [EvRpc (GetTransaction (transactionHash (receipt r)))]).
Proof.
  intros ms answer Hk Hmiss Hhit Htx. unfold waitForUserOperationTransaction.
  replace (txMaxRetries this) with (k + S (txMaxRetries this - S k)) by lia.
  rewrite (pollReceipt_misses this hash k _ t0 Hmiss).
  rewrite pollReceipt_hit with (r := r).
  - cbv zeta. rewrite Htx. f_equal.
    rewrite <- !app_assoc. f_equal. rewrite app_assoc. f_equal.
    replace (k + 1) with (S k) by lia. apply pollRounds_snoc.
  - apply Hhit. rewrite !lookups_app, lookups_pollRounds.
    change (lookups [EvTimeout (txRetryIntervalMs this)]) with 0. lia.
Qed.

Lemma poller_fetch_rejection_witness :
  let rpc :=
    Rpc.mk (fun _ _ _ => Rejects "") (fun _ => Rejects "") (fun _ => Rejects "")
      (fun _ _ _ => Rejects "")
      (fun _ _ =>
         Resolves (Some (mkUserOperationReceipt (mkTransactionReceipt "0xbb"))))
      (fun _ _ => Rejects "unknown transaction")
      (fun _ _ => Rejects "") in
  let this := newSmartAccountProvider rpc "0xe9" 1%Z None None in
  waitForUserOperationTransaction this "0xa1" []
  = (Err (ExternalError "unknown transaction"),
     [EvTimeout 2000; EvRpc (GetUserOperationReceipt "0xa1");
      EvRpc (GetTransaction "0xbb")]).
Proof.
  cbv zeta.
  refine (poller_fetch_rejection _ "0xa1" [] 0
            (mkUserOperationReceipt (mkTransactionReceipt "0xbb"))
            "unknown transaction" _ _ _ _).
  - cbn. lia.
  - intros u Hu. cbn in Hu. lia.
  - intros u Hu. reflexivity.
  - intros u. reflexivity.
Defined.

(** X5.  Whatever the bundler client answers, the poller takes as many
    delays as it makes lookups, never more than [txMaxRetries] of them, and
    the time it spends in its timer is the interval times that number: at
    most [txMaxRetries * txRetryIntervalMs]. *)
Theorem poller_budget (this : SmartAccountProvider) (hash : Hash) (t : Trace) :
  let run := waitForUserOperationTransaction this hash t in
  exists n,
    n <= txMaxRetries this
    /\ lookups (snd run) = lookups t + n
    /\ delays (snd run) = delays t + n
    /\ elapsed (snd run) = elapsed t + n * txRetryIntervalMs this.
Proof.
  intros run. subst run. unfold waitForUserOperationTransaction.
  destruct (pollReceipt_rounds this hash (txMaxRetries this) t)
    as [n [Hn Hcases]]. cbv zeta in Hcases.
  exists n. split; [exact Hn|].
  destruct Hcases as [[_ [_ Htrace]] | [_ [_ [txHash Htrace]]]]; rewrite Htrace.
  - rewrite lookups_app, delays_app, elapsed_app.
    now rewrite lookups_pollRounds, delays_pollRounds, elapsed_pollRounds.
  - rewrite !lookups_app, !delays_app, !elapsed_app.
    rewrite lookups_pollRounds, delays_pollRounds, elapsed_pollRounds.
    cbn. lia.
Qed.

(** X6.  The constructor keeps an option that is given, a zero included,
    and defaults only the missing ones; so a provider built with
    [txMaxRetries: 0] gives up on a confirmation at once, without a delay or
    a lookup. *)
Theorem constructor_keeps_zero (rpc : Rpc.t) (entryPoint : Address) (chain : Z)
    (acct : option Account.t) (opts : SmartAccountProviderOpts)
    (hash : Hash) (t : Trace) :
  let this := newSmartAccountProvider rpc entryPoint chain acct (Some opts) in
  txMaxRetries this = nullish (opt_txMaxRetries opts) 5
  /\ txRetryIntervalMs this = nullish (opt_txRetryIntervalMs opts) 2000
  /\ minPriorityFeePerBid this
     = nullish (opt_minPriorityFeePerBid opts) 1000000000%Z
  /\ (opt_txMaxRetries opts = Some 0 ->
      waitForUserOperationTransaction this hash t
      = (Err ConfirmationTimeoutError, t)).
Proof.
  cbv zeta. split; [reflexivity|]. split; [reflexivity|]. split; [reflexivity|].
  intros Hzero. unfold waitForUserOperationTransaction.
  cbn [newSmartAccountProvider txMaxRetries]. now rewrite Hzero.
Qed.

Lemma constructor_keeps_zero_witness :
  let opts := mkOpts (Some 0) None (Some 0%Z) in
  let this :=
    newSmartAccountProvider (stubRpc 3 stubFeeData 0 "0xbb") "0xe9" 1%Z None
      (Some opts) in
  opt_txMaxRetries opts = Some 0
  /\ waitForUserOperationTransaction this "0xa1" []
     = (Err ConfirmationTimeoutError, [])
  /\ minPriorityFeePerBid this = 0%Z.
Proof.
  cbv zeta.
  destruct (constructor_keeps_zero (stubRpc 3 stubFeeData 0 "0xbb") "0xe9" 1%Z
              None (mkOpts (Some 0) None (Some 0%Z)) "0xa1" [])
    as [_ [_ [Hmin Hzero]]].
  split; [reflexivity|]. split; [exact (Hzero eq_refl) | exact Hmin].
Defined.

(** ** Rebinding stages, attaching an account, submitting *)

Lemma bind_run_ok_inv {A B} (m : M A) (f : A -> M B) t b t2 :
  bind m f t = (OK b, t2) ->
  exists a t1, m t = (OK a, t1) /\ f a t1 = (OK b, t2).
Proof.
  unfold bind. destruct (m t) as [[a|e] t1]; intros H.
  - now exists a, t1.
  - discriminate H.
Qed.

Lemma bind_err_inv {A B} (m : M A) (f : A -> M B) t e :
  fst (bind m f t) = Err e ->
  fst (m t) = Err e \/ exists a t1, m t = (OK a, t1) /\ fst (f a t1) = Err e.
Proof.
  unfold bind. destruct (m t) as [[a|e'] t1]; cbn [fst]; intros H.
  - right. exists a, t1. split; [reflexivity | exact H].
  - left. now injection H as ->.
Qed.

Lemma call_err_inv {A} (ev : Event) (answer : Trace -> Settled A) t e :
  fst (call ev answer t) = Err e -> exists reason, e = ExternalError reason.
Proof.
  rewrite call_outcome. cbn [fst].
  destruct (answer t) as [a|reason]; cbn; intros H; [discriminate H|].
  injection H as <-. now exists reason.
Qed.

(** A struct with a rejected promise in it does not resolve. *)
Lemma resolveProperties_rejected (u : UserOperationStruct) t :
  allFulfilled u = false ->
  exists reason, resolveProperties u t = (Err (ExternalError reason), t).
Proof.
  unfold allFulfilled, resolveProperties. intros H.
  repeat match goal with
  | |- context [bind (resolveProperty ?f) _ _] =>
      let Hf := fresh "Hf" in
      destruct (fulfilled f) eqn:Hf;
      [ rewrite (bind_resolveProperty_fulfilled f _ _ Hf)
      | destruct f as [[v|reason]|]; try discriminate Hf;
        exists reason; reflexivity ]
  end.
  repeat match goal with
  | Hf : fulfilled _ = true |- _ => rewrite Hf in H; clear Hf
  end.
  discriminate H.
Qed.

Lemma resolveProperties_err_inv (u : UserOperationStruct) t e :
  fst (resolveProperties u t) = Err e -> exists reason, e = ExternalError reason.
Proof.
  destruct (allFulfilled u) eqn:Hful.
  - rewrite (resolveProperties_fulfilled u t Hful). discriminate.
  - destruct (resolveProperties_rejected u t Hful) as [reason ->].
    cbn. intros H. injection H as <-. now exists reason.
Qed.

Lemma feeDataGetter_err_inv (this : SmartAccountProvider)
    (struct : UserOperationStruct) (t : Trace) (e : Error) :
  fst (feeDataGetter this struct t) = Err e -> rejectionOrFeeData e = true.
Proof.
  unfold feeDataGetter. intros H.
  apply bind_err_inv in H as [H | [s [t1 [_ H]]]].
  { apply call_err_inv in H as [reason ->]. reflexivity. }
  apply bind_err_inv in H as [H | [feeData [t2 [_ H]]]].
  { apply call_err_inv in H as [reason ->]. reflexivity. }
  destruct (falsy (FeeData.maxFeePerGas feeData)
            || falsy (FeeData.maxPriorityFeePerGas feeData)) eqn:Hguard.
  - cbn in H. injection H as <-. reflexivity.
  - destruct feeData as [[fM|] [fP|]]; cbn in Hguard;
      try discriminate Hguard;
      try (rewrite orb_true_r in Hguard; discriminate Hguard).
    cbn in H. discriminate H.
Qed.

Section SubmissionProperties.

#[local] Set Default Proof Using "Type".

Variable toHex : Z -> Hex.
Variable fromHex : Hex -> Z.
Variable JSON_stringify : UserOperationRequest -> string.
Variable getUserOperationHash : UserOperationRequest -> Address -> Z -> Hex.

(** X7.  A [with...] call rebinds exactly the stages it names: the other
    stages of the pipeline and their order stay as they were, an override left
    out of [withPaymasterMiddleware] keeps the stage bound before, and a
    second rebinding of a stage replaces the first. *)
Theorem stage_overrides_rebind (this : SmartAccountProvider)
    (f g : AccountMiddlewareFn) :
  pipeline toHex (withGasEstimator this f)
  = [ stage_dummyPaymasterDataMiddleware this; f;
      stage_feeDataGetter this; stage_paymasterMiddleware this ]
  /\ pipeline toHex (withFeeDataGetter this f)
     = [ stage_dummyPaymasterDataMiddleware this; stage_gasEstimator toHex this;
         f; stage_paymasterMiddleware this ]
  /\ pipeline toHex
       (withPaymasterMiddleware this (mkPaymasterOverrides (Some f) (Some g)))
     = [ f; stage_gasEstimator toHex this; stage_feeDataGetter this; g ]
  /\ pipeline toHex
       (withPaymasterMiddleware this (mkPaymasterOverrides (Some f) None))
     = [ f; stage_gasEstimator toHex this; stage_feeDataGetter this;
         stage_paymasterMiddleware this ]
  /\ pipeline toHex
       (withPaymasterMiddleware this (mkPaymasterOverrides None (Some g)))
     = [ stage_dummyPaymasterDataMiddleware this; stage_gasEstimator toHex this;
         stage_feeDataGetter this; g ]
  /\ pipeline toHex
       (withPaymasterMiddleware this (mkPaymasterOverrides None None))
     = pipeline toHex this
  /\ pipeline toHex (withGasEstimator (withGasEstimator this f) g)
     = pipeline toHex (withGasEstimator this g)
  /\ pipeline toHex (withFeeDataGetter (withFeeDataGetter this f) g)
     = pipeline toHex (withFeeDataGetter this g).
Proof. repeat split; reflexivity. Qed.

(** [sendUserOperation] on a bound account, up to the end of the pipeline:
    a rejected [getInitCode] ends it after that one call; otherwise the other
    four account calls are started and the stages run on the draft. *)
Lemma sendUserOperation_steps (this : SmartAccountProvider) (acct : Account.t)
    (target data : string) (value : option Z) (t : Trace) :
  account this = Some acct ->
  sendUserOperation toHex JSON_stringify getUserOperationHash
    this target data value t
  = match Account.getInitCode acct t with
    | Rejects reason => (Err (ExternalError reason), t ++ [EvAccount GetInitCode])
    | Resolves initCode =>
        bind (asyncPipe (pipeline toHex this)
                (initialDraft acct t target (nullish value 0%Z) data initCode))
          (validateSignSubmit toHex JSON_stringify getUserOperationHash this acct)
          (t ++ assemblyEvents target (nullish value 0%Z) data)
    end.
Proof.
  intros Hacct. unfold sendUserOperation. rewrite Hacct.
  destruct (Account.getInitCode acct t) as [initCode|reason] eqn:Hinit.
  - rewrite (bind_ok _ _ _ _ _ (call_resolves _ _ _ _ Hinit)).
    unfold getAddress. rewrite Hacct.
    rewrite !bind_start. rewrite <- !app_assoc. reflexivity.
  - now rewrite (bind_err _ _ _ _ _ (call_rejects _ _ _ _ Hinit)).
Qed.

(** The tail of [sendUserOperation] on a struct that resolves and is
    complete: sign, then submit. *)
Lemma validateSignSubmit_complete (this : SmartAccountProvider)
    (acct : Account.t) (uoStruct : UserOperationStruct) (t1 : Trace) :
  allFulfilled uoStruct = true ->
  structComplete uoStruct = true ->
  let request := deepHexlify toHex (resolvedOf uoStruct) in
  let uoHash :=
    getUserOperationHash request (entryPointAddress this) (chain_id this) in
  let sign := EvAccount (SignMessage (JsString uoHash)) in
  validateSignSubmit toHex JSON_stringify getUserOperationHash this acct
    uoStruct t1
  = match Account.signMessage acct t1 (JsString uoHash) with
    | Rejects reason => (Err (ExternalError reason), t1 ++ [sign])
    | Resolves signed =>
        let request' := set_signature (Some signed) request in
        (match Rpc.sendUserOperation (rpcClient this) (t1 ++ [sign]) request'
                 (entryPointAddress this) with
         | Resolves hash => OK (mkSendResult hash request')
         | Rejects reason => Err (ExternalError reason)
         end,
         t1 ++ [sign; EvRpc (SendUserOperation request' (entryPointAddress this))])
    end.
Proof.
  intros Hful Hcomplete request uoHash sign. unfold validateSignSubmit.
  rewrite (bind_ok _ _ _ _ _ (resolveProperties_fulfilled uoStruct t1 Hful)).
  cbv zeta.
  rewrite (isValidRequest_structComplete toHex uoStruct Hful), Hcomplete.
  cbn [negb]. fold request. fold uoHash. fold sign.
  destruct (Account.signMessage acct t1 (JsString uoHash)) as [signed|reason]
    eqn:Hsign.
  - rewrite (bind_ok _ _ _ _ _ (call_resolves _ _ _ _ Hsign)).
    unfold bind. rewrite call_outcome, app_snoc2.
    destruct (Rpc.sendUserOperation _ _ _ _); reflexivity.
  - now rewrite (bind_err _ _ _ _ _ (call_rejects _ _ _ _ Hsign)).
Qed.

Lemma gasEstimator_err_inv (this : SmartAccountProvider)
    (struct : UserOperationStruct) (t : Trace) (e : Error) :
  fst (gasEstimator toHex this struct t) = Err e ->
  exists reason, e = ExternalError reason.
Proof.
  unfold gasEstimator. intros H.
  apply bind_err_inv in H as [H | [resolved [t1 [_ H]]]].
  - now apply resolveProperties_err_inv in H.
  - cbv zeta in H. apply bind_err_inv in H as [H | [estimates [t2 [_ H]]]].
    + now apply call_err_inv in H.
    + discriminate H.
Qed.

Lemma gasEstimator_ok_fulfilled (this : SmartAccountProvider)
    (struct struct' : UserOperationStruct) (t : Trace) :
  fst (gasEstimator toHex this struct t) = OK struct' ->
  allFulfilled struct = true.
Proof.
  unfold gasEstimator. intros H.
  apply bind_ok_inv in H as [r [t' [Hr _]]].
  apply (resolveProperties_ok_inv struct t r). now rewrite Hr.
Qed.

(** A run of the four default stages that returns a struct returns
    [defaultOutput] of some estimates and bids, on a struct that held no
    rejected promise. *)
Lemma default_pipeline_ok_inv (this : SmartAccountProvider)
    (struct struct' : UserOperationStruct) (t : Trace) :
  defaultStages this ->
  fst (asyncPipe (pipeline toHex this) struct t) = OK struct' ->
  allFulfilled (set_paymasterAndData (Some (Resolves "0x")) struct) = true
  /\ exists estimates bid cap, struct' = defaultOutput estimates bid cap struct.
Proof.
  intros Hdefault H. rewrite (asyncPipe_default toHex this struct Hdefault) in H.
  apply bind_ok_inv in H as [s1 [t1 [H1 H]]].
  apply bind_ok_inv in H as [s2 [t2 [H2 H]]].
  apply bind_ok_inv in H as [s3 [t3 [H3 H]]].
  apply bind_ok_inv in H as [s4 [t4 [H4 H]]].
  cbn in H. injection H as <-.
  unfold dummyPaymasterDataMiddleware, ret in H1. injection H1 as <- <-.
  assert (H2' : fst (gasEstimator toHex this
                       (set_paymasterAndData (Some (Resolves "0x")) struct) t)
                = OK s2) by now rewrite H2.
  split; [exact (gasEstimator_ok_fulfilled _ _ _ _ H2')|].
  apply gasEstimator_ok_inv in H2' as [estimates ->].
  assert (H3' : fst (feeDataGetter this
                       (set_preVerificationGas
                          (Some (Resolves (GasEstimates.preVerificationGas estimates)))
                          (set_verificationGasLimit
                             (Some (Resolves (GasEstimates.verificationGasLimit estimates)))
                             (set_callGasLimit
                                (Some (Resolves (GasEstimates.callGasLimit estimates)))
                                (set_paymasterAndData (Some (Resolves "0x")) struct))))
                       t2) = OK s3) by now rewrite H3.
  apply feeDataGetter_ok_inv in H3' as [bid [cap ->]].
  unfold paymasterMiddleware, ret in H4. injection H4 as <- _.
  now exists estimates, bid, cap.
Qed.

Lemma default_pipeline_err_inv (this : SmartAccountProvider)
    (struct : UserOperationStruct) (t : Trace) (e : Error) :
  defaultStages this ->
  fst (asyncPipe (pipeline toHex this) struct t) = Err e ->
  rejectionOrFeeData e = true.
Proof.
  intros Hdefault H. rewrite (asyncPipe_default toHex this struct Hdefault) in H.
  apply bind_err_inv in H as [H | [s1 [t1 [_ H]]]]; [discriminate H|].
  apply bind_err_inv in H as [H | [s2 [t2 [_ H]]]].
  { apply gasEstimator_err_inv in H as [reason ->]. reflexivity. }
  apply bind_err_inv in H as [H | [s3 [t3 [_ H]]]].
  { now apply feeDataGetter_err_inv in H. }
  apply bind_err_inv in H as [H | [s4 [t4 [_ H]]]]; discriminate H.
Qed.

(** With a rejected promise in the draft, the default pipeline stops in the
    gas estimator before anything is asked of the bundler client. *)
Lemma default_pipeline_rejected (this : SmartAccountProvider)
    (struct : UserOperationStruct) (t : Trace) :
  defaultStages this ->
  allFulfilled (set_paymasterAndData (Some (Resolves "0x")) struct) = false ->
  exists reason,
    asyncPipe (pipeline toHex this) struct t = (Err (ExternalError reason), t).
Proof.
  intros Hdefault Hrejected.
  rewrite (asyncPipe_default toHex this struct Hdefault).
  destruct (resolveProperties_rejected _ t Hrejected) as [reason Hres].
  exists reason.
  unfold dummyPaymasterDataMiddleware at 1. unfold bind at 1. unfold ret at 1.
  unfold bind at 1. unfold gasEstimator.
  now rewrite (bind_err _ _ _ _ _ Hres).
Qed.

Lemma defaultOutput_fulfilled estimates bid cap (struct : UserOperationStruct) :
  allFulfilled (set_paymasterAndData (Some (Resolves "0x")) struct) = true ->
  allFulfilled (defaultOutput estimates bid cap struct) = true.
Proof.
  unfold allFulfilled, defaultOutput. cbn.
  destruct (fulfilled (sender struct)), (fulfilled (nonce struct)),
    (fulfilled (initCode struct)), (fulfilled (callData struct)),
    (fulfilled (signature struct)); cbn; intros H;
    try reflexivity; try discriminate H;
    rewrite ?andb_false_r in H; discriminate H.
Qed.

Lemma defaultOutput_complete estimates bid cap (struct : UserOperationStruct) :
  assembled struct = true ->
  structComplete (defaultOutput estimates bid cap struct) = true.
Proof.
  unfold assembled, structComplete, defaultOutput. cbn.
  destruct (defined (sender struct)), (defined (nonce struct)),
    (defined (initCode struct)), (defined (callData struct)),
    (defined (signature struct)); cbn; intros H;
    solve [reflexivity | discriminate H].
Qed.

(** The failures of a submission through the class's own stages. *)
Lemma default_submission_failures (this : SmartAccountProvider)
    (acct : Account.t) (target data : string) (value : option Z) (t : Trace)
    (e : Error) :
  defaultStages this ->
  account this = Some acct ->
  fst (sendUserOperation toHex JSON_stringify getUserOperationHash
         this target data value t) = Err e ->
  rejectionOrFeeData e = true.
Proof.
  intros Hdefault Hacct H.
  rewrite (sendUserOperation_steps this acct target data value t Hacct) in H.
  destruct (Account.getInitCode acct t) as [initCode|reason].
  - apply bind_err_inv in H as [H | [uoStruct [t1 [Hpipe H]]]].
    + exact (default_pipeline_err_inv _ _ _ _ Hdefault H).
    + assert (Hpipe' : fst (asyncPipe (pipeline toHex this)
                              (initialDraft acct t target (nullish value 0%Z)
                                 data initCode)
                              (t ++ assemblyEvents target (nullish value 0%Z) data))
                       = OK uoStruct) by now rewrite Hpipe.
      apply (default_pipeline_ok_inv _ _ _ _ Hdefault) in Hpipe'
        as [Hful [estimates [bid [cap ->]]]].
      assert (Hassembled :
                assembled (initialDraft acct t target (nullish value 0%Z)
                             data initCode) = true) by reflexivity.
      rewrite (validateSignSubmit_complete this acct _ t1
                 (defaultOutput_fulfilled _ _ _ _ Hful)
                 (defaultOutput_complete _ _ _ _ Hassembled)) in H.
      cbv zeta in H.
      destruct (Account.signMessage acct t1 _) as [signed|reason];
        [|injection H as <-; reflexivity].
      cbn [fst] in H.
      destruct (Rpc.sendUserOperation _ _ _ _) as [hash|reason];
        [discriminate H | injection H as <-; reflexivity].
  - cbn in H. injection H as <-. reflexivity.
Qed.

(** X8.  With the class's own stages and an account bound,
    [sendUserOperation] fails only with a rejection of one of its
    collaborators or with [InvalidFeeDataError]: never with
    [AccountNotConnectedError], a [TypeError], or (the validator being the
    one modelled from the specification) [IncompleteRequestError]. *)
Theorem sendUserOperation_default_failures (this : SmartAccountProvider)
    (acct : Account.t) (target data : string) (value : option Z) (t : Trace)
    (e : Error) :
  defaultStages this ->
  account this = Some acct ->
  fst (sendUserOperation toHex JSON_stringify getUserOperationHash
         this target data value t) = Err e ->
  rejectionOrFeeData e = true.
Proof. apply default_submission_failures. Qed.

(** X9.  With the class's own stages, a failure of the account while the
    draft is assembled never reaches the bundler client: a rejected
    [getInitCode] ends the submission after that one call, and a rejected
    address, nonce, call data or dummy signature ends it once the five
    account calls have been started, before the gas estimate is requested. *)
Theorem account_rejection_stops_submission (this : SmartAccountProvider)
    (acct : Account.t) (target data : string) (value : option Z) (t : Trace) :
  defaultStages this ->
  account this = Some acct ->
  let run :=
    sendUserOperation toHex JSON_stringify getUserOperationHash
      this target data value t in
  (forall reason,
      Account.getInitCode acct t = Rejects reason ->
      run = (Err (ExternalError reason), t ++ [EvAccount GetInitCode]))
  /\ (forall initCode,
         Account.getInitCode acct t = Resolves initCode ->
         allFulfilled
           (initialDraft acct t target (nullish value 0%Z) data initCode) = false ->
         exists reason,
           run = (Err (ExternalError reason),
                  t ++ assemblyEvents target (nullish value 0%Z) data)).
Proof.
  intros Hdefault Hacct run. subst run.
  rewrite (sendUserOperation_steps this acct target data value t Hacct).
  split.
  - intros reason ->. reflexivity.
  - intros initCode -> Hrejected.
    destruct (default_pipeline_rejected this
                (initialDraft acct t target (nullish value 0%Z) data initCode)
                (t ++ assemblyEvents target (nullish value 0%Z) data)
                Hdefault) as [reason Hpipe].
    + rewrite <- Hrejected. unfold allFulfilled. cbn.
      now rewrite !andb_true_r.
    + exists reason. now rewrite (bind_err _ _ _ _ _ Hpipe).
Qed.

(** X10.  Whatever stages are bound, a [sendUserOperation] that succeeds
    ends with exactly two calls, the account's signature and then the
    submission: the request it returns is the one it submitted, it differs
    from the validated request only in carrying the account's signature over
    that request's hash, and the hash it returns is the bundler client's
    answer to that submission. *)
Theorem sendUserOperation_returns_what_it_submitted
    (this : SmartAccountProvider) (target data : string) (value : option Z)
    (t : Trace) (r : SendUserOperationResult) (t' : Trace) :
  sendUserOperation toHex JSON_stringify getUserOperationHash
    this target data value t = (OK r, t') ->
  exists acct t1 unsigned signed,
    let uoHash :=
      getUserOperationHash unsigned (entryPointAddress this) (chain_id this) in
    let sign := EvAccount (SignMessage (JsString uoHash)) in
    account this = Some acct
    /\ isValidRequest unsigned = true
    /\ Account.signMessage acct t1 (JsString uoHash) = Resolves signed
    /\ result_request r = set_signature (Some signed) unsigned
    /\ Rpc.sendUserOperation (rpcClient this) (t1 ++ [sign]) (result_request r)
         (entryPointAddress this) = Resolves (result_hash r)
    /\ t' = t1 ++ [sign;
                   EvRpc (SendUserOperation (result_request r)
                            (entryPointAddress this))].
Proof.
  intros H.
  destruct (account this) as [acct|] eqn:Hacct;
    [|unfold sendUserOperation in H; rewrite Hacct in H; discriminate H].
  rewrite (sendUserOperation_steps this acct target data value t Hacct) in H.
  destruct (Account.getInitCode acct t) as [initCode|reason]; [|discriminate H].
  apply bind_run_ok_inv in H as [uoStruct [t1 [_ H]]].
  unfold validateSignSubmit in H.
  apply bind_run_ok_inv in H as [resolved [t2 [Hres H]]].
  assert (Ht2 : t2 = t1).
  { pose proof (resolveProperties_trace uoStruct t1) as Htr.
    now rewrite Hres in Htr. }
  subst t2. cbv zeta in H.
  destruct (isValidRequest (deepHexlify toHex resolved)) eqn:Hvalid;
    [|discriminate H].
  cbn [negb] in H.
  apply bind_run_ok_inv in H as [signed [t3 [Hsign H]]].
  rewrite call_outcome in Hsign.
  destruct (Account.signMessage acct t1 _) as [signed'|reason] eqn:Hsigned;
    [|discriminate Hsign].
  injection Hsign as <- <-.
  apply bind_run_ok_inv in H as [hash [t4 [Hsend H]]].
  rewrite call_outcome in Hsend.
  destruct (Rpc.sendUserOperation _ _ _ _) as [hash'|reason] eqn:Hsent;
    [|discriminate Hsend].
  injection Hsend as <- <-. rewrite app_snoc2 in H.
  injection H as <- <-.
  exists acct, t1, (deepHexlify toHex resolved), signed'.
  cbv zeta. cbn [result_request result_hash].
  repeat split; assumption.
Qed.

(** A submission through the class's own stages when every call is answered. *)
Lemma default_submission_run (this : SmartAccountProvider)
    (acct : Account.t) (target data : string) (value : option Z) (t : Trace)
    (addr : Address) (n : Z) (initCode callData dummy signed : Hex)
    (estimates : GasEstimates.t) (s fM fP : Z) (opHash : Hash) :
  defaultStages this ->
  account this = Some acct ->
  accountAlwaysAnswers acct addr n initCode callData dummy signed
    target (nullish value 0%Z) data ->
  bundlerAlwaysAnswers (rpcClient this) estimates s fM fP opHash ->
  fM <> 0%Z -> fP <> 0%Z ->
  let entryPoint := entryPointAddress this in
  let bid := maxPriorityFeePerGasBid (minPriorityFeePerBid this) s in
  let cap := (fM - fP + bid)%Z in
  let filled := filledRequest toHex addr n initCode callData estimates bid cap in
  sendUserOperation toHex JSON_stringify getUserOperationHash
    this target data value t
  = (OK (mkSendResult opHash (filled signed)),
     t ++ assemblyEvents target (nullish value 0%Z) data
       ++ [ EvRpc (EstimateUserOperationGas
                     (estimateRequest toHex addr n initCode callData dummy)
                     entryPoint);
            EvRpc GetMaxPriorityFeePerGas;
            EvRpc GetFeeData;
            EvAccount (SignMessage
                         (JsString (getUserOperationHash (filled dummy)
                                      entryPoint (chain_id this))));
            EvRpc (SendUserOperation (filled signed) entryPoint) ]).
Proof.
  intros Hdefault Hacct [Haddr [Hnonce [Hinit [Hcall [Hdummy Hsign]]]]]
    [Hestimate [Hsuggest [Hfees Hsend]]] HM HP entryPoint bid cap filled.
  rewrite (sendUserOperation_steps this acct target data value t Hacct), Hinit.
  assert (Hdraft :
    initialDraft acct t target (nullish value 0%Z) data initCode
    = mkUserOperation (F := PromiseOrValue)
        (Some (Resolves addr)) (Some (Resolves n)) (Some (Resolves initCode))
        (Some (Resolves callData)) None None None None None None
        (Some (Resolves dummy))).
  { unfold initialDraft. now rewrite Haddr, Hnonce, Hcall, Hdummy. }
  rewrite Hdraft. set (draft := mkUserOperation _ _ _ _ _ _ _ _ _ _ _).
  set (t0 := t ++ assemblyEvents target (nullish value 0%Z) data).
  assert (Hpipe :
    asyncPipe (pipeline toHex this) draft t0
    = (OK (defaultOutput estimates bid cap draft),
       t0 ++ [ EvRpc (EstimateUserOperationGas
                        (estimateRequest toHex addr n initCode callData dummy)
                        entryPoint);
               EvRpc GetMaxPriorityFeePerGas; EvRpc GetFeeData ])).
  { rewrite (asyncPipe_default toHex this draft Hdefault).
    unfold dummyPaymasterDataMiddleware at 1. unfold bind at 1. unfold ret at 1.
    unfold bind at 1.
    rewrite (gasEstimator_fulfilled toHex this
               (set_paymasterAndData (Some (Resolves "0x")) draft) t0 eq_refl).
    cbv zeta. rewrite Hestimate.
    unfold bind at 1.
    rewrite (feeDataGetter_answered this _ _ s _ (Hsuggest _) (Hfees _)).
    cbn [FeeData.maxFeePerGas FeeData.maxPriorityFeePerGas].
    apply Z.eqb_neq in HM, HP. rewrite HM, HP. cbn [orb].
    unfold paymasterMiddleware, bind, ret. cbv zeta.
    f_equal. now rewrite <- app_assoc. }
  rewrite (bind_ok _ _ _ _ _ Hpipe).
  rewrite (validateSignSubmit_complete this acct
             (defaultOutput estimates bid cap draft) _ eq_refl eq_refl).
  cbv zeta. rewrite Hsign, Hsend.
  subst t0. rewrite <- !app_assoc. reflexivity.
Qed.

(** X11.  With the class's own stages, an account and a bundler client that
    answer every call, and quoted fees that are not zero, [sendUserOperation]
    makes exactly ten calls in this order: the five account calls that
    assemble the draft, the gas estimate (on the draft with ["0x"] paymaster
    data, the dummy signature and no gas or fee field), the two fee queries,
    the signature (over the hash of the filled request still carrying the
    dummy signature) and the submission.  The request it submits and returns
    has the account's address, nonce, init code and call data, the estimated
    gas limits, the fee bids of the fee-data stage, ["0x"] paymaster data and
    the account's signature, every number hex-encoded. *)
Theorem sendUserOperation_default_run (this : SmartAccountProvider)
    (acct : Account.t) (target data : string) (value : option Z) (t : Trace)
    (addr : Address) (n : Z) (initCode callData dummy signed : Hex)
    (estimates : GasEstimates.t) (s fM fP : Z) (opHash : Hash) :
  defaultStages this ->
  account this = Some acct ->
  accountAlwaysAnswers acct addr n initCode callData dummy signed
    target (nullish value 0%Z) data ->
  bundlerAlwaysAnswers (rpcClient this) estimates s fM fP opHash ->
  fM <> 0%Z -> fP <> 0%Z ->
  let entryPoint := entryPointAddress this in
  let bid := maxPriorityFeePerGasBid (minPriorityFeePerBid this) s in
  let cap := (fM - fP + bid)%Z in
  let filled := filledRequest toHex addr n initCode callData estimates bid cap in
  sendUserOperation toHex JSON_stringify getUserOperationHash
    this target data value t
  = (OK (mkSendResult opHash (filled signed)),
     t ++ assemblyEvents target (nullish value 0%Z) data
       ++ [ EvRpc (EstimateUserOperationGas
                     (estimateRequest toHex addr n initCode callData dummy)
                     entryPoint);
            EvRpc GetMaxPriorityFeePerGas;
            EvRpc GetFeeData;
            EvAccount (SignMessage
                         (JsString (getUserOperationHash (filled dummy)
                                      entryPoint (chain_id this))));
            EvRpc (SendUserOperation (filled signed) entryPoint) ]).
Proof. apply default_submission_run. Qed.

(** X12.  [connect] attaches the account built from the provider's client
    and changes nothing else: the stages bound before stay bound, the retry
    and fee configuration stay, a second [connect] replaces the account; and
    through the class's own stages a submission on the connected provider no
    longer fails for want of an account. *)
Theorem connect_attaches (this : SmartAccountProvider)
    (fn : Rpc.t -> Account.t) :
  account (connect this fn) = Some (fn (rpcClient this))
  /\ pipeline toHex (connect this fn) = pipeline toHex this
  /\ rpcClient (connect this fn) = rpcClient this
  /\ txMaxRetries (connect this fn) = txMaxRetries this
  /\ txRetryIntervalMs (connect this fn) = txRetryIntervalMs this
  /\ minPriorityFeePerBid (connect this fn) = minPriorityFeePerBid this
  /\ (forall fn', connect (connect this fn) fn' = connect this fn')
  /\ (defaultStages this ->
      forall target data value t,
        fst (sendUserOperation toHex JSON_stringify getUserOperationHash
               (connect this fn) target data value t)
        <> Err AccountNotConnectedError).
Proof.
  repeat (split; [reflexivity|]).
  intros Hdefault target data value t H.
  assert (Hdefault' : defaultStages (connect this fn)) by exact Hdefault.
  pose proof (default_submission_failures (connect this fn)
                (fn (rpcClient this)) target data value t _
                Hdefault' eq_refl H) as Hkind.
  discriminate Hkind.
Qed.

(** X13.  [request] with [eth_sendTransaction] hands its first parameter to
    [sendTransaction] and returns what that returns: without [params], or
    with no first parameter, it fails with a [TypeError] before any call; a
    transaction without [to] fails with [InvalidRecipientError] before any
    call. *)
Theorem request_sendTransaction (this : SmartAccountProvider)
    (args : RequestArgs) (t : Trace) :
  method args = "eth_sendTransaction" ->
  let run :=
    request toHex fromHex JSON_stringify getUserOperationHash this args t in
  (params args = None -> run = (Err TypeError, t))
  /\ (forall ps,
         params args = Some ps -> nth 0 ps JsUndefined = JsUndefined ->
         run = (Err TypeError, t))
  /\ (forall ps tx,
         params args = Some ps -> nth 0 ps JsUndefined = JsTx tx ->
         run = match sendTransaction toHex fromHex JSON_stringify
                       getUserOperationHash this tx t with
               | (OK h, t') => (OK (JsString h), t')
               | (Err e, t') => (Err e, t')
               end
         /\ (tx_to tx = None -> run = (Err InvalidRecipientError, t))).
Proof.
  intros Hmethod run. subst run. unfold request. rewrite Hmethod.
  cbn [String.eqb Ascii.eqb Bool.eqb andb]. split; [|split].
  - intros ->. reflexivity.
  - intros ps -> ->. reflexivity.
  - intros ps tx -> ->. split.
    + unfold bind.
      destruct (sendTransaction _ _ _ _ _ _ _) as [[h|e] t']; reflexivity.
    + intros Hto. unfold bind, sendTransaction.
      now rewrite (truthy_none _ (or_introl Hto)).
Qed.

(** X19.  End to end: with the class's own stages, collaborators that
    answer every call, non-zero quoted fees, and a receipt that shows on
    lookup [k + 1] within the retry budget, [sendTransaction] of a request
    with a target (a [to] that is not the empty string) makes the ten calls
    of the submission (encoding the call with the request's [to], its [data]
    or ["0x"], and its decoded [value], or zero when the value is absent or
    the empty string), then polls the hash the bundler returned, [k + 1] delays each
    followed by a lookup, fetches the transaction of the receipt and returns
    that transaction's hash. *)
Theorem sendTransaction_default_run (this : SmartAccountProvider)
    (acct : Account.t) (tx : RpcTransactionRequest) (to : Address) (t : Trace)
    (addr : Address) (n : Z) (initCode callData dummy signed : Hex)
    (estimates : GasEstimates.t) (s fM fP : Z) (opHash : Hash)
    (k : nat) (r : UserOperationReceipt) (x : Transaction.t) :
  let payload := nullish (tx_data tx) "0x" in
  let value :=
    match tx_value tx with
    | Some v => if String.eqb v "" then 0%Z else fromHex v
    | None => 0%Z
    end in
  let answer u := Rpc.getUserOperationReceipt (rpcClient this) u opHash in
  tx_to tx = Some to -> to <> ""%string ->
  defaultStages this ->
  account this = Some acct ->
  accountAlwaysAnswers acct addr n initCode callData dummy signed
    to value payload ->
  bundlerAlwaysAnswers (rpcClient this) estimates s fM fP opHash ->
  fM <> 0%Z -> fP <> 0%Z ->
  (k < txMaxRetries this)%nat ->
  (forall u, (lookups u < lookups t + k)%nat -> noReceipt (answer u) = true) ->
  (forall u, lookups u = (lookups t + k)%nat -> answer u = Resolves (Some r)) ->
  (forall u, Rpc.getTransaction (rpcClient this) u (transactionHash (receipt r))
             = Resolves x) ->
  let entryPoint := entryPointAddress this in
  let bid := maxPriorityFeePerGasBid (minPriorityFeePerBid this) s in
  let cap := (fM - fP + bid)%Z in
  let filled := filledRequest toHex addr n initCode callData estimates bid cap in
  sendTransaction toHex fromHex JSON_stringify getUserOperationHash this tx t
  = (OK (Transaction.hash x),
     (t ++ assemblyEvents to value payload
        ++ [ EvRpc (EstimateUserOperationGas
                      (estimateRequest toHex addr n initCode callData dummy)
                      entryPoint);
             EvRpc GetMaxPriorityFeePerGas;
             EvRpc GetFeeData;
             EvAccount (SignMessage
                          (JsString (getUserOperationHash (filled dummy)
                                       entryPoint (chain_id this))));
             EvRpc (SendUserOperation (filled signed) entryPoint) ])
       ++ pollRounds (txRetryIntervalMs this) opHash (k + 1)
       ++ [EvRpc (GetTransaction (transactionHash (receipt r)))]).
Proof.
  intros payload value answer Hto Hne Hdefault Hacct Haccount Hbundler HM HP
    Hk Hmiss Hhit Htx entryPoint bid cap filled.
  unfold sendTransaction. rewrite (truthy_some _ _ Hto Hne), truthy_match.
  fold payload. fold value.
  pose proof (default_submission_run this acct to payload (Some value) t
                addr n initCode callData dummy signed estimates s fM fP opHash
                Hdefault Hacct Haccount Hbundler HM HP) as Hsend.
  cbv zeta in Hsend. cbn [nullish] in Hsend.
  rewrite (bind_ok _ _ _ _ _ Hsend). cbn [result_hash].
  apply pollReceipt_found.
  - exact Hk.
  - intros u Hu. apply Hmiss.
    rewrite !lookups_app in Hu. cbn in Hu. lia.
  - intros u Hu. apply Hhit.
    rewrite !lookups_app in Hu. cbn in Hu. lia.
  - exact Htx.
Qed.

(** X20.  Replacing the two paymaster stages keeps the pipeline's guarantee
    as long as the replacements behave like paymaster stages: when the bound
    dummy-paymaster and paymaster stages return their struct with
    [paymasterAndData] set and every other field untouched, and the gas
    estimator and the fee-data stage are the class's own, every draft with
    the assembled fields set comes out of the pipeline with every field
    defined. *)
Theorem paymaster_overrides_keep_completeness (this : SmartAccountProvider)
    (struct : UserOperationStruct) (t : Trace) :
  let paymasterLike (f : AccountMiddlewareFn) :=
    forall s u s',
      fst (f s u) = OK s' ->
      agreeButPaymaster s s' /\ defined (paymasterAndData s') = true in
  own_gasEstimator this = None ->
  own_feeDataGetter this = None ->
  paymasterLike (stage_dummyPaymasterDataMiddleware this) ->
  paymasterLike (stage_paymasterMiddleware this) ->
  assembled struct = true ->
  forall struct',
    fst (asyncPipe (pipeline toHex this) struct t) = OK struct' ->
    structComplete struct' = true.
Proof.
  intros paymasterLike Hgas Hfee Hdummy Hpaymaster Hassembled struct' H.
  unfold pipeline, stage_gasEstimator, stage_feeDataGetter in H.
  rewrite Hgas, Hfee in H. cbn [nullish asyncPipe] in H.
  apply bind_ok_inv in H as [s1 [t1 [H1 H]]].
  apply bind_ok_inv in H as [s2 [t2 [H2 H]]].
  apply bind_ok_inv in H as [s3 [t3 [H3 H]]].
  apply bind_ok_inv in H as [s4 [t4 [H4 H]]].
  cbn in H. injection H as <-.
  assert (H1' : fst (stage_dummyPaymasterDataMiddleware this struct t) = OK s1)
    by now rewrite H1.
  assert (H2' : fst (gasEstimator toHex this s1 t1) = OK s2) by now rewrite H2.
  assert (H3' : fst (feeDataGetter this s2 t2) = OK s3) by now rewrite H3.
  assert (H4' : fst (stage_paymasterMiddleware this s3 t3) = OK s4)
    by now rewrite H4.
  destruct (Hdummy _ _ _ H1')
    as [[E1 [E2 [E3 [E4 [_ [_ [_ [_ [_ E5]]]]]]]]] _].
  apply gasEstimator_ok_inv in H2' as [estimates ->].
  apply feeDataGetter_ok_inv in H3' as [bid [cap ->]].
  destruct (Hpaymaster _ _ _ H4')
    as [[F1 [F2 [F3 [F4 [F5 [F6 [F7 [F8 [F9 F10]]]]]]]]] Fp].
  cbn in F1, F2, F3, F4, F5, F6, F7, F8, F9, F10.
  unfold assembled in Hassembled. unfold structComplete.
  rewrite F1, F2, F3, F4, F5, F6, F7, F8, F9, F10, Fp, E1, E2, E3, E4, E5.
  cbn. rewrite !andb_true_r. exact Hassembled.
Qed.

End SubmissionProperties.

(** ** The submission theorems at the stub collaborators *)

Lemma sendUserOperation_default_failures_witness :
  let feeData := FeeData.mk (Some 5000000000%Z) (Some 0%Z) in
  let acct := stubAccount "0xacc" in
  let this := stubProvider (Some acct) feeData 0 in
  defaultStages this
  /\ account this = Some acct
  /\ fst (sendUserOperation HexString.of_Z stubStringify stubHash this
            "0x70" "0x" None []) = Err InvalidFeeDataError
  /\ rejectionOrFeeData InvalidFeeDataError = true.
Proof.
  cbv zeta.
  assert (Hdefault : defaultStages
            (stubProvider (Some (stubAccount "0xacc"))
               (FeeData.mk (Some 5000000000%Z) (Some 0%Z)) 0))
    by (repeat split).
  assert (Hrun : fst (sendUserOperation HexString.of_Z stubStringify stubHash
                        (stubProvider (Some (stubAccount "0xacc"))
                           (FeeData.mk (Some 5000000000%Z) (Some 0%Z)) 0)
                        "0x70" "0x" None []) = Err InvalidFeeDataError)
    by (vm_compute; reflexivity).
  split; [exact Hdefault|]. split; [reflexivity|]. split; [exact Hrun|].
  exact (sendUserOperation_default_failures HexString.of_Z stubStringify
           stubHash _ (stubAccount "0xacc") "0x70" "0x" None []
           InvalidFeeDataError Hdefault eq_refl Hrun).
Defined.

Lemma account_rejection_stops_submission_witness :
  let acct :=
    Account.mk (fun _ => Resolves "0xacc") (fun _ => Rejects "nonce unavailable")
      (fun _ => Resolves "0x") (fun _ _ _ d => Resolves d)
      (fun _ => Resolves "0xff") (fun _ _ => Resolves "0x5e") in
  let this := stubProvider (Some acct) stubFeeData 0 in
  defaultStages this
  /\ account this = Some acct
  /\ Account.getInitCode acct [] = Resolves "0x"
  /\ allFulfilled (initialDraft acct [] "0x70" 0%Z "0x" "0x") = false
  /\ exists reason,
       sendUserOperation HexString.of_Z stubStringify stubHash this
         "0x70" "0x" None []
       = (Err (ExternalError reason), [] ++ assemblyEvents "0x70" 0%Z "0x").
Proof.
  cbv zeta.
  set (acct := Account.mk _ _ _ _ _ _).
  assert (Hdefault : defaultStages (stubProvider (Some acct) stubFeeData 0))
    by (repeat split).
  split; [exact Hdefault|]. split; [reflexivity|]. split; [reflexivity|].
  split; [reflexivity|].
  exact (proj2 (account_rejection_stops_submission HexString.of_Z stubStringify
                  stubHash (stubProvider (Some acct) stubFeeData 0) acct
                  "0x70" "0x" None [] Hdefault eq_refl)
           "0x" eq_refl eq_refl).
Defined.

Lemma sendUserOperation_returns_what_it_submitted_witness :
  let acct := stubAccount "0xacc" in
  let this := stubProvider (Some acct) stubFeeData 0 in
  exists r t' t1 unsigned,
    sendUserOperation HexString.of_Z stubStringify stubHash this
      "0x70" "0x" None [] = (OK r, t')
    /\ result_request r = set_signature (Some "0x5e") unsigned
    /\ t' = t1 ++ [EvAccount (SignMessage
                                (JsString (stubHash unsigned "0xe9" 11155111%Z)));
                   EvRpc (SendUserOperation (result_request r) "0xe9")].
Proof.
  cbv zeta.
  destruct (sendUserOperation HexString.of_Z stubStringify stubHash
              (stubProvider (Some (stubAccount "0xacc")) stubFeeData 0)
              "0x70" "0x" None []) as [[r|e] t'] eqn:Hrun;
    [|vm_compute in Hrun; discriminate Hrun].
  destruct (sendUserOperation_returns_what_it_submitted HexString.of_Z
              stubStringify stubHash _ _ _ _ _ _ _ Hrun)
    as [acct [t1 [unsigned [signed [Hacct [_ [Hsign [Hreq [_ Htrace]]]]]]]]].
  injection Hacct as <-. cbn in Hsign. injection Hsign as <-.
  exists r, t', t1, unsigned. split; [reflexivity|].
  split; [exact Hreq | exact Htrace].
Defined.

Lemma sendUserOperation_default_run_witness :
  let acct := stubAccount "0xacc" in
  let this := stubProvider (Some acct) stubFeeData 0 in
  let sent :=
    filledRequest HexString.of_Z "0xacc" 7%Z "0x" "0x" stubEstimates
      1333333333%Z 4333333333%Z "0x5e" in
  defaultStages this
  /\ accountAlwaysAnswers acct "0xacc" 7%Z "0x" "0x" "0xff" "0x5e" "0x70" 0%Z "0x"
  /\ bundlerAlwaysAnswers (rpcClient this) stubEstimates 1000000000%Z
       5000000000%Z 2000000000%Z "0xa1"
  /\ fst (sendUserOperation HexString.of_Z stubStringify stubHash this
            "0x70" "0x" None []) = OK (mkSendResult "0xa1" sent)
  /\ maxFeePerGas sent = Some "0x102496b55"
  /\ maxPriorityFeePerGas sent = Some "0x4f790d55".
Proof.
  cbv zeta.
  set (acct := stubAccount "0xacc").
  set (this := stubProvider (Some acct) stubFeeData 0).
  assert (Hdefault : defaultStages this) by (repeat split).
  assert (Haccount : accountAlwaysAnswers acct "0xacc" 7%Z "0x" "0x" "0xff"
                       "0x5e" "0x70" 0%Z "0x") by (repeat split).
  assert (Hbundler : bundlerAlwaysAnswers (rpcClient this) stubEstimates
                       1000000000%Z 5000000000%Z 2000000000%Z "0xa1")
    by (repeat split).
  split; [exact Hdefault|]. split; [exact Haccount|]. split; [exact Hbundler|].
  split; [|split; reflexivity].
  rewrite (sendUserOperation_default_run HexString.of_Z stubStringify stubHash
             this acct "0x70" "0x" None [] "0xacc" 7%Z "0x" "0x" "0xff" "0x5e"
             stubEstimates 1000000000%Z 5000000000%Z 2000000000%Z "0xa1"
             Hdefault eq_refl Haccount Hbundler);
    [reflexivity | discriminate | discriminate].
Defined.

Lemma request_sendTransaction_witness :
  let this := stubProvider (Some (stubAccount "0xacc")) stubFeeData 0 in
  let args := mkArgs "eth_sendTransaction" (Some [JsTx (mkTx None (Some "0x") None)]) in
  method args = "eth_sendTransaction"
  /\ request HexString.of_Z HexString.to_Z stubStringify stubHash this args []
     = (Err InvalidRecipientError, []).
Proof.
  cbv zeta. split; [reflexivity|].
  destruct (request_sendTransaction HexString.of_Z HexString.to_Z
              stubStringify stubHash
              (stubProvider (Some (stubAccount "0xacc")) stubFeeData 0)
              (mkArgs "eth_sendTransaction"
                 (Some [JsTx (mkTx None (Some "0x") None)])) [] eq_refl)
    as [_ [_ Htx]].
  destruct (Htx _ _ eq_refl eq_refl) as [_ Hto].
  exact (Hto eq_refl).
Defined.

Lemma sendTransaction_default_run_witness :
  let acct := stubAccount "0xacc" in
  let this := stubProvider (Some acct) stubFeeData 1 in
  let tx := mkTx (Some "0x70") None (Some "0x10") in
  tx_to tx = Some "0x70"
  /\ "0x70" <> ""
  /\ defaultStages this
  /\ accountAlwaysAnswers acct "0xacc" 7%Z "0x" "0x" "0xff" "0x5e"
       "0x70" 16%Z "0x"
  /\ bundlerAlwaysAnswers (rpcClient this) stubEstimates 1000000000%Z
       5000000000%Z 2000000000%Z "0xa1"
  /\ (1 < txMaxRetries this)%nat
  /\ fst (sendTransaction HexString.of_Z HexString.to_Z stubStringify stubHash
            this tx []) = OK "0xbb"
  /\ lookups (snd (sendTransaction HexString.of_Z HexString.to_Z stubStringify
                     stubHash this tx [])) = 2%nat.
Proof.
  cbv zeta.
  set (acct := stubAccount "0xacc").
  set (this := stubProvider (Some acct) stubFeeData 1).
  set (tx := mkTx (Some "0x70") None (Some "0x10")).
  assert (Hdefault : defaultStages this) by (repeat split).
  assert (Haccount : accountAlwaysAnswers acct "0xacc" 7%Z "0x" "0x" "0xff"
                       "0x5e" "0x70" 16%Z "0x") by (repeat split).
  assert (Hbundler : bundlerAlwaysAnswers (rpcClient this) stubEstimates
                       1000000000%Z 5000000000%Z 2000000000%Z "0xa1")
    by (repeat split).
  assert (Hk : (1 < txMaxRetries this)%nat) by (cbn; lia).
  assert (Hmiss : forall u, (lookups u < lookups [] + 1)%nat ->
            noReceipt (Rpc.getUserOperationReceipt (rpcClient this) u "0xa1")
            = true).
  { intros u Hu. cbn [this stubProvider newSmartAccountProvider rpcClient stubRpc
                       Rpc.getUserOperationReceipt].
    destruct (Nat.ltb_spec (lookups u) 1) as [_|Hge]; [reflexivity|].
    cbn in Hu. lia. }
  assert (Hhit : forall u, lookups u = (lookups [] + 1)%nat ->
            Rpc.getUserOperationReceipt (rpcClient this) u "0xa1"
            = Resolves (Some (mkUserOperationReceipt (mkTransactionReceipt "0xbb")))).
  { intros u Hu. cbn [this stubProvider newSmartAccountProvider rpcClient stubRpc
                       Rpc.getUserOperationReceipt].
    destruct (Nat.ltb_spec (lookups u) 1) as [Hlow|_]; [|reflexivity].
    cbn in Hu. lia. }
  pose proof (sendTransaction_default_run HexString.of_Z HexString.to_Z
                stubStringify stubHash this acct tx "0x70" []
                "0xacc" 7%Z "0x" "0x" "0xff" "0x5e" stubEstimates
                1000000000%Z 5000000000%Z 2000000000%Z "0xa1" 1
                (mkUserOperationReceipt (mkTransactionReceipt "0xbb"))
                (Transaction.mk "0xbb")
                eq_refl ltac:(discriminate) Hdefault eq_refl Haccount Hbundler)
    as Hrun.
  cbv zeta in Hrun.
  specialize (Hrun ltac:(discriminate) ltac:(discriminate) Hk Hmiss Hhit
                (fun _ => eq_refl)).
  split; [reflexivity|]. split; [discriminate|].
  split; [exact Hdefault|]. split; [exact Haccount|].
  split; [exact Hbundler|]. split; [exact Hk|].
  rewrite Hrun. split; reflexivity.
Defined.

Lemma paymaster_overrides_keep_completeness_witness :
  let sponsor : AccountMiddlewareFn :=
    fun struct => ret (set_paymasterAndData (Some (Resolves "0xfeed")) struct) in
  let this :=
    withPaymasterMiddleware (stubProvider None stubFeeData 0)
      (mkPaymasterOverrides (Some sponsor) (Some sponsor)) in
  own_gasEstimator this = None
  /\ own_feeDataGetter this = None
  /\ assembled stubDraft = true
  /\ exists struct',
       fst (asyncPipe (pipeline HexString.of_Z this) stubDraft []) = OK struct'
       /\ paymasterAndData struct' = Some (Resolves "0xfeed")
       /\ structComplete struct' = true.
Proof.
  cbv zeta.
  set (sponsor := fun struct : UserOperationStruct =>
                    ret (set_paymasterAndData (Some (Resolves "0xfeed")) struct)).
  set (this := withPaymasterMiddleware (stubProvider None stubFeeData 0)
                 (mkPaymasterOverrides (Some sponsor) (Some sponsor))).
  assert (Hlike : forall s u s',
            fst (sponsor s u) = OK s' ->
            agreeButPaymaster s s' /\ defined (paymasterAndData s') = true).
  { intros s u s' H. cbn in H. injection H as <-.
    split; [repeat split | reflexivity]. }
  split; [reflexivity|]. split; [reflexivity|]. split; [reflexivity|].
  destruct (asyncPipe (pipeline HexString.of_Z this) stubDraft [])
    as [[struct'|e] t'] eqn:Hrun; [|vm_compute in Hrun; discriminate Hrun].
  exists struct'. split; [exact (f_equal fst Hrun)|]. split.
  - vm_compute in Hrun. injection Hrun as <- _. reflexivity.
  - exact (paymaster_overrides_keep_completeness HexString.of_Z this stubDraft []
             eq_refl eq_refl Hlike Hlike eq_refl struct' (f_equal fst Hrun)).
Defined.

(** * Properties of the onboarding controller's polling *)

Module OnboardingProperties.
Import Onboarding.

Lemma missedRounds_snoc (probe : Call) (k : nat) :
  missedRounds probe k ++ [probe; Wait 1000] = missedRounds probe (S k).
Proof. induction k as [|k IH]; simpl; [reflexivity|]. now rewrite IH. Qed.

Lemma pollLoop_hit (lambda : Task bool) (remaining : nat) (l l' : Log) :
  lambda l = (Done true, l') -> pollLoop lambda remaining l = (Done true, l').
Proof. intros H. destruct remaining; simpl; unfold bind; now rewrite H. Qed.

Lemma pollLoop_failed (lambda : Task bool) (remaining : nat) (l l' : Log) f :
  lambda l = (Failed f, l') -> pollLoop lambda remaining l = (Failed f, l').
Proof. intros H. destruct remaining; simpl; unfold bind; now rewrite H. Qed.

Lemma pollLoop_miss (lambda : Task bool) (remaining : nat) (l l' : Log) :
  lambda l = (Done false, l') ->
  pollLoop lambda (S remaining) l = pollLoop lambda remaining (l' ++ [Wait 1000]).
Proof. intros H. simpl. unfold bind at 1. now rewrite H. Qed.

Lemma pollLoop_miss_last (lambda : Task bool) (l l' : Log) :
  lambda l = (Done false, l') ->
  pollLoop lambda 0 l
  = (Failed (Thrown "Timedout waiting for contrat deployment and NFT mint."),
     l' ++ [Wait 1000]).
Proof. intros H. simpl. unfold bind at 1. now rewrite H. Qed.

Section OneCallPerAttempt.

(** A lambda that makes exactly one call per attempt, as the lambdas of both
    handlers do once their context check has passed. *)
Variable lambda : Task bool.
Variable probe : Call.
Hypothesis lambda_calls_once : forall l, snd (lambda l) = l ++ [probe].

Lemma lambda_run (l : Log) : lambda l = (fst (lambda l), l ++ [probe]).
Proof. rewrite <- lambda_calls_once. now destruct (lambda l). Qed.

Lemma pollLoop_misses (k : nat) :
  forall (remaining : nat) (l : Log),
    (forall j, j < k -> fst (lambda (l ++ missedRounds probe j)) = Done false) ->
    pollLoop lambda (k + remaining) l
    = pollLoop lambda remaining (l ++ missedRounds probe k).
Proof.
  induction k as [|k IH]; intros remaining l Hmiss.
  - simpl. now rewrite app_nil_r.
  - assert (H0 : lambda l = (Done false, l ++ [probe])).
    { rewrite (lambda_run l). f_equal.
      specialize (Hmiss 0 (Nat.lt_0_succ k)). simpl in Hmiss.
      now rewrite app_nil_r in Hmiss. }
    change (S k + remaining) with (S (k + remaining)).
    rewrite (pollLoop_miss lambda _ _ _ H0). rewrite IH.
    + now rewrite <- !app_assoc.
    + intros j Hj. rewrite <- !app_assoc.
      apply (Hmiss (S j)). lia.
Qed.

(** The loop with a budget of [budget] further attempts after the first. *)
Lemma pollLoop_success (budget : nat) (l0 : Log) (k : nat) :
  k <= budget ->
  (forall j, j < k -> fst (lambda (l0 ++ missedRounds probe j)) = Done false) ->
  fst (lambda (l0 ++ missedRounds probe k)) = Done true ->
  pollLoop lambda budget l0 = (Done true, l0 ++ missedRounds probe k ++ [probe]).
Proof.
  intros Hk Hmiss Hhit.
  replace budget with (k + (budget - k)) by lia.
  rewrite (pollLoop_misses k _ l0 Hmiss).
  rewrite (pollLoop_hit lambda _ _ ((l0 ++ missedRounds probe k) ++ [probe])).
  - now rewrite <- app_assoc.
  - rewrite (lambda_run (l0 ++ missedRounds probe k)). now rewrite Hhit.
Qed.

Lemma pollLoop_timeout (budget : nat) (l0 : Log) :
  (forall j, j <= budget ->
             fst (lambda (l0 ++ missedRounds probe j)) = Done false) ->
  pollLoop lambda budget l0
  = (Failed (Thrown "Timedout waiting for contrat deployment and NFT mint."),
     l0 ++ missedRounds probe (S budget)).
Proof.
  intros Hmiss.
  replace budget with (budget + 0) at 1 by lia.
  rewrite (pollLoop_misses budget 0 l0).
  - rewrite (pollLoop_miss_last lambda _
               ((l0 ++ missedRounds probe budget) ++ [probe])).
    + rewrite <- !app_assoc. f_equal. f_equal. apply missedRounds_snoc.
    + rewrite (lambda_run (l0 ++ missedRounds probe budget)).
      now rewrite (Hmiss budget (Nat.le_refl _)).
  - intros j Hj. apply Hmiss. lia.
Qed.

Lemma pollLoop_failure (budget : nat) (l0 : Log) (k : nat) (f : Failure) :
  k <= budget ->
  (forall j, j < k -> fst (lambda (l0 ++ missedRounds probe j)) = Done false) ->
  fst (lambda (l0 ++ missedRounds probe k)) = Failed f ->
  pollLoop lambda budget l0 = (Failed f, l0 ++ missedRounds probe k ++ [probe]).
Proof.
  intros Hk Hmiss Hfail.
  replace budget with (k + (budget - k)) by lia.
  rewrite (pollLoop_misses k _ l0 Hmiss).
  rewrite (pollLoop_failed lambda _ _
             ((l0 ++ missedRounds probe k) ++ [probe]) f).
  - now rewrite <- app_assoc.
  - rewrite (lambda_run (l0 ++ missedRounds probe k)). now rewrite Hfail.
Qed.

(** X14.  [pollForLambdaForComplete] returns as soon as the lambda yields
    true: when the first [k] attempts yield false and attempt [k + 1] yields
    true ([k] within the budget, 20 unless given), it has made exactly
    [k + 1] attempts, each failed one followed by a one-second wait, and no
    wait after the successful one. *)
Theorem pollForLambdaForComplete_success
    (txnMaxDurationSeconds : option nat) (l0 : Log) (k : nat) :
  k <= nullish txnMaxDurationSeconds 20 ->
  (forall j, j < k -> fst (lambda (l0 ++ missedRounds probe j)) = Done false) ->
  fst (lambda (l0 ++ missedRounds probe k)) = Done true ->
  pollForLambdaForComplete lambda txnMaxDurationSeconds l0
  = (Done true, l0 ++ missedRounds probe k ++ [probe]).
Proof. unfold pollForLambdaForComplete. apply pollLoop_success. Qed.

(** X15.  With a budget of [n] ([txnMaxDurationSeconds], 20 unless given)
    and a lambda that keeps yielding false, [pollForLambdaForComplete] makes
    [n + 1] attempts, waits one second after every one of them, the last
    included, and then throws its timeout error. *)
Theorem pollForLambdaForComplete_timeout
    (txnMaxDurationSeconds : option nat) (l0 : Log) :
  let budget := nullish txnMaxDurationSeconds 20 in
  (forall j, j <= budget ->
             fst (lambda (l0 ++ missedRounds probe j)) = Done false) ->
  pollForLambdaForComplete lambda txnMaxDurationSeconds l0
  = (Failed (Thrown "Timedout waiting for contrat deployment and NFT mint."),
     l0 ++ missedRounds probe (S budget)).
Proof. unfold pollForLambdaForComplete. apply pollLoop_timeout. Qed.

(** X16.  A failing lambda is not retried: when an attempt within the
    budget fails (a rejected client call), [pollForLambdaForComplete] fails
    with that failure at once, without a wait or a further attempt. *)
Theorem pollForLambdaForComplete_failure
    (txnMaxDurationSeconds : option nat) (l0 : Log) (k : nat) (f : Failure) :
  k <= nullish txnMaxDurationSeconds 20 ->
  (forall j, j < k -> fst (lambda (l0 ++ missedRounds probe j)) = Done false) ->
  fst (lambda (l0 ++ missedRounds probe k)) = Failed f ->
  pollForLambdaForComplete lambda txnMaxDurationSeconds l0
  = (Failed f, l0 ++ missedRounds probe k ++ [probe]).
Proof. unfold pollForLambdaForComplete. apply pollLoop_failure. Qed.

End OneCallPerAttempt.

(** The two lambdas, once their context check has passed. *)
Lemma receiptFound_run (context : OnboardingContext) (c : Client) (hash : Hash)
    (l : Log) :
  truthy (mintDeployOpHash context) = Some hash ->
  client context = Some c ->
  receiptFound context l
  = (match getUserOperationReceipt c l hash with
     | Resolves (Some _) => Done true
     | Resolves None => Done false
     | Rejects reason => Failed (Rejected reason)
     end, l ++ [GetUserOperationReceipt hash]).
Proof.
  intros Hhash Hclient. unfold receiptFound. rewrite Hhash, Hclient.
  unfold bind, call, ret.
  destruct (getUserOperationReceipt c l hash) as [[r|]|reason]; reflexivity.
Qed.

Lemma balanceReached_run (MIN : Z) (context : OnboardingContext) (c : Client)
    (address : Address) (l : Log) :
  truthy (smartAccountAddress context) = Some address ->
  client context = Some c ->
  balanceReached MIN context l
  = (match getBalance c l address with
     | Resolves val => Done (MIN <=? val)%Z
     | Rejects reason => Failed (Rejected reason)
     end, l ++ [GetBalance address]).
Proof.
  intros Haddress Hclient. unfold balanceReached. rewrite Haddress, Hclient.
  unfold bind, call, ret.
  destruct (getBalance c l address) as [val|reason]; reflexivity.
Qed.

(** X17.  The [CHECK_OP_COMPLETE] handler fails with "No mint deploy
    operation Hash was found" before calling anything when the context has no
    operation hash, or the empty string for one.  Otherwise it looks the receipt up until one is there,
    at most 21 times: a receipt on lookup [k + 1] (with [k <= 20]) sends the
    wizard on to [STORE_SCWALLET], adding nothing to the context, after
    exactly [k + 1] lookups; 21 lookups without a receipt, each followed by a
    one-second wait, end in the timeout error; and a rejected lookup is the
    handler's failure at once (it is not swallowed and retried, as the
    provider's own poller does). *)
Theorem handle_CHECK_OP_COMPLETE_polls (context : OnboardingContext) (l0 : Log) :
  (mintDeployOpHash context = None \/ mintDeployOpHash context = Some "" ->
   handle_CHECK_OP_COMPLETE context l0
   = (Failed (Thrown "No mint deploy operation Hash was found"), l0))
  /\ (forall hash c,
         mintDeployOpHash context = Some hash -> hash <> "" ->
         client context = Some c ->
         let probe := GetUserOperationReceipt hash in
         let answer j :=
           getUserOperationReceipt c (l0 ++ missedRounds probe j) hash in
         (forall k r,
             k <= 20 ->
             (forall j, j < k -> answer j = Resolves None) ->
             answer k = Resolves (Some r) ->
             handle_CHECK_OP_COMPLETE context l0
             = (Done (mkStepResult STORE_SCWALLET noAddedContext),
                l0 ++ missedRounds probe k ++ [probe]))
         /\ ((forall j, j <= 20 -> answer j = Resolves None) ->
             handle_CHECK_OP_COMPLETE context l0
             = (Failed (Thrown
                  "Timedout waiting for contrat deployment and NFT mint."),
                l0 ++ missedRounds probe 21))
         /\ (forall k reason,
                k <= 20 ->
                (forall j, j < k -> answer j = Resolves None) ->
                answer k = Rejects reason ->
                handle_CHECK_OP_COMPLETE context l0
                = (Failed (Rejected reason),
                   l0 ++ missedRounds probe k ++ [probe]))).
Proof.
  split.
  - intros Hnone. unfold handle_CHECK_OP_COMPLETE, pollForLambdaForComplete.
    cbn [nullish]. unfold bind at 1.
    rewrite (pollLoop_failed (receiptFound context) 20 l0 l0
               (Thrown "No mint deploy operation Hash was found")).
    + reflexivity.
    + unfold receiptFound. now rewrite (truthy_none _ Hnone).
  - intros hash c Hpresent Hne Hclient probe answer.
    pose proof (truthy_some _ _ Hpresent Hne) as Hhash.
    assert (Honce : forall l, snd (receiptFound context l) = l ++ [probe])
      by (intros l; now rewrite (receiptFound_run context c hash l Hhash Hclient)).
    assert (Hmisses : forall j, answer j = Resolves None ->
              fst (receiptFound context (l0 ++ missedRounds probe j)) = Done false).
    { intros j Hj. rewrite (receiptFound_run context c hash _ Hhash Hclient).
      fold probe. unfold answer in Hj. now rewrite Hj. }
    unfold handle_CHECK_OP_COMPLETE, pollForLambdaForComplete. cbn [nullish].
    split; [|split].
    + intros k r Hk Hmiss Hhit. unfold bind.
      rewrite (pollLoop_success (receiptFound context) probe Honce 20 l0 k Hk).
      * reflexivity.
      * intros j Hj. apply Hmisses, Hmiss, Hj.
      * rewrite (receiptFound_run context c hash _ Hhash Hclient).
        fold probe. unfold answer in Hhit. now rewrite Hhit.
    + intros Hmiss. unfold bind.
      rewrite (pollLoop_timeout (receiptFound context) probe Honce 20 l0).
      * reflexivity.
      * intros j Hj. apply Hmisses, Hmiss, Hj.
    + intros k reason Hk Hmiss Hreject. unfold bind.
      rewrite (pollLoop_failure (receiptFound context) probe Honce 20 l0 k
                 (Rejected reason) Hk).
      * reflexivity.
      * intros j Hj. apply Hmisses, Hmiss, Hj.
      * rewrite (receiptFound_run context c hash _ Hhash Hclient).
        fold probe. unfold answer in Hreject. now rewrite Hreject.
Qed.

(** X18.  The [FILL_SCWALLET] handler fails with "An account address to add
    funds was not found" before calling anything when the context has no
    account address, or the empty string for one.  Otherwise it queries the balance until it is at least
    [MIN_ONBOARDING_WALLET_BALANCE] (a balance equal to the minimum is
    enough), at most 301 times: a sufficient balance on query [k + 1] (with
    [k <= 300]) sends the wizard on to [MINT_NFT] after exactly [k + 1]
    queries; 301 insufficient balances, each followed by a one-second wait,
    end in the timeout error. *)
Theorem handle_FILL_SCWALLET_polls (MIN_ONBOARDING_WALLET_BALANCE : Z)
    (context : OnboardingContext) (l0 : Log) :
  let handler := handle_FILL_SCWALLET MIN_ONBOARDING_WALLET_BALANCE context in
  (smartAccountAddress context = None
   \/ smartAccountAddress context = Some "" ->
   handler l0
   = (Failed (Thrown "An account address to add funds was not found"), l0))
  /\ (forall address c,
         smartAccountAddress context = Some address -> address <> "" ->
         client context = Some c ->
         let probe := GetBalance address in
         let balance j := getBalance c (l0 ++ missedRounds probe j) address in
         (forall k val,
             k <= 300 ->
             (forall j, j < k ->
                exists low, balance j = Resolves low
                            /\ (low < MIN_ONBOARDING_WALLET_BALANCE)%Z) ->
             balance k = Resolves val ->
             (MIN_ONBOARDING_WALLET_BALANCE <= val)%Z ->
             handler l0
             = (Done (mkStepResult MINT_NFT noAddedContext),
                l0 ++ missedRounds probe k ++ [probe]))
         /\ ((forall j, j <= 300 ->
                exists low, balance j = Resolves low
                            /\ (low < MIN_ONBOARDING_WALLET_BALANCE)%Z) ->
             handler l0
             = (Failed (Thrown
                  "Timedout waiting for contrat deployment and NFT mint."),
                l0 ++ missedRounds probe 301))).
Proof.
  intros handler. subst handler. split.
  - intros Hnone. unfold handle_FILL_SCWALLET, pollForLambdaForComplete.
    cbn [nullish]. unfold bind at 1.
    rewrite (pollLoop_failed
               (balanceReached MIN_ONBOARDING_WALLET_BALANCE context)
               (60 * 5) l0 l0
               (Thrown "An account address to add funds was not found")).
    + reflexivity.
    + unfold balanceReached. now rewrite (truthy_none _ Hnone).
  - intros address c Hpresent Hne Hclient probe balance.
    pose proof (truthy_some _ _ Hpresent Hne) as Haddress.
    set (lambda := balanceReached MIN_ONBOARDING_WALLET_BALANCE context).
    assert (Honce : forall l, snd (lambda l) = l ++ [probe]).
    { intros l. subst lambda.
      now rewrite (balanceReached_run _ context c address l Haddress Hclient). }
    assert (Hmisses : forall j,
              (exists low, balance j = Resolves low
                           /\ (low < MIN_ONBOARDING_WALLET_BALANCE)%Z) ->
              fst (lambda (l0 ++ missedRounds probe j)) = Done false).
    { intros j [low [Hj Hlow]]. subst lambda.
      rewrite (balanceReached_run _ context c address _ Haddress Hclient).
      fold probe. unfold balance in Hj. rewrite Hj. cbn [fst]. f_equal.
      apply Z.leb_gt. exact Hlow. }
    unfold handle_FILL_SCWALLET, pollForLambdaForComplete. cbn [nullish].
    fold lambda. change (60 * 5) with 300.
    split.
    + intros k val Hk Hmiss Hhit Henough. unfold bind.
      rewrite (pollLoop_success lambda probe Honce 300 l0 k Hk).
      * reflexivity.
      * intros j Hj. apply Hmisses, Hmiss, Hj.
      * subst lambda.
        rewrite (balanceReached_run _ context c address _ Haddress Hclient).
        fold probe. unfold balance in Hhit. rewrite Hhit. cbn [fst]. f_equal.
        apply Z.leb_le. exact Henough.
    + intros Hmiss. unfold bind.
      rewrite (pollLoop_timeout lambda probe Honce 300 l0).
      * reflexivity.
      * intros j Hj. apply Hmisses, Hmiss, Hj.
Qed.

(** ** The polling theorems at a stub client *)

Lemma pollForLambdaForComplete_success_witness :
  let context := mkContext (Some (stubClient 2 0%Z)) None (Some "0xa1") in
  let probe := GetUserOperationReceipt "0xa1" in
  (forall l, snd (receiptFound context l) = l ++ [probe])
  /\ 2 <= nullish None 20
  /\ pollForLambdaForComplete (receiptFound context) None []
     = (Done true, [probe; Wait 1000; probe; Wait 1000; probe]).
Proof.
  cbv zeta.
  set (context := mkContext (Some (stubClient 2 0%Z)) None (Some "0xa1")).
  set (probe := GetUserOperationReceipt "0xa1").
  assert (Honce : forall l, snd (receiptFound context l) = l ++ [probe])
    by (intros l;
        now rewrite (receiptFound_run context (stubClient 2 0%Z) "0xa1" l
                       eq_refl eq_refl)).
  assert (Hk : 2 <= nullish None 20) by (cbn; lia).
  split; [exact Honce|]. split; [exact Hk|].
  apply (pollForLambdaForComplete_success (receiptFound context) probe Honce
           None [] 2 Hk).
  - intros [|[|j]] Hj; [reflexivity | reflexivity | lia].
  - reflexivity.
Defined.

Lemma pollForLambdaForComplete_timeout_witness :
  let context := mkContext (Some (stubClient 9 0%Z)) None (Some "0xa1") in
  let probe := GetUserOperationReceipt "0xa1" in
  (forall l, snd (receiptFound context l) = l ++ [probe])
  /\ pollForLambdaForComplete (receiptFound context) (Some 1) []
     = (Failed (Thrown "Timedout waiting for contrat deployment and NFT mint."),
        [probe; Wait 1000; probe; Wait 1000]).
Proof.
  cbv zeta.
  set (context := mkContext (Some (stubClient 9 0%Z)) None (Some "0xa1")).
  set (probe := GetUserOperationReceipt "0xa1").
  assert (Honce : forall l, snd (receiptFound context l) = l ++ [probe])
    by (intros l;
        now rewrite (receiptFound_run context (stubClient 9 0%Z) "0xa1" l
                       eq_refl eq_refl)).
  split; [exact Honce|].
  apply (pollForLambdaForComplete_timeout (receiptFound context) probe Honce
           (Some 1) []).
  intros [|[|j]] Hj; [reflexivity | reflexivity | cbn in Hj; lia].
Defined.

Lemma pollForLambdaForComplete_failure_witness :
  let c := mkClient (fun _ _ => Resolves 0%Z) (fun _ _ => Rejects "rpc down") in
  let context := mkContext (Some c) None (Some "0xa1") in
  let probe := GetUserOperationReceipt "0xa1" in
  (forall l, snd (receiptFound context l) = l ++ [probe])
  /\ pollForLambdaForComplete (receiptFound context) None []
     = (Failed (Rejected "rpc down"), [probe]).
Proof.
  cbv zeta.
  set (c := mkClient _ _).
  set (context := mkContext (Some c) None (Some "0xa1")).
  set (probe := GetUserOperationReceipt "0xa1").
  assert (Honce : forall l, snd (receiptFound context l) = l ++ [probe])
    by (intros l;
        now rewrite (receiptFound_run context c "0xa1" l eq_refl eq_refl)).
  split; [exact Honce|].
  apply (pollForLambdaForComplete_failure (receiptFound context) probe Honce
           None [] 0 (Rejected "rpc down")).
  - cbn. lia.
  - intros j Hj. lia.
  - reflexivity.
Defined.

Lemma handle_CHECK_OP_COMPLETE_polls_witness :
  let context := mkContext (Some (stubClient 1 0%Z)) None (Some "0xa1") in
  let probe := GetUserOperationReceipt "0xa1" in
  handle_CHECK_OP_COMPLETE context []
  = (Done (mkStepResult STORE_SCWALLET noAddedContext),
     [probe; Wait 1000; probe])
  /\ handle_CHECK_OP_COMPLETE (mkContext (Some (stubClient 1 0%Z)) None None) []
     = (Failed (Thrown "No mint deploy operation Hash was found"), [])
  /\ handle_CHECK_OP_COMPLETE
       (mkContext (Some (stubClient 1 0%Z)) None (Some "")) []
     = (Failed (Thrown "No mint deploy operation Hash was found"), []).
Proof.
  cbv zeta.
  set (context := mkContext (Some (stubClient 1 0%Z)) None (Some "0xa1")).
  split; [|split].
  - destruct (handle_CHECK_OP_COMPLETE_polls context []) as [_ Hpolls].
    destruct (Hpolls "0xa1" (stubClient 1 0%Z) eq_refl) as [Hfound _];
      [discriminate | reflexivity |].
    apply (Hfound 1 (mkUserOperationReceipt (mkTransactionReceipt "0xbb"))).
    + lia.
    + intros [|j] Hj; [reflexivity | lia].
    + reflexivity.
  - exact (proj1 (handle_CHECK_OP_COMPLETE_polls
                    (mkContext (Some (stubClient 1 0%Z)) None None) [])
             (or_introl eq_refl)).
  - exact (proj1 (handle_CHECK_OP_COMPLETE_polls
                    (mkContext (Some (stubClient 1 0%Z)) None (Some "")) [])
             (or_intror eq_refl)).
Defined.

Lemma handle_FILL_SCWALLET_polls_witness :
  let context := mkContext (Some (stubClient 1 100%Z)) (Some "0xacc") None in
  let probe := GetBalance "0xacc" in
  handle_FILL_SCWALLET 100%Z context []
  = (Done (mkStepResult MINT_NFT noAddedContext), [probe; Wait 1000; probe])
  /\ handle_FILL_SCWALLET 100%Z
       (mkContext (Some (stubClient 1 100%Z)) (Some "") None) []
     = (Failed (Thrown "An account address to add funds was not found"), []).
Proof.
  cbv zeta.
  set (context := mkContext (Some (stubClient 1 100%Z)) (Some "0xacc") None).
  split.
  - destruct (handle_FILL_SCWALLET_polls 100%Z context []) as [_ Hpolls].
    destruct (Hpolls "0xacc" (stubClient 1 100%Z) eq_refl) as [Hfound _];
      [discriminate | reflexivity |].
    apply (Hfound 1 100%Z).
    + lia.
    + intros [|j] Hj; [|lia]. exists 0%Z. split; [reflexivity | lia].
    + reflexivity.
    + lia.
  - exact (proj1 (handle_FILL_SCWALLET_polls 100%Z
                    (mkContext (Some (stubClient 1 100%Z)) (Some "") None) [])
             (or_intror eq_refl)).
Defined.

End OnboardingProperties.
